(** * telegram_number_checker: a shallow embedding of [main.py]

    The first part follows the source file top to bottom: the Python
    built-ins the program relies on ([str.strip], [str.split], [str.lower],
    [int], [str], [repr], text-mode files), then [read_proxy_settings], the
    resume cursor, [get_names], [save_to_excel], [validate_users], [login],
    [run_program] and [main_entrypoint].  It ends with the vocabulary of the
    specification and the concrete scenarios used as examples.  The second
    part states and proves the properties.

    Modelling conventions.
    - Text is [string]; a character is an 8-bit code point (Latin-1 range).
    - Python integers are [Z]; interpreter resource limits (recursion depth,
      digit limits of integer conversion) are not part of the model.
    - The file system is a finite map from paths to files; a file is either
      a text file or a workbook, and a workbook is the list of the rows
      handed to the spreadsheet library.  What that library does to the
      cells of a row when it writes and re-reads a workbook (types inferred
      anew, large integers stored as floating-point numbers, empty rows) is
      not modelled: the rows read back are the rows that were written.
      Writes succeed.
    - Effects are threaded through a [world]: the file system and the trace
      of observable events (console output, sleeps, requests), most recent
      first.  Time is the time spent in [asyncio.sleep].
    - The Telegram client library and the operator at the terminal are
      oracles that answer from the trace so far; what they raise is a
      subclass of [Exception].  Creating a client and disconnecting it are
      events of the trace; the session file and the failures of these two
      calls are not modelled.
    - [get_names] recurses on every rate-limit signal; the model bounds the
      number of attempts by [fuel] and [validate_users] the number of turns,
      and [Diverge] is the answer of a bound that was too small. *)

From Stdlib Require Import ZArith Ascii String Bool Lia.
From stdpp Require Import gmap strings list.

Local Open Scope Z_scope.

(** ** Characters and the string built-ins *)

Module Py.

Definition code (c : ascii) : Z := Z.of_N (N_of_ascii c).

Definition between (lo hi : Z) (c : ascii) : bool :=
  (lo <=? code c) && (code c <=? hi).

(** [str.isspace] on one character (code points below 256). *)
Definition isspace (c : ascii) : bool :=
  between 9 13 c || between 28 32 c || (code c =? 133) || (code c =? 160).

(** ASCII decimal digits, the only decimal digits below code point 256. *)
Definition isdigit (c : ascii) : bool := between 48 57 c.

Definition digit_val (c : ascii) : Z := code c - 48.

Definition chr (z : Z) : ascii := ascii_of_N (Z.to_N z).

Definition is_empty (s : string) : bool :=
  match s with EmptyString => true | String _ _ => false end.

Fixpoint lstrip (s : string) : string :=
  match s with
  | EmptyString => EmptyString
  | String c r => if isspace c then lstrip r else s
  end.

Fixpoint rstrip (s : string) : string :=
  match s with
  | EmptyString => EmptyString
  | String c r =>
      let r' := rstrip r in
      if isspace c && is_empty r' then EmptyString else String c r'
  end.

(** [s.strip()] *)
Definition strip (s : string) : string := lstrip (rstrip s).

(** [s.split(sep)] for a one-character separator. *)
Fixpoint split (sep : ascii) (s : string) : list string :=
  match s with
  | EmptyString => [EmptyString]
  | String c r =>
      if Ascii.eqb c sep then EmptyString :: split sep r
      else match split sep r with
           | h :: t => String c h :: t
           | [] => [String c EmptyString]
           end
  end.

(** [str.lower] on one character: A-Z and the Latin-1 capitals. *)
Definition lower_char (c : ascii) : ascii :=
  if between 65 90 c || (between 192 222 c && negb (code c =? 215))
  then chr (code c + 32) else c.

Fixpoint lower (s : string) : string :=
  match s with
  | EmptyString => EmptyString
  | String c r => String (lower_char c) (lower r)
  end.

(** [needle in hay] on strings. *)
Fixpoint startswith (p s : string) : bool :=
  match p, s with
  | EmptyString, _ => true
  | String a p', String b s' => Ascii.eqb a b && startswith p' s'
  | String _ _, EmptyString => false
  end.

Fixpoint contains (needle hay : string) : bool :=
  startswith needle hay ||
  match hay with
  | EmptyString => false
  | String _ r => contains needle r
  end.

(** *** [int(s)]

    Base-10 conversion: surrounding blanks are dropped, one sign is allowed,
    then digits, where single underscores may separate digits.  [None]
    stands for [ValueError].

    The blanks [int] drops are fewer than those of [str.strip]: the
    conversion turns the non-ASCII spaces (codes 133 and 160) into a space
    and then skips tab, line feed, vertical tab, form feed, carriage return
    and space only.  The separators 28 to 31, which [str.isspace] accepts,
    make [int] fail. *)
Definition int_space (c : ascii) : bool :=
  between 9 13 c || (code c =? 32) || (code c =? 133) || (code c =? 160).

Fixpoint int_lstrip (s : string) : string :=
  match s with
  | EmptyString => EmptyString
  | String c r => if int_space c then int_lstrip r else s
  end.

Fixpoint int_rstrip (s : string) : string :=
  match s with
  | EmptyString => EmptyString
  | String c r =>
      let r' := int_rstrip r in
      if int_space c && is_empty r' then EmptyString else String c r'
  end.

Fixpoint int_digits (s : string) (acc : Z) (after_digit : bool) : option Z :=
  match s with
  | EmptyString => if after_digit then Some acc else None
  | String c r =>
      if isdigit c then int_digits r (10 * acc + digit_val c) true
      else if Ascii.eqb c "_" && after_digit then
        match r with
        | EmptyString => None
        | String d _ => if isdigit d then int_digits r acc false else None
        end
      else None
  end.

Definition int (s : string) : option Z :=
  match int_lstrip (int_rstrip s) with
  | String "+" r => int_digits r 0 false
  | String "-" r => Z.opp <$> int_digits r 0 false
  | t => int_digits t 0 false
  end.

(** *** [str(n)] *)
Fixpoint digits_of (fuel : nat) (n : Z) (acc : string) : string :=
  let acc' := String (chr (48 + n mod 10)) acc in
  match fuel with
  | O => acc'
  | S f => if n <? 10 then acc' else digits_of f (n / 10) acc'
  end.

Definition str_nonneg (n : Z) : string :=
  digits_of (Z.to_nat (Z.log2 n)) n EmptyString.

Definition str (n : Z) : string :=
  if n <? 0 then String "-" (str_nonneg (- n)) else str_nonneg n.

(** *** [repr(s)] for a string *)
Definition hex_digit (z : Z) : ascii :=
  if z <? 10 then chr (48 + z) else chr (87 + z).

Definition hex_escape (c : ascii) : string :=
  String "\" (String "x" (String (hex_digit (code c / 16))
                            (String (hex_digit (code c mod 16)) EmptyString))).

(** Printable characters are kept; the others are escaped. *)
Definition isprintable (c : ascii) : bool :=
  between 32 126 c || (between 161 255 c && negb (code c =? 173)).

Definition dquote : ascii := "034"%char.

Fixpoint count_char (q : ascii) (s : string) : nat :=
  match s with
  | EmptyString => O
  | String c r => (if Ascii.eqb c q then 1 else 0)%nat + count_char q r
  end.

Definition repr_char (quote c : ascii) : string :=
  if Ascii.eqb c quote || Ascii.eqb c "\" then String "\" (String c EmptyString)
  else if code c =? 9 then "\t"
  else if code c =? 10 then "\n"
  else if code c =? 13 then "\r"
  else if isprintable c then String c EmptyString
  else hex_escape c.

Fixpoint repr_body (quote : ascii) (s : string) : string :=
  match s with
  | EmptyString => EmptyString
  | String c r => repr_char quote c +:+ repr_body quote r
  end.

Definition repr (s : string) : string :=
  let quote : ascii :=
    if (0 <? count_char "'" s)%nat && (count_char dquote s =? 0)%nat
    then dquote else "'"%char in
  String quote (repr_body quote s +:+ String quote EmptyString).

(** [s[:n]] *)
Fixpoint take (n : nat) (s : string) : string :=
  match n, s with
  | S m, String c r => String c (take m r)
  | _, _ => EmptyString
  end.

End Py.

(** ** Values, exceptions and the effect layer *)

(** The values the program stores in its dictionaries.  Account metadata is
    passed through uninterpreted; [VObj] stands for any other object and
    carries its printed form. *)
Inductive value :=
  | VNone
  | VBool (b : bool)
  | VInt (n : Z)
  | VStr (s : string)
  | VObj (printed : string).

(** A Python [dict] with string keys. *)
Abbreviation dict := (gmap string value).

(** [d.update(e)] *)
Definition update (d e : dict) : dict := e ∪ d.

(** The exceptions of the model are subclasses of [Exception]; each carries
    its message [str(e)].  [Exception] stands for every class that the
    program does not tell apart (RPC and connection errors, [EOFError], ...). *)
Inductive exn :=
  | TypeError (msg : string)
  | FloodWaitError (seconds : Z) (msg : string)
  | SessionPasswordNeededError (msg : string)
  | ValueError (msg : string)
  | IndexError (msg : string)
  | AttributeError (msg : string)
  | FileNotFoundError (msg : string)
  | Exception (msg : string).

Definition exn_str (e : exn) : string :=
  match e with
  | TypeError m | FloodWaitError _ m | SessionPasswordNeededError m
  | ValueError m | IndexError m | AttributeError m | FileNotFoundError m
  | Exception m => m
  end.

(** What a call into a collaborator answers. *)
Inductive reply (A : Type) :=
  | Returns (a : A)
  | Raises (e : exn).
Arguments Returns {A} a.
Arguments Raises {A} e.

(** What a computation of the program ends with; [Diverge] is the bounded
    model running out of steps. *)
Inductive outcome (A : Type) :=
  | Ok (a : A)
  | Raise (e : exn)
  | Diverge.
Arguments Ok {A} a.
Arguments Raise {A} e.
Arguments Diverge {A}.

Inductive transport := SOCKS5 | HTTP.

(** The 6-tuple built by [read_proxy_settings]. *)
Record proxy := Proxy {
  proxy_type : transport;
  addr : string;
  port : Z;
  rdns : bool;
  proxy_username : option string;
  proxy_password : option string
}.

Inductive file :=
  | TextFile (contents : string)
  | Workbook (rows : list dict).

Inductive event :=
  | Stdout (text : string)
  | Sleep (seconds : Z)
  | Input (prompt : string)
  | Getpass (prompt : string)
  | NewClient (p : proxy)
  | Connect (p : proxy)
  | IsUserAuthorized (p : proxy)
  | SendCodeRequest (p : proxy)
  | SignInCode (p : proxy) (code : string)
  | SignInPassword (p : proxy) (pw : string)
  | Disconnect (p : proxy)
  | ImportContactsRequest (phone : string)
  | DeleteContactsRequest (id : Z).

(** The trace holds the most recent event first. *)
Record world := World {
  fs : gmap string file;
  trace : list event
}.

Definition M (A : Type) : Type := world -> outcome A * world.

Definition ret {A} (a : A) : M A := fun w => (Ok a, w).

Definition raise {A} (e : exn) : M A := fun w => (Raise e, w).

Definition bind {A B} (m : M A) (k : A -> M B) : M B :=
  fun w =>
    match m w with
    | (Ok a, w') => k a w'
    | (Raise e, w') => (Raise e, w')
    | (Diverge, w') => (Diverge, w')
    end.

Notation "x <- m ;; k" := (bind m (fun x => k))
  (at level 20, m at level 99, k at level 200, only parsing).
Notation "m ;; k" := (bind m (fun _ => k))
  (at level 100, k at level 200, right associativity, only parsing).

(** [try: m except Exception as e: h e] *)
Definition try_except {A} (m : M A) (h : exn -> M A) : M A :=
  fun w =>
    match m w with
    | (Raise e, w') => h e w'
    | r => r
    end.

Definition emit (ev : event) : M unit :=
  fun w => (Ok tt, World (fs w) (ev :: trace w)).

Definition nl : string := String (Py.chr 10) EmptyString.

(** [print(text)], and [print] with an empty [end]. *)
Definition print (text : string) : M unit := emit (Stdout (text +:+ nl)).
Definition print_noend (text : string) : M unit := emit (Stdout text).

(** [asyncio.sleep(seconds)] *)
Definition sleep (seconds : Z) : M unit := emit (Sleep seconds).

(** A request to a collaborator: it answers from the trace before the
    request, and the request [ev] is recorded. *)
Definition call {A} (ev : event) (answer : list event -> reply A) : M A :=
  fun w =>
    match answer (trace w) with
    | Returns a => (Ok a, World (fs w) (ev :: trace w))
    | Raises e => (Raise e, World (fs w) (ev :: trace w))
    end.

(** Time spent suspended in [asyncio.sleep]. *)
Fixpoint elapsed (t : list event) : Z :=
  match t with
  | [] => 0
  | Sleep s :: r => Z.max 0 s + elapsed r
  | _ :: r => elapsed r
  end.

(** ** Text files *)

(** Lines of a file opened in text mode, each ending in a line feed except
    possibly the last; carriage returns are translated. *)
Fixpoint readlines (s : string) : list string :=
  match s with
  | EmptyString => []
  | String c r =>
      if Py.code c =? 10 then nl :: readlines r
      else if Py.code c =? 13 then
        match r with
        | String d r' => if Py.code d =? 10 then nl :: readlines r'
                         else nl :: readlines r
        | EmptyString => [nl]
        end
      else match readlines r with
           | h :: t => String c h :: t
           | [] => [String c EmptyString]
           end
  end.

(** [f.readline()] on a freshly opened file. *)
Definition readline (s : string) : string :=
  match readlines s with
  | h :: _ => h
  | [] => EmptyString
  end.

(** [open(file_path, 'r')] *)
Definition open_text (file_path : string) : M string :=
  fun w =>
    match fs w !! file_path with
    | Some (TextFile s) => (Ok s, w)
    | Some (Workbook _) =>
        (Raise (ValueError "'utf-8' codec can't decode byte"), w)
    | None =>
        (Raise (FileNotFoundError
                  ("[Errno 2] No such file or directory: " +:+ Py.repr file_path)), w)
    end.

(** ** [read_proxy_settings] *)

(** The message of the [ValueError] of [int(s)]: the argument is shown as
    [repr] does, cut after 200 characters. *)
Definition int_error (s : string) : string :=
  "invalid literal for int() with base 10: " +:+ Py.take 200 (Py.repr s).

Definition py_int (s : string) : M Z :=
  match Py.int s with
  | Some z => ret z
  | None => raise (ValueError (int_error s))
  end.

Definition proxy_line (line : string) (proxies : list proxy) : M (list proxy) :=
  let proxy_data := Py.split "," (Py.strip line) in
  if (length proxy_data <? 3)%nat then
    print ("Skipping improperly formatted line: " +:+ line) ;;
    ret proxies
  else
    let kind :=
      if String.eqb (Py.lower (proxy_data !!! 0%nat)) "socks5" then SOCKS5 else HTTP in
    p <- py_int (proxy_data !!! 2%nat) ;;
    ret (proxies ++
           [Proxy kind (proxy_data !!! 1%nat) p true
                  (proxy_data !! 3%nat) (proxy_data !! 4%nat)]).

Fixpoint proxy_lines (lines : list string) (proxies : list proxy) : M (list proxy) :=
  match lines with
  | [] => ret proxies
  | line :: rest => ps <- proxy_line line proxies ;; proxy_lines rest ps
  end.

Definition read_proxy_settings (file_path : string) : M (list proxy) :=
  text <- open_text file_path ;;
  proxy_lines (readlines text) [].

(** ** The resume cursor *)

Definition read_last_checked_number (file_path : string) : M string :=
  text <- open_text file_path ;;
  ret (Py.strip (readline text)).

Definition write_last_checked_number (file_path number : string) : M unit :=
  fun w => (Ok tt, World (<[file_path := TextFile number]> (fs w)) (trace w)).

Definition increment_phone_number (phone_number : string) : M string :=
  n <- py_int phone_number ;;
  ret (Py.str (n + 1)).

(** ** The remote service and the operator *)

Inductive user_status :=
  | UserStatusOnline
  | UserStatusOffline (was_online : string)
      (* the rendering of the time stamp by [strftime("%Y-%m-%d %H:%M:%S %Z")] *)
  | UserStatusRecently
  | UserStatusLastWeek
  | UserStatusLastMonth
  | UserStatusEmpty
  | NoStatus.

Record user := {
  id : Z;
  username : value;
  usernames : value;
  first_name : value;
  last_name : value;
  fake : value;
  verified : value;
  premium : value;
  mutual_contact : value;
  bot : value;
  bot_chat_history : value;
  restricted : value;
  restriction_reason : value;
  status : user_status;
  phone : value
}.

(** The objects of a [users] vector: a full [User], or a [UserEmpty] that has
    an [id] and nothing else. *)
Inductive tl_user :=
  | User (u : user)
  | UserEmpty (uid : Z).

Definition tl_id (u : tl_user) : Z :=
  match u with User u => id u | UserEmpty i => i end.

(** The Telegram client library: every method answers from the trace. *)
Record telegram := {
  connect : proxy -> list event -> reply unit;
  is_user_authorized : proxy -> list event -> reply bool;
  send_code_request : proxy -> list event -> reply unit;
  sign_in_code : proxy -> string -> list event -> reply unit;
  sign_in_password : proxy -> string -> list event -> reply unit;
  import_contacts : string -> list event -> reply (list tl_user);
  delete_contacts : Z -> list event -> reply (list tl_user)
}.

(** The operator typing at the terminal. *)
Record operator := {
  input : string -> list event -> reply string;
  getpass : string -> list event -> reply string
}.

(** ** [get_human_readable_user_status] *)

Definition get_human_readable_user_status (st : user_status) : string :=
  match st with
  | UserStatusOnline => "Currently online"
  | UserStatusOffline was_online => was_online
  | UserStatusRecently => "Last seen recently"
  | UserStatusLastWeek => "Last seen last week"
  | UserStatusLastMonth => "Last seen last month"
  | _ => "Unknown"
  end.

(** ** [get_names] *)

Definition not_registered_message : string :=
  "No response, the phone number is not on Telegram or has blocked contact adding.".

Definition ambiguous_message : string :=
  "This phone number matched multiple Telegram accounts, " +:+ nl +:+
  "            which is unexpected. Please contact the developer.".

Definition transient_message (e phone_number : string) : string :=
  "TypeError: " +:+ e +:+
  ". --> The error might have occurred due to the inability to delete the phone_number="
  +:+ Py.repr phone_number +:+ " from the contact list.".

Definition unexpected_message (e : string) : string :=
  "Unexpected error: " +:+ e +:+ ".".

Definition error_result (msg : string) : dict := {[ "error" := VStr msg ]}.

(** The dictionary built from the user object of the deletion response. *)
Definition found_record (u : user) : dict :=
  list_to_map
    [ ("id", VInt (id u));
      ("username", username u);
      ("usernames", usernames u);
      ("first_name", first_name u);
      ("last_name", last_name u);
      ("fake", fake u);
      ("verified", verified u);
      ("premium", premium u);
      ("mutual_contact", mutual_contact u);
      ("bot", bot u);
      ("bot_chat_history", bot_chat_history u);
      ("restricted", restricted u);
      ("restriction_reason", restriction_reason u);
      ("user_was_online", VStr (get_human_readable_user_status (status u)));
      ("phone", phone u) ].

(** [updates_response.users[0]] *)
Definition first_user (users : list tl_user) : M tl_user :=
  match users with
  | u :: _ => ret u
  | [] => raise (IndexError "list index out of range")
  end.

Definition user_fields (u : tl_user) : M dict :=
  match u with
  | User u => ret (found_record u)
  | UserEmpty _ => raise (AttributeError "'UserEmpty' object has no attribute 'username'")
  end.

(** The body of the [try] block; [result] is the local dictionary. *)
Definition lookup_body (client : telegram) (phone_number : string) (result : dict) : M dict :=
  users <- call (ImportContactsRequest phone_number) (import_contacts client phone_number) ;;
  match users with
  | [] => ret (update result (error_result not_registered_message))
  | [u0] =>
      updates_users <- call (DeleteContactsRequest (tl_id u0))
                            (delete_contacts client (tl_id u0)) ;;
      u <- first_user updates_users ;;
      fields <- user_fields u ;;
      ret (update result fields)
  | _ => ret (update result (error_result ambiguous_message))
  end.

Definition record (ev : event) (w : world) : world :=
  World (fs w) (ev :: trace w).

Definition checking_line (phone_number : string) : event :=
  Stdout ("Checking: phone_number=" +:+ Py.repr phone_number +:+ " ...").

Definition rate_limit_line (wait_time : Z) : event :=
  Stdout ("Rate limit hit. Waiting for " +:+ Py.str wait_time +:+ " seconds." +:+ nl).

Definition done_line : event := Stdout ("Done." +:+ nl).

(** One call of [get_names].  The first component of the answer is the
    local [result] of the frame that ended the lookup, the second what the
    call returns or raises.  [fuel] bounds the number of attempts. *)
Fixpoint get_names_frame (fuel : nat) (client : telegram) (phone_number : string)
    (w : world) : (dict * outcome dict) * world :=
  match fuel with
  | O => ((∅, Diverge), w)
  | S fuel' =>
      let result : dict := ∅ in
      match lookup_body client phone_number result (record (checking_line phone_number) w) with
      | (Ok result', w1) => ((result', Ok result'), record done_line w1)
      | (Raise (TypeError e), w1) =>
          let result' := update result (error_result (transient_message e phone_number)) in
          ((result', Ok result'), record done_line w1)
      | (Raise (FloodWaitError wait_time _), w1) =>
          get_names_frame fuel' client phone_number
            (record (Sleep wait_time) (record (rate_limit_line wait_time) w1))
      | (Raise e, w1) =>
          let result' := update result (error_result (unexpected_message (exn_str e))) in
          ((result', Raise e), w1)
      | (Diverge, w1) => ((result, Diverge), w1)
      end
  end.

Definition get_names (fuel : nat) (client : telegram) (phone_number : string) : M dict :=
  fun w => let '((_, r), w') := get_names_frame fuel client phone_number w in (r, w').

(** ** [save_to_excel]

    An existing workbook is read, the new one-row frame is concatenated to
    it and the whole is written back; an absent file is created with the
    one row.  The frames are lists of rows: the rows read back are the rows
    that were handed over when the workbook was written. *)

Definition save_to_excel (file_path : string) (data : dict) : M unit :=
  fun w =>
    let df := [data] in
    match fs w !! file_path with
    | Some (Workbook df_existing) =>
        print ("Results saved to " +:+ file_path)
              (World (<[file_path := Workbook (df_existing ++ df)]> (fs w)) (trace w))
    | Some (TextFile _) =>
        (Raise (ValueError
                  "Excel file format cannot be determined, you must specify an engine manually."), w)
    | None =>
        print ("Results saved to " +:+ file_path)
              (World (<[file_path := Workbook df]> (fs w)) (trace w))
    end.

(** ** [validate_users] *)

Record loop_state := LoopState {
  phone_number : string;
  result : gmap string dict
}.

Inductive control :=
  | Continue (st : loop_state)
  | Break (st : loop_state).

Definition delay : Z := 5.

Definition value_str (v : value) : string :=
  match v with
  | VNone => "None"
  | VBool true => "True"
  | VBool false => "False"
  | VInt n => Py.str n
  | VStr s => s
  | VObj s => s
  end.

(** [needle in v] *)
Definition str_in (needle : string) (v : value) : M bool :=
  match v with
  | VStr s => ret (Py.contains needle s)
  | _ => raise (TypeError "argument is not iterable")
  end.

Definition advance (file_path : string) (st : loop_state) : M control :=
  next <- increment_phone_number (phone_number st) ;;
  write_last_checked_number file_path next ;;
  sleep delay ;;
  ret (Continue (LoopState next (result st))).

(** One turn of the [while True] loop. *)
Definition validate_iter (retries : nat) (client : telegram)
    (file_path excel_file : string) (st : loop_state) : M control :=
  match result st !! phone_number st with
  | Some _ => ret (Continue st)
  | None =>
      r <- get_names retries client (phone_number st) ;;
      let st := LoopState (phone_number st) (<[phone_number st := r]> (result st)) in
      match r !! "error" with
      | Some err =>
          print ("Error for " +:+ phone_number st +:+ ": " +:+ value_str err) ;;
          absent <- str_in "not on Telegram" err ;;
          if absent : bool then advance file_path st
          else
            print ("Unexpected error for " +:+ phone_number st +:+ ": " +:+ value_str err) ;;
            ret (Break st)
      | None =>
          save_to_excel excel_file r ;;
          advance file_path st
      end
  end.

(** The loop, bounded by [fuel] turns. *)
Fixpoint validate_loop (fuel retries : nat) (client : telegram)
    (file_path excel_file : string) (st : loop_state) : M (gmap string dict) :=
  match fuel with
  | O => fun w => (Diverge, w)
  | S fuel' =>
      c <- validate_iter retries client file_path excel_file st ;;
      match c with
      | Continue st' => validate_loop fuel' retries client file_path excel_file st'
      | Break st' => ret (result st')
      end
  end.

Definition validate_users (fuel retries : nat) (client : telegram)
    (phone_number file_path excel_file : string) : M (gmap string dict) :=
  validate_loop fuel retries client file_path excel_file (LoopState phone_number ∅).

(** The state after [n] turns, when none of them left the loop. *)
Fixpoint turns (n retries : nat) (client : telegram)
    (file_path excel_file : string) (st : loop_state) : M control :=
  match n with
  | O => ret (Continue st)
  | S n' =>
      c <- validate_iter retries client file_path excel_file st ;;
      match c with
      | Continue st' => turns n' retries client file_path excel_file st'
      | Break st' => ret (Break st')
      end
  end.

(** ** [login] *)

Definition SOCKS5_code : Z := 2.
Definition HTTP_code : Z := 3.

Definition repr_option (o : option string) : string :=
  match o with Some s => Py.repr s | None => "None" end.

(** [str(proxy)] of the 6-tuple. *)
Definition proxy_str (p : proxy) : string :=
  "(" +:+ Py.str (match proxy_type p with SOCKS5 => SOCKS5_code | HTTP => HTTP_code end)
  +:+ ", " +:+ Py.repr (addr p)
  +:+ ", " +:+ Py.str (port p)
  +:+ ", " +:+ (if rdns p then "True" else "False")
  +:+ ", " +:+ repr_option (proxy_username p)
  +:+ ", " +:+ repr_option (proxy_password p) +:+ ")".

Definition code_prompt : string := "Enter the code (sent on telegram): ".
Definition password_prompt : string :=
  "Two-Step Verification enabled. Please enter your account password: ".

(** A [TelegramClient] is identified by the proxy it was created with. *)
Record TelegramClient := Client { client_proxy : proxy }.

Definition sign_in (client : telegram) (op : operator) (p : proxy) : M unit :=
  call (SendCodeRequest p) (send_code_request client p) ;;
  try_except
    (code <- call (Input code_prompt) (input op code_prompt) ;;
     call (SignInCode p code) (sign_in_code client p code))
    (fun e =>
       match e with
       | SessionPasswordNeededError _ =>
           pw <- call (Getpass password_prompt) (getpass op password_prompt) ;;
           call (SignInPassword p pw) (sign_in_password client p pw)
       | _ => raise e
       end).

(** The [try] block of one proxy. *)
Definition connect_and_authorize (client : telegram) (op : operator) (p : proxy)
    : M TelegramClient :=
  call (Connect p) (connect client p) ;;
  authorized <- call (IsUserAuthorized p) (is_user_authorized client p) ;;
  (if authorized : bool then ret tt else sign_in client op p) ;;
  print "Done." ;;
  ret (Client p).

Definition failed_line (p : proxy) (e : exn) : string :=
  "Failed to connect with proxy " +:+ proxy_str p +:+ ": " +:+ exn_str e.

(** The body of the [for] loop: [Some] client is the early [return].
    The client is created before the [try] block and disconnected in its
    handler; both calls are recorded in the trace and taken to return. *)
Definition try_proxy (client : telegram) (op : operator) (p : proxy)
    : M (option TelegramClient) :=
  emit (NewClient p) ;;
  try_except
    (c <- connect_and_authorize client op p ;; ret (Some c))
    (fun e => print (failed_line p e) ;; emit (Disconnect p) ;; ret None).

Definition AllProxiesFailedError : exn := Exception "All proxies failed".

Fixpoint for_proxies (client : telegram) (op : operator) (proxies : list proxy)
    : M TelegramClient :=
  match proxies with
  | [] => raise AllProxiesFailedError
  | p :: rest =>
      r <- try_proxy client op p ;;
      match r with
      | Some c => ret c
      | None => for_proxies client op rest
      end
  end.

Definition login (client : telegram) (op : operator) (proxies : list proxy)
    : M TelegramClient :=
  print_noend "Logging in..." ;;
  for_proxies client op proxies.

(** ** [run_program] *)

Definition run_program (fuel retries : nat) (client : telegram) (op : operator)
    (phone_number output : string) (proxies : list proxy) (file_path : string) : M unit :=
  c <- login client op proxies ;;
  validate_users fuel retries client phone_number file_path output ;;
  emit (Disconnect (client_proxy c)).

(** ** [main_entrypoint] *)

Definition main_entrypoint (fuel retries : nat) (client : telegram) (op : operator)
    (phone_numbers_file output : string) : M unit :=
  proxies <- read_proxy_settings "proxy.txt" ;;
  phone_number <- read_last_checked_number phone_numbers_file ;;
  run_program fuel retries client op phone_number output proxies phone_numbers_file.

(** ** Vocabulary of the specification *)

(** A decimal numeral: a non-empty string of the digits 0-9. *)
Fixpoint all_digits (s : string) : bool :=
  match s with
  | EmptyString => true
  | String c r => Py.isdigit c && all_digits r
  end.

Definition numeral (s : string) : bool := negb (Py.is_empty s) && all_digits s.

(** The number a numeral denotes, read digit by digit. *)
Fixpoint value_from (acc : Z) (s : string) : Z :=
  match s with
  | EmptyString => acc
  | String c r => value_from (10 * acc + Py.digit_val c) r
  end.

Definition numeral_value (s : string) : Z := value_from 0 s.

Definition leading_zero (s : string) : bool := Py.startswith "0" s.

(** The rows of the result store at a path; an absent store has none. *)
Definition rows_at (w : world) (file_path : string) : list dict :=
  match fs w !! file_path with
  | Some (Workbook rows) => rows
  | _ => []
  end.

(** The path is free or holds a workbook. *)
Definition store_or_absent (w : world) (file_path : string) : Prop :=
  fs w !! file_path = None \/ exists rows, fs w !! file_path = Some (Workbook rows).

(** *** Proxy list lines *)

Definition fields (line : string) : list string := Py.split "," (Py.strip line).

(** A line with at least three comma-separated fields. *)
Definition well_formed (line : string) : bool := negb (length (fields line) <? 3)%nat.

(** The same character up to the case of an ASCII letter. *)
Definition other_case (c : ascii) : ascii :=
  if Py.between 65 90 c then Py.chr (Py.code c + 32)
  else if Py.between 97 122 c then Py.chr (Py.code c - 32)
  else c.

Definition same_letter (x y : ascii) : bool :=
  Ascii.eqb x y || Ascii.eqb (other_case x) y.

(** Equality of strings ignoring the case of letters. *)
Fixpoint ci_equal (a b : string) : bool :=
  match a, b with
  | EmptyString, EmptyString => true
  | String x a', String y b' => same_letter x y && ci_equal a' b'
  | _, _ => false
  end.

(** Strings of lower-case ASCII letters and digits, such as "socks5". *)
Definition target_char (y : ascii) : bool :=
  Py.between 97 122 y || Py.isdigit y.

Fixpoint target (t : string) : bool :=
  match t with
  | EmptyString => true
  | String y r => target_char y && target r
  end.

(** The descriptor [p] is the one the fields of [line] spell out. *)
Definition describes (line : string) (p : proxy) : Prop :=
  (proxy_type p = SOCKS5 <-> ci_equal (fields line !!! 0%nat) "socks5" = true) /\
  (proxy_type p = HTTP <-> ci_equal (fields line !!! 0%nat) "socks5" = false) /\
  addr p = fields line !!! 1%nat /\
  Py.int (fields line !!! 2%nat) = Some (port p) /\
  rdns p = true /\
  proxy_username p = fields line !! 3%nat /\
  proxy_password p = fields line !! 4%nat.

Definition skip_warning (line : string) : event :=
  Stdout ("Skipping improperly formatted line: " +:+ line +:+ nl).

(** The warnings for the lines that are not well formed, in file order. *)
Definition warnings (lines : list string) : list event :=
  map skip_warning (List.filter (fun l => negb (well_formed l)) lines).

(** Every well-formed line has a third field that [int] accepts. *)
Definition ports_parse (lines : list string) : Prop :=
  forall line, In line lines -> well_formed line = true ->
               is_Some (Py.int (fields line !!! 2%nat)).

Definition proxy_file (text : string) : world :=
  World {[ "proxy.txt" := TextFile text ]} [].

(** *** Lookup results *)

Definition NotRegistered (d : dict) : Prop := d = error_result not_registered_message.

Definition AmbiguousMatch (d : dict) : Prop := d = error_result ambiguous_message.

Definition TransientError (phone_number : string) (d : dict) : Prop :=
  exists e, d = error_result (transient_message e phone_number).

Definition Found (d : dict) : Prop := exists u, d = found_record u.

(** A failure that is neither a type mismatch nor a rate-limit signal. *)
Definition unexpected (e : exn) : bool :=
  match e with
  | TypeError _ | FloodWaitError _ _ => false
  | _ => true
  end.

(** *** Rate limiting *)

(** The trace the service sees when the import request of an attempt started
    in [w] arrives. *)
Definition attempt_history (phone_number : string) (w : world) : list event :=
  checking_line phone_number :: trace w.

(** The [try] block of the attempt started in [w]. *)
Definition try_block (client : telegram) (phone_number : string) (w : world)
    : outcome dict * world :=
  lookup_body client phone_number ∅ (record (checking_line phone_number) w).

(** The world after the handler of a rate-limit signal asking for [seconds],
    raised in the world [w1]. *)
Definition after_wait (seconds : Z) (w1 : world) : world :=
  record (Sleep seconds) (record (rate_limit_line seconds) w1).

(** From [w], the next attempts are answered, one after the other, by
    rate-limit signals asking for the durations [waits] (raised by the
    import or by the deletion request), and the last handler ends in
    [w_end]. *)
Fixpoint floods (client : telegram) (phone_number : string) (waits : list Z)
    (w w_end : world) : Prop :=
  match waits with
  | [] => w_end = w
  | s :: rest =>
      exists msg w1,
        try_block client phone_number w = (Raise (FloodWaitError s msg), w1) /\
        floods client phone_number rest (after_wait s w1) w_end
  end.

(** The durations of the sleeps and the numbers of the import requests in a
    trace, most recent first. *)
Fixpoint sleeps (t : list event) : list Z :=
  match t with
  | [] => []
  | Sleep s :: r => s :: sleeps r
  | _ :: r => sleeps r
  end.

Fixpoint imports (t : list event) : list string :=
  match t with
  | [] => []
  | ImportContactsRequest p :: r => p :: imports r
  | _ :: r => imports r
  end.

Definition total_wait (waits : list Z) : Z :=
  foldr (fun s acc => Z.max 0 s + acc) 0 waits.

(** *** Sessions *)

#[global] Instance transport_eq_dec : EqDecision transport.
Proof. solve_decision. Defined.

#[global] Instance proxy_eq_dec : EqDecision proxy.
Proof. solve_decision. Defined.

(** The clients created and torn down in a trace, most recent first. *)
Inductive session_event :=
  | Opened (p : proxy)
  | Closed (p : proxy).

Fixpoint session_log (t : list event) : list session_event :=
  match t with
  | [] => []
  | NewClient p :: r => Opened p :: session_log r
  | Disconnect p :: r => Closed p :: session_log r
  | _ :: r => session_log r
  end.

Fixpoint remove_first (p : proxy) (l : list proxy) : list proxy :=
  match l with
  | [] => []
  | q :: r => if decide (p = q) then r else q :: remove_first p r
  end.

(** The clients that are still usable after a log, most recent first. *)
Fixpoint live (log : list session_event) : list proxy :=
  match log with
  | [] => []
  | Opened p :: r => p :: live r
  | Closed p :: r => remove_first p (live r)
  end.

(** The log of failed attempts over [proxies], most recent first. *)
Fixpoint failed_log (proxies : list proxy) (older : list session_event)
    : list session_event :=
  match proxies with
  | [] => older
  | p :: rest => failed_log rest (Closed p :: Opened p :: older)
  end.

(** The world after the handler of a failed attempt. *)
Definition after_failure (p : proxy) (e : exn) (w : world) : world :=
  record (Disconnect p) (record (Stdout (failed_line p e +:+ nl)) w).

(** Every proxy of the list, tried in order, fails in its [try] block. *)
Fixpoint all_fail (client : telegram) (op : operator) (proxies : list proxy)
    (w : world) : Prop :=
  match proxies with
  | [] => True
  | p :: rest =>
      exists e w1,
        connect_and_authorize client op p (record (NewClient p) w) = (Raise e, w1) /\
        all_fail client op rest (after_failure p e w1)
  end.

(** The world after these failed attempts. *)
Fixpoint after_failures (client : telegram) (op : operator) (proxies : list proxy)
    (w : world) : world :=
  match proxies with
  | [] => w
  | p :: rest =>
      match connect_and_authorize client op p (record (NewClient p) w) with
      | (Raise e, w1) => after_failures client op rest (after_failure p e w1)
      | (_, w1) => w1
      end
  end.

Definition logging_in (w : world) : world := record (Stdout "Logging in...") w.

(** A computation that leaves the files and the session log alone. *)
Definition quiet {A} (m : M A) : Prop :=
  forall w, fs (snd (m w)) = fs w /\
            session_log (trace (snd (m w))) = session_log (trace w).

(** ** Scenarios *)

Definition sample_proxies : string :=
  "socks5,10.0.0.1,1080,alice,secret" +:+ nl +:+ "broken line" +:+ nl +:+ "HTTP,proxy.example,8080".

Definition named_port_proxies : string := "http,10.0.0.2,port".

Definition mixed_proxies : string :=
  "socks5,10.0.0.1,1080" +:+ nl +:+ "http,10.0.0.2,http" +:+ nl +:+ "http,10.0.0.3,3128" +:+ nl.

Definition alice : user := {|
  id := 777;
  username := VStr "alice";
  usernames := VNone;
  first_name := VStr "Alice";
  last_name := VNone;
  fake := VBool false;
  verified := VBool false;
  premium := VBool true;
  mutual_contact := VBool false;
  bot := VBool false;
  bot_chat_history := VBool false;
  restricted := VBool false;
  restriction_reason := VNone;
  status := UserStatusRecently;
  phone := VStr "4912347"
|}.

(** A service given by its answers to import and deletion requests, on
    which connecting and signing in succeed. *)
Definition service (on_import : string -> list event -> reply (list tl_user))
    (on_delete : Z -> list event -> reply (list tl_user)) : telegram := {|
  connect := fun _ _ => Returns tt;
  is_user_authorized := fun _ _ => Returns true;
  send_code_request := fun _ _ => Returns tt;
  sign_in_code := fun _ _ _ => Returns tt;
  sign_in_password := fun _ _ _ => Returns tt;
  import_contacts := on_import;
  delete_contacts := on_delete
|}.

(** Rate-limited for three seconds on the first import, one match afterwards. *)
Definition flood_once : telegram :=
  service (fun _ t =>
             match imports t with
             | [] => Raises (FloodWaitError 3 "A wait of 3 seconds is required")
             | _ => Returns [User alice]
             end)
          (fun _ _ => Returns [User alice]).

(** One match, but the first deletion request is rate-limited for 7 seconds. *)
Definition flood_on_delete : telegram :=
  service (fun _ _ => Returns [User alice])
          (fun _ t =>
             match sleeps t with
             | [] => Raises (FloodWaitError 7 "A wait of 7 seconds is required")
             | _ => Returns [User alice]
             end).

Definition fresh : world := World ∅ [].

(** The lines the loop prints for an error result. *)
Definition error_line (phone_number err : string) : event :=
  Stdout (("Error for " +:+ phone_number +:+ ": " +:+ err) +:+ nl).

Definition unexpected_line (phone_number err : string) : event :=
  Stdout (("Unexpected error for " +:+ phone_number +:+ ": " +:+ err) +:+ nl).

(** The import request fails with a connection error. *)
Definition broken_service : telegram :=
  service (fun _ _ => Raises (Exception "Connection lost"))
          (fun _ _ => Returns []).

(** More than one account is matched. *)
Definition twin_service : telegram :=
  service (fun _ _ => Returns [User alice; UserEmpty 778])
          (fun _ _ => Returns []).

(** One match, and a type mismatch in the deletion step whose text contains
    the phrase the loop looks for. *)
Definition misleading_service : telegram :=
  service (fun _ _ => Returns [User alice])
          (fun _ _ => Raises (TypeError "peer is not on Telegram")).

(** A type mismatch raised by the import request. *)
Definition import_mismatch_service : telegram :=
  service (fun _ _ => Raises (TypeError "a bytes-like object is required, not 'NoneType'"))
          (fun _ _ => Returns [User alice]).

Definition cursor_file : string := "last_checked_number.txt".
Definition results_file : string := "results.xlsx".

Definition resume_at (number : string) : world :=
  World {[ cursor_file := TextFile number ]} [].

(** The loop state after the lookup of the current number returned [d]. *)
Definition looked_up (st : loop_state) (d : dict) : loop_state :=
  LoopState (phone_number st) (<[phone_number st := d]> (result st)).

(** The world after an error result of a number that is not on the service:
    the error is printed, the cursor file is rewritten, the loop pauses. *)
Definition skipped (file_path number next err : string) (w : world) : world :=
  record (Sleep delay)
    (World (<[file_path := TextFile next]> (fs w)) (error_line number err :: trace w)).

(** The world after a found account: the row is appended to the store, the
    cursor file is rewritten, the loop pauses. *)
Definition saved (file_path excel_file next : string) (d : dict) (w : world) : world :=
  record (Sleep delay)
    (World (<[file_path := TextFile next]>
              (<[excel_file := Workbook (rows_at w excel_file ++ [d])]> (fs w)))
           (Stdout (("Results saved to " +:+ excel_file) +:+ nl) :: trace w)).

Definition misled_result : dict :=
  error_result (transient_message "peer is not on Telegram" "4912345").

Definition misled_turn : outcome control * world :=
  validate_iter 1 misleading_service cursor_file results_file
    (LoopState "4912345" ∅) (resume_at "4912345").

(** Numbers 4912345 and 4912346 are not on the service, 4912347 is. *)
Definition third_is_found : telegram :=
  service (fun number _ =>
             if String.eqb number "4912347" then Returns [User alice] else Returns [])
          (fun _ _ => Returns [User alice]).


(** The proxy on port 1080 refuses connections; through any other proxy the
    account is reached, is not yet authorized and has a password set. *)
Definition first_proxy_down : telegram := {|
  connect := fun p _ =>
    if port p =? 1080 then Raises (Exception "Connection refused") else Returns tt;
  is_user_authorized := fun _ _ => Returns false;
  send_code_request := fun _ _ => Returns tt;
  sign_in_code := fun _ _ _ => Raises (SessionPasswordNeededError "Two-steps verification is enabled");
  sign_in_password := fun _ pw _ =>
    if String.eqb pw "hunter2" then Returns tt else Raises (Exception "The password is invalid");
  import_contacts := fun _ _ => Returns [];
  delete_contacts := fun _ _ => Returns []
|}.

Definition typist : operator := {|
  input := fun _ _ => Returns "12345";
  getpass := fun _ _ => Returns "hunter2"
|}.

Definition proxy_a : proxy := Proxy SOCKS5 "10.0.0.1" 1080 true None None.
Definition proxy_b : proxy := Proxy HTTP "10.0.0.2" 3128 true (Some "bob") (Some "pw").
Definition proxy_c : proxy := Proxy HTTP "10.0.0.3" 8080 true None None.

(** A first run: one proxy, the cursor at 4912345, no result store yet. *)
Definition first_run : world :=
  World {[ "proxy.txt" := TextFile ("http,10.0.0.2,3128" +:+ nl);
           cursor_file := TextFile ("4912345" +:+ nl) ]} [].

(** ** Vocabulary for whole runs *)

(** The events a lookup of [number] may add to the trace. *)
Definition lookup_event (number : string) (ev : event) : bool :=
  match ev with
  | Stdout _ | Sleep _ | DeleteContactsRequest _ => true
  | ImportContactsRequest p => String.eqb p number
  | _ => false
  end.

(** The events the scanning loop may add. *)
Definition scan_event (ev : event) : bool :=
  match ev with
  | Stdout _ | Sleep _ | ImportContactsRequest _ | DeleteContactsRequest _ => true
  | _ => false
  end.

(** The events of connecting and signing in. *)
Definition login_event (ev : event) : bool :=
  match ev with
  | Sleep _ | ImportContactsRequest _ | DeleteContactsRequest _ => false
  | _ => true
  end.

(** [w'] is [w] with more events, all of them allowed by [p]. *)
Definition extends (p : event -> bool) (w w' : world) : Prop :=
  exists extra, trace w' = extra ++ trace w /\ forallb p extra = true.

Fixpoint deletes (t : list event) : list Z :=
  match t with
  | [] => []
  | DeleteContactsRequest i :: r => i :: deletes r
  | _ :: r => deletes r
  end.

(** The numbers looked up so far lie below the current one, which is a
    numeral: the state of a scan that started at a numeral. *)
Definition scanning (st : loop_state) : Prop :=
  numeral (phone_number st) = true /\
  forall key d, result st !! key = Some d ->
                numeral_value key < numeral_value (phone_number st).

(** A result the loop steps over: it has no error entry (a found account),
    or its error text contains the phrase the loop looks for. *)
Definition steps_over (d : dict) : bool :=
  match d !! "error" with
  | None => true
  | Some (VStr msg) => Py.contains "not on Telegram" msg
  | Some _ => false
  end.

(** The world after a row was stored and the increment of the number failed. *)
Definition stored (excel_file : string) (d : dict) (w : world) : world :=
  World (<[excel_file := Workbook (rows_at w excel_file ++ [d])]> (fs w))
        (Stdout (("Results saved to " +:+ excel_file) +:+ nl) :: trace w).

(** The service knows nobody. *)
Definition empty_service : telegram :=
  service (fun _ _ => Returns []) (fun _ _ => Returns []).

(** A computation that always returns or raises. *)
Definition ends {A} (m : M A) : Prop := forall w, fst (m w) <> Diverge.

(** A computation that only adds events allowed by [p] to the trace. *)
Definition emits (p : event -> bool) {A} (m : M A) : Prop :=
  forall w, extends p w (snd (m w)).

(** Console output only. *)
Definition console_event (ev : event) : bool :=
  match ev with Stdout _ => true | _ => false end.

(** How often the operator was asked for a code and for a password. *)
Fixpoint inputs (t : list event) : nat :=
  match t with
  | [] => O
  | Input _ :: r => S (inputs r)
  | _ :: r => inputs r
  end.

Fixpoint getpasses (t : list event) : nat :=
  match t with
  | [] => O
  | Getpass _ :: r => S (getpasses r)
  | _ :: r => getpasses r
  end.

(** One match, but the deletion response carries no user. *)
Definition forgetful_service : telegram :=
  service (fun _ _ => Returns [User alice]) (fun _ _ => Returns []).

(** * Properties *)

Example strip_example :
  Py.strip (String (Py.chr 32) ("12 3" +:+ nl)) = "12 3".
Proof. reflexivity. Qed.

Example split_example : Py.split "," "a,,b" = ["a"; EmptyString; "b"].
Proof. reflexivity. Qed.

Example int_examples :
  Py.int " +1_000 " = Some 1000 /\ Py.int "1__0" = None /\
  Py.int "-007" = Some (-7) /\ Py.int EmptyString = None /\ Py.int "1_" = None.
Proof. repeat split. Qed.

(** The separators 28 to 31 are blanks for [str.strip] and not for [int];
    the no-break space is a blank for both. *)
Example int_blank_examples :
  Py.strip (String (Py.chr 28) "12") = "12" /\
  Py.int (String (Py.chr 28) "12") = None /\
  Py.int ("12" +:+ String (Py.chr 31) EmptyString) = None /\
  Py.int (String (Py.chr 160) ("12" +:+ String (Py.chr 28) EmptyString)) = None /\
  Py.int (String (Py.chr 160) ("12" +:+ String (Py.chr 133) nl)) = Some 12.
Proof. repeat split. Qed.

Example str_examples :
  Py.str 4912346 = "4912346" /\ Py.str 0 = "0" /\ Py.str (-10) = "-10" /\
  Py.str 1000 = "1000" /\ Py.str 9 = "9" /\ Py.str 99 = "99" /\ Py.str 100 = "100".
Proof. repeat split. Qed.

Example repr_examples :
  Py.repr "ab'c" = String Py.dquote ("ab'c" +:+ String Py.dquote EmptyString) /\
  Py.repr "123" = "'123'" /\
  Py.repr ("a" +:+ nl) = "'a\n'".
Proof. repeat split. Qed.

Example readlines_example :
  readlines ("a" +:+ String (Py.chr 13) nl +:+ "b" +:+ String (Py.chr 13) "c")
  = ["a" +:+ nl; "b" +:+ nl; "c"].
Proof. reflexivity. Qed.

(** ** Characters *)

Ltac by_char c :=
  destruct c as [[] [] [] [] [] [] [] []]; vm_compute; try reflexivity; try discriminate.

Lemma digit_not_space c : Py.isdigit c = true -> Py.isspace c = false.
Proof. by_char c. Qed.

Lemma digit_not_sign c r :
  Py.isdigit c = true ->
  match String c r with
  | String "+" r' => Py.int_digits r' 0 false
  | String "-" r' => Z.opp <$> Py.int_digits r' 0 false
  | t => Py.int_digits t 0 false
  end = Py.int_digits (String c r) 0 false.
Proof.
  destruct c as [[] [] [] [] [] [] [] []]; try reflexivity; vm_compute; discriminate.
Qed.

Lemma chr_digit k :
  0 <= k < 10 ->
  Py.isdigit (Py.chr (48 + k)) = true /\
  Py.digit_val (Py.chr (48 + k)) = k /\
  (0 < k -> Ascii.eqb "0" (Py.chr (48 + k)) = false).
Proof.
  intros Hk.
  assert (Hc : k = 0 \/ k = 1 \/ k = 2 \/ k = 3 \/ k = 4 \/
               k = 5 \/ k = 6 \/ k = 7 \/ k = 8 \/ k = 9) by lia.
  repeat destruct Hc as [-> | Hc]; try subst k;
    (split; [reflexivity | split; [reflexivity | intros; try reflexivity; lia]]).
Qed.

(** ** Numerals, [int] and [str] *)

Lemma all_digits_rstrip s : all_digits s = true -> Py.rstrip s = s.
Proof.
  induction s as [|c r IH]; simpl; [done|].
  intros [Hc Hr]%andb_true_iff.
  rewrite (digit_not_space c Hc), IH by done. done.
Qed.

Lemma all_digits_lstrip s : all_digits s = true -> Py.lstrip s = s.
Proof.
  destruct s as [|c r]; simpl; [done|].
  intros [Hc _]%andb_true_iff. by rewrite (digit_not_space c Hc).
Qed.

Lemma all_digits_strip s : all_digits s = true -> Py.strip s = s.
Proof.
  intros H. unfold Py.strip. rewrite all_digits_rstrip by done.
  by apply all_digits_lstrip.
Qed.

Lemma digit_not_int_space c : Py.isdigit c = true -> Py.int_space c = false.
Proof. by_char c. Qed.

Lemma all_digits_int_rstrip s : all_digits s = true -> Py.int_rstrip s = s.
Proof.
  induction s as [|c r IH]; simpl; [done|].
  intros [Hc Hr]%andb_true_iff.
  rewrite (digit_not_int_space c Hc), IH by done. done.
Qed.

Lemma all_digits_int_lstrip s : all_digits s = true -> Py.int_lstrip s = s.
Proof.
  destruct s as [|c r]; simpl; [done|].
  intros [Hc _]%andb_true_iff. by rewrite (digit_not_int_space c Hc).
Qed.

Lemma int_digits_all_digits s :
  all_digits s = true ->
  forall acc b, (b = true \/ s <> EmptyString) ->
  Py.int_digits s acc b = Some (value_from acc s).
Proof.
  induction s as [|c r IH]; simpl; intros H acc b Hb.
  - destruct Hb as [-> | Hb]; [done | congruence].
  - apply andb_true_iff in H as [Hc Hr]. rewrite Hc.
    apply IH; auto.
Qed.

Lemma int_numeral s : numeral s = true -> Py.int s = Some (numeral_value s).
Proof.
  unfold numeral. intros [Hne Hd]%andb_true_iff.
  unfold Py.int. rewrite all_digits_int_rstrip, all_digits_int_lstrip by done.
  destruct s as [|c r]; [discriminate|].
  pose proof Hd as Hd'. simpl in Hd'. apply andb_true_iff in Hd' as [Hc _].
  rewrite digit_not_sign by done.
  apply int_digits_all_digits; auto.
Qed.

Lemma append_cons x (a b : string) : String x a +:+ b = String x (a +:+ b).
Proof. reflexivity. Qed.

Lemma append_nil_l (b : string) : EmptyString +:+ b = b.
Proof. reflexivity. Qed.

Lemma append_nil_r (a : string) : a +:+ EmptyString = a.
Proof. induction a as [|x a IH]; [done | by rewrite append_cons, IH]. Qed.

Lemma append_assoc (a b c : string) : (a +:+ b) +:+ c = a +:+ (b +:+ c).
Proof.
  induction a as [|x a IH]; [done|]. by rewrite !append_cons, IH.
Qed.

Lemma value_from_app a b acc :
  value_from acc (a +:+ b) = value_from (value_from acc a) b.
Proof.
  revert acc. induction a as [|x a IH]; intros acc; [done|].
  rewrite append_cons. simpl. apply IH.
Qed.

Lemma all_digits_app a b : all_digits (a +:+ b) = all_digits a && all_digits b.
Proof.
  induction a as [|x a IH]; [done|].
  rewrite append_cons. simpl. by rewrite IH, andb_assoc.
Qed.

Lemma leading_zero_app a b :
  a <> EmptyString -> leading_zero (a +:+ b) = leading_zero a.
Proof. destruct a; [done | reflexivity]. Qed.

Lemma leading_zero_cons c r : leading_zero (String c r) = Ascii.eqb "0" c.
Proof.
  unfold leading_zero. cbn [Py.startswith]. apply andb_true_r.
Qed.

(** A value below ten is written with one digit. *)
Lemma one_digit n :
  0 <= n < 10 ->
  let d := String (Py.chr (48 + n mod 10)) EmptyString in
  all_digits d = true /\ d <> EmptyString /\
  numeral_value d = n /\ (0 < n -> leading_zero d = false).
Proof.
  intros Hn d. subst d.
  rewrite (Z.mod_small n 10) by lia.
  destruct (chr_digit n Hn) as (Hd & Hv & Hz).
  rewrite leading_zero_cons. unfold numeral_value.
  cbn [all_digits value_from]. rewrite Hd, Hv.
  repeat split; [done | exact Hz].
Qed.

(** What [digits_of] prepends to its accumulator. *)
Lemma digits_of_spec fuel :
  forall n acc, 0 <= n < 10 ^ Z.of_nat (S fuel) ->
  exists d, Py.digits_of fuel n acc = d +:+ acc /\
            all_digits d = true /\ d <> EmptyString /\
            numeral_value d = n /\ (0 < n -> leading_zero d = false).
Proof.
  induction fuel as [|fuel IH]; intros n acc Hn.
  - change (10 ^ Z.of_nat 1) with 10 in Hn.
    exists (String (Py.chr (48 + n mod 10)) EmptyString).
    split; [reflexivity | by apply one_digit].
  - cbn [Py.digits_of]. destruct (n <? 10) eqn:Hlt.
    + apply Z.ltb_lt in Hlt.
      exists (String (Py.chr (48 + n mod 10)) EmptyString).
      split; [reflexivity | apply one_digit; lia].
    + apply Z.ltb_ge in Hlt.
      assert (Hq : 0 <= n / 10 < 10 ^ Z.of_nat (S fuel)).
      { split; [apply Z.div_pos; lia|].
        apply Z.div_lt_upper_bound; [lia|].
        replace (Z.of_nat (S (S fuel))) with (Z.succ (Z.of_nat (S fuel))) in Hn by lia.
        rewrite Z.pow_succ_r in Hn by lia. lia. }
      destruct (IH (n / 10) (String (Py.chr (48 + n mod 10)) acc) Hq)
        as (d & Hd & Hall & Hne & Hval & Hlead).
      assert (Hr : 0 <= n mod 10 < 10) by (apply Z.mod_pos_bound; lia).
      destruct (chr_digit (n mod 10) Hr) as (Hcd & Hcv & _).
      exists (d +:+ String (Py.chr (48 + n mod 10)) EmptyString).
      rewrite append_assoc, append_cons, append_nil_l. split; [exact Hd|].
      rewrite all_digits_app, Hall. cbn [all_digits]. rewrite Hcd.
      split; [done|]. split; [by destruct d|].
      unfold numeral_value in *. rewrite value_from_app, Hval.
      cbn [value_from]. rewrite Hcv.
      split; [pose proof (Z.div_mod n 10); lia|].
      intros _. rewrite leading_zero_app by done.
      apply Hlead. apply Z.div_str_pos. lia.
Qed.

Lemma log2_fuel n : 0 <= n -> 0 <= n < 10 ^ Z.of_nat (S (Z.to_nat (Z.log2 n))).
Proof.
  intros Hn. split; [done|].
  destruct (Z.eq_dec n 0) as [-> | Hnz]; [done|].
  pose proof (Z.log2_nonneg n) as Hl.
  pose proof (Z.log2_spec n ltac:(lia)) as [_ Hup].
  replace (Z.of_nat (S (Z.to_nat (Z.log2 n)))) with (Z.succ (Z.log2 n)) by lia.
  eapply Z.lt_le_trans; [exact Hup|].
  apply Z.pow_le_mono_l. lia.
Qed.

(** [str] of a non-negative integer is its canonical decimal numeral. *)
Lemma str_nonneg_spec n :
  0 <= n ->
  numeral (Py.str n) = true /\ numeral_value (Py.str n) = n /\
  (0 < n -> leading_zero (Py.str n) = false).
Proof.
  intros Hn. unfold Py.str.
  assert (Hlt : (n <? 0) = false) by (apply Z.ltb_ge; lia). rewrite Hlt.
  unfold Py.str_nonneg.
  destruct (digits_of_spec _ n EmptyString (log2_fuel n Hn))
    as (d & Hd & Hall & Hne & Hval & Hlead).
  rewrite Hd.
  rewrite append_nil_r. unfold numeral. rewrite Hall.
  split; [by destruct d|]. done.
Qed.

Lemma value_from_nonneg s : all_digits s = true -> forall acc, 0 <= acc -> 0 <= value_from acc s.
Proof.
  induction s as [|c r IH]; simpl; intros H acc Hacc; [done|].
  apply andb_true_iff in H as [Hc Hr]. apply IH; [done|].
  unfold Py.isdigit, Py.between in Hc. unfold Py.digit_val. lia.
Qed.

Lemma numeral_value_nonneg s : numeral s = true -> 0 <= numeral_value s.
Proof.
  unfold numeral. intros [_ H]%andb_true_iff.
  by apply value_from_nonneg.
Qed.

Lemma increment_numeral s w :
  numeral s = true ->
  increment_phone_number s w = (Ok (Py.str (numeral_value s + 1)), w).
Proof.
  intros H. unfold increment_phone_number, bind, py_int.
  by rewrite (int_numeral s H).
Qed.

(** C9. For a decimal numeral [n], [increment_phone_number n] returns a
    decimal numeral without leading zeros whose value is that of [n] plus
    one; for instance "4912345" gives "4912346". *)
Theorem increment_phone_number_spec n w :
  numeral n = true ->
  (exists m, increment_phone_number n w = (Ok m, w) /\
             numeral m = true /\ leading_zero m = false /\
             numeral_value m = numeral_value n + 1) /\
  increment_phone_number "4912345" w = (Ok "4912346", w).
Proof.
  intros H. split; [|reflexivity].
  exists (Py.str (numeral_value n + 1)).
  pose proof (numeral_value_nonneg n H) as Hv.
  destruct (str_nonneg_spec (numeral_value n + 1) ltac:(lia)) as (Hnum & Hval & Hlead).
  split; [by apply increment_numeral|].
  split; [done|]. split; [apply Hlead; lia | done].
Qed.

Lemma increment_phone_number_spec_witness :
  numeral "0099" = true /\
  ((exists m, increment_phone_number "0099" (World ∅ []) = (Ok m, World ∅ []) /\
              numeral m = true /\ leading_zero m = false /\
              numeral_value m = numeral_value "0099" + 1) /\
   increment_phone_number "4912345" (World ∅ []) = (Ok "4912346", World ∅ [])).
Proof.
  split; [reflexivity|].
  apply (increment_phone_number_spec "0099" (World ∅ [])). reflexivity.
Defined.

(** ** The resume cursor *)

Lemma digit_code c : Py.isdigit c = true -> 48 <= Py.code c <= 57.
Proof. unfold Py.isdigit, Py.between. lia. Qed.

Lemma readlines_digits s :
  all_digits s = true -> s <> EmptyString -> readlines s = [s].
Proof.
  induction s as [|c r IH]; [done|]. intros H _.
  cbn [all_digits] in H. apply andb_true_iff in H as [Hc Hr].
  pose proof (digit_code c Hc) as Hcode.
  cbn [readlines].
  destruct (Py.code c =? 10) eqn:E10; [apply Z.eqb_eq in E10; lia|].
  destruct (Py.code c =? 13) eqn:E13; [apply Z.eqb_eq in E13; lia|].
  destruct r as [|d r']; [reflexivity|].
  rewrite IH by done. reflexivity.
Qed.

Lemma readline_numeral s : numeral s = true -> Py.strip (readline s) = s.
Proof.
  unfold numeral. intros [Hne Hd]%andb_true_iff.
  unfold readline. rewrite readlines_digits; [|done|by destruct s].
  by apply all_digits_strip.
Qed.

(** C8. Writing a numeral to the cursor file stores it as the whole file,
    and reading the file back returns the same numeral. *)
Theorem cursor_round_trip file_path c w :
  numeral c = true ->
  exists w',
    write_last_checked_number file_path c w = (Ok tt, w') /\
    fs w' !! file_path = Some (TextFile c) /\
    read_last_checked_number file_path w' = (Ok c, w').
Proof.
  intros Hc. eexists. split; [reflexivity|].
  cbn [fs]. split; [apply lookup_insert_eq|].
  unfold read_last_checked_number, bind, open_text. cbn [fs].
  rewrite lookup_insert_eq. unfold ret. by rewrite readline_numeral.
Qed.

Lemma cursor_round_trip_witness :
  numeral "4912346" = true /\
  exists w',
    write_last_checked_number "last_checked_number.txt" "4912346" (World ∅ []) = (Ok tt, w') /\
    fs w' !! "last_checked_number.txt" = Some (TextFile "4912346") /\
    read_last_checked_number "last_checked_number.txt" w' = (Ok "4912346", w').
Proof.
  split; [reflexivity|].
  apply (cursor_round_trip "last_checked_number.txt" "4912346" (World ∅ [])).
  reflexivity.
Defined.

(** ** The proxy list *)

Lemma lower_char_same_letter x y :
  target_char y = true -> Ascii.eqb (Py.lower_char x) y = same_letter x y.
Proof.
  intros H.
  destruct y as [[] [] [] [] [] [] [] []]; vm_compute in H; try discriminate H; clear H;
    destruct x as [[] [] [] [] [] [] [] []]; vm_compute; reflexivity.
Qed.

Lemma lower_ci_equal t :
  target t = true -> forall f, String.eqb (Py.lower f) t = ci_equal f t.
Proof.
  induction t as [|y t IH]; intros Ht f.
  - by destruct f.
  - cbn [target] in Ht. apply andb_true_iff in Ht as [Hy Ht].
    destruct f as [|x f]; [done|].
    cbn [Py.lower ci_equal String.eqb].
    rewrite <- (lower_char_same_letter x y Hy), <- (IH Ht f).
    by destruct (Ascii.eqb (Py.lower_char x) y).
Qed.

Example ci_equal_examples :
  ci_equal "SoCkS5" "socks5" = true /\ ci_equal "socks" "socks5" = false /\
  ci_equal "http" "socks5" = false /\ ci_equal "socks5 " "socks5" = false.
Proof. repeat split. Qed.

Lemma proxy_line_skipped line acc w :
  well_formed line = false ->
  proxy_line line acc w = (Ok acc, record (skip_warning line) w).
Proof.
  unfold well_formed, fields, proxy_line. intros H%negb_false_iff.
  rewrite H. reflexivity.
Qed.

Lemma proxy_line_kept line acc w z :
  well_formed line = true ->
  Py.int (fields line !!! 2%nat) = Some z ->
  exists p, proxy_line line acc w = (Ok (acc ++ [p]), w) /\ describes line p.
Proof.
  unfold well_formed, proxy_line. intros H%negb_true_iff Hz.
  fold (fields line). rewrite H.
  unfold bind, py_int. rewrite Hz. unfold ret.
  eexists. split; [reflexivity|].
  unfold describes. cbn [proxy_type addr port rdns proxy_username proxy_password].
  rewrite (lower_ci_equal "socks5" eq_refl).
  destruct (ci_equal (fields line !!! 0%nat) "socks5"); repeat split; done.
Qed.

Lemma proxy_lines_valid lines :
  ports_parse lines ->
  forall acc w,
  exists ps,
    proxy_lines lines acc w
    = (Ok (acc ++ ps), World (fs w) (rev (warnings lines) ++ trace w)) /\
    Forall2 describes (List.filter well_formed lines) ps.
Proof.
  induction lines as [|line rest IH]; intros Hports acc w.
  - exists []. rewrite app_nil_r. destruct w. split; [reflexivity | constructor].
  - assert (Hrest : ports_parse rest).
    { intros l Hl. apply Hports. by right. }
    cbn [proxy_lines]. unfold bind at 1.
    destruct (well_formed line) eqn:Hwf.
    + destruct (Hports line (or_introl eq_refl) Hwf) as [z Hz].
      destruct (proxy_line_kept line acc w z Hwf Hz) as (p & Hrun & Hdesc).
      rewrite Hrun.
      destruct (IH Hrest (acc ++ [p]) w) as (ps & Hps & Hall).
      exists (p :: ps). rewrite Hps, <- app_assoc.
      unfold warnings. cbn [List.filter]. rewrite Hwf. cbn [negb List.filter].
      split; [reflexivity|]. by constructor.
    + rewrite (proxy_line_skipped line acc w Hwf).
      destruct (IH Hrest acc (record (skip_warning line) w)) as (ps & Hps & Hall).
      exists ps. rewrite Hps.
      unfold warnings. cbn [List.filter]. rewrite Hwf. cbn [negb map rev record fs trace].
      rewrite <- app_assoc. split; [reflexivity | exact Hall].
Qed.

(** C5, amended. When the third field of every line with at least three
    fields is accepted by [int], the reader returns one descriptor for each
    such line, in order, and skips every other line with a warning; every
    descriptor is SOCKS5 exactly when the first field equals "socks5" up to
    letter case and HTTP otherwise, and asks for remote DNS resolution; the
    file system is left as it was. *)
Theorem read_proxy_settings_valid file_path text w :
  fs w !! file_path = Some (TextFile text) ->
  ports_parse (readlines text) ->
  exists ps w',
    read_proxy_settings file_path w = (Ok ps, w') /\
    Forall2 describes (List.filter well_formed (readlines text)) ps /\
    Forall (fun p => rdns p = true) ps /\
    length ps = length (List.filter well_formed (readlines text)) /\
    trace w' = rev (warnings (readlines text)) ++ trace w /\
    fs w' = fs w.
Proof.
  intros Hfile Hports.
  destruct (proxy_lines_valid (readlines text) Hports [] w) as (ps & Hrun & Hall).
  exists ps. eexists.
  unfold read_proxy_settings, bind, open_text. rewrite Hfile, Hrun.
  split; [reflexivity|]. split; [exact Hall|]. split.
  - clear Hrun. induction Hall as [|l p ls ps' Hd _ IH]; constructor; [apply Hd | exact IH].
  - split; [symmetry; eapply Forall2_length; exact Hall|]. done.
Qed.

Lemma read_proxy_settings_valid_witness :
  fs (proxy_file sample_proxies) !! "proxy.txt" = Some (TextFile sample_proxies) /\
  exists ps w',
    read_proxy_settings "proxy.txt" (proxy_file sample_proxies) = (Ok ps, w') /\
    Forall2 describes (List.filter well_formed (readlines sample_proxies)) ps /\
    Forall (fun p => rdns p = true) ps /\
    length ps = length (List.filter well_formed (readlines sample_proxies)) /\
    trace w' = rev (warnings (readlines sample_proxies)) ++ trace (proxy_file sample_proxies) /\
    fs w' = fs (proxy_file sample_proxies).
Proof.
  split; [reflexivity|].
  apply (read_proxy_settings_valid "proxy.txt" sample_proxies (proxy_file sample_proxies)).
  - reflexivity.
  - intros line Hin Hwf. vm_compute in Hin.
    destruct Hin as [<- | [<- | [<- | []]]]; vm_compute; eauto; discriminate Hwf.
Defined.

Example read_proxy_settings_sample :
  fst (read_proxy_settings "proxy.txt" (proxy_file sample_proxies))
  = Ok [ Proxy SOCKS5 "10.0.0.1" 1080 true (Some "alice") (Some "secret");
         Proxy HTTP "proxy.example" 8080 true None None ].
Proof. reflexivity. Qed.

(** C5, as stated, fails: a line with three fields whose third field is not
    an integer makes the reader raise [ValueError]. *)
Lemma read_proxy_settings_not_total :
  read_proxy_settings "proxy.txt" (proxy_file named_port_proxies)
  = (Raise (ValueError "invalid literal for int() with base 10: 'port'"),
     proxy_file named_port_proxies) /\
  ~ exists ps w',
      read_proxy_settings "proxy.txt" (proxy_file named_port_proxies) = (Ok ps, w').
Proof.
  split; [reflexivity|].
  intros (ps & w' & H). vm_compute in H. discriminate H.
Qed.

(** C10. There is a proxy list with a line of three fields whose third field
    is not a decimal integer, next to well-formed lines, on which the reader
    raises instead of returning the descriptors of the other lines. *)
Theorem read_proxy_settings_bad_port :
  exists text line,
    In line (readlines text) /\
    well_formed line = true /\
    numeral (fields line !!! 2%nat) = false /\
    Py.int (fields line !!! 2%nat) = None /\
    (exists other, In other (readlines text) /\ well_formed other = true /\
                   is_Some (Py.int (fields other !!! 2%nat))) /\
    exists e w',
      read_proxy_settings "proxy.txt" (proxy_file text) = (Raise e, w').
Proof.
  exists mixed_proxies, ("http,10.0.0.2,http" +:+ nl).
  split; [right; left; reflexivity|].
  split; [reflexivity|]. split; [reflexivity|]. split; [reflexivity|].
  split.
  - exists ("socks5,10.0.0.1,1080" +:+ nl).
    split; [left; reflexivity|]. split; [reflexivity|]. by exists 1080.
  - eexists. eexists. reflexivity.
Qed.

(** ** The lookup *)

Lemma call_fs {A} ev (answer : list event -> reply A) w :
  fs (snd (call ev answer w)) = fs w.
Proof. unfold call. by destruct (answer (trace w)). Qed.

Lemma call_trace {A} ev (answer : list event -> reply A) w :
  trace (snd (call ev answer w)) = ev :: trace w.
Proof. unfold call. by destruct (answer (trace w)). Qed.

Lemma lookup_body_fs client phone_number res w :
  fs (snd (lookup_body client phone_number res w)) = fs w.
Proof.
  unfold lookup_body, bind, call.
  destruct (import_contacts client phone_number (trace w)) as [users|e]; [|done].
  destruct users as [|u0 [|u1 users]]; [done| |done].
  cbn [trace fs].
  destruct (delete_contacts client (tl_id u0) _) as [us|e]; [|done].
  destruct us as [|u us]; [done|]. by destruct u.
Qed.

Lemma get_names_frame_fs fuel client phone_number :
  forall w, fs (snd (get_names_frame fuel client phone_number w)) = fs w.
Proof.
  induction fuel as [|fuel IH]; intros w; [done|].
  cbn [get_names_frame].
  pose proof (lookup_body_fs client phone_number ∅ (record (checking_line phone_number) w)) as Hfs.
  destruct (lookup_body client phone_number ∅ (record (checking_line phone_number) w))
    as [[d|e|] w1]; cbn [snd] in Hfs; [done| |done].
  destruct e; try done.
  rewrite IH. done.
Qed.

Lemma get_names_fs fuel client phone_number w r w' :
  get_names fuel client phone_number w = (r, w') -> fs w' = fs w.
Proof.
  unfold get_names. intros H.
  pose proof (get_names_frame_fs fuel client phone_number w) as Hfs.
  destruct (get_names_frame fuel client phone_number w) as [[d o] w2].
  injection H as _ <-. exact Hfs.
Qed.

Lemma lookup_body_events client number res w :
  sleeps (trace (snd (lookup_body client number res w))) = sleeps (trace w) /\
  imports (trace (snd (lookup_body client number res w))) = number :: imports (trace w) /\
  elapsed (trace (snd (lookup_body client number res w))) = elapsed (trace w).
Proof.
  unfold lookup_body, bind, call.
  destruct (import_contacts client number (trace w)) as [users|e]; [|done].
  destruct users as [|u0 [|u1 users]]; [done| |done].
  cbn [trace fs].
  destruct (delete_contacts client (tl_id u0) _) as [us|e]; [|done].
  destruct us as [|u us]; [done|]. by destruct u.
Qed.

(** An attempt answered by a rate-limit signal sleeps and starts over. *)
Lemma get_names_frame_flood fuel client number w s msg w1 :
  try_block client number w = (Raise (FloodWaitError s msg), w1) ->
  get_names_frame (S fuel) client number w
  = get_names_frame fuel client number (after_wait s w1).
Proof.
  unfold try_block. intros H. cbn [get_names_frame]. by rewrite H.
Qed.

Lemma get_names_frame_floods client number waits :
  forall w w' fuel,
  floods client number waits w w' ->
  get_names_frame (length waits + fuel) client number w
  = get_names_frame fuel client number w'.
Proof.
  induction waits as [|s rest IH]; intros w w' fuel Hf.
  - cbn in Hf. by subst w'.
  - destruct Hf as (msg & w1 & Hs & Hrest).
    cbn [length Nat.add].
    rewrite (get_names_frame_flood _ _ _ _ _ _ _ Hs). by apply IH.
Qed.

Lemma get_names_frame_starved client number waits :
  forall w w' fuel,
  floods client number waits w w' -> (fuel <= length waits)%nat ->
  snd (fst (get_names_frame fuel client number w)) = Diverge.
Proof.
  induction waits as [|s rest IH]; intros w w' fuel Hf Hle.
  - cbn [length] in Hle. by replace fuel with O by lia.
  - destruct fuel as [|fuel]; [done|].
    destruct Hf as (msg & w1 & Hs & Hrest).
    rewrite (get_names_frame_flood _ _ _ _ _ _ _ Hs).
    eapply IH; [exact Hrest|]. cbn [length] in Hle. lia.
Qed.

Lemma replicate_shift {A} n (x : A) l :
  replicate n x ++ x :: l = replicate (S n) x ++ l.
Proof. induction n as [|n IH]; [done|]. cbn [replicate app]. by rewrite IH. Qed.

(** What a run of rate-limited attempts leaves behind. *)
Lemma floods_effects client number waits :
  forall w w',
  floods client number waits w w' ->
  fs w' = fs w /\
  sleeps (trace w') = rev waits ++ sleeps (trace w) /\
  imports (trace w') = replicate (length waits) number ++ imports (trace w) /\
  elapsed (trace w') = elapsed (trace w) + total_wait waits.
Proof.
  induction waits as [|s rest IH]; intros w w' Hf.
  - cbn in Hf. subst w'. cbn. repeat split; lia.
  - destruct Hf as (msg & w1 & Hs & Hrest).
    destruct (IH _ _ Hrest) as (Hfs & Hsl & Him & Hel).
    pose proof (lookup_body_fs client number ∅ (record (checking_line number) w)) as Bfs.
    pose proof (lookup_body_events client number ∅ (record (checking_line number) w))
      as (Bsl & Bim & Bel).
    unfold try_block in Hs. rewrite Hs in Bfs, Bsl, Bim, Bel.
    cbn [snd record fs trace sleeps imports elapsed checking_line] in Bfs, Bsl, Bim, Bel.
    cbn [after_wait record fs trace sleeps imports elapsed rate_limit_line] in Hfs, Hsl, Him, Hel.
    split; [congruence|]. split; [|split].
    + rewrite Hsl, Bsl. cbn [rev]. by rewrite <- app_assoc.
    + rewrite Him, Bim. cbn [length]. apply replicate_shift.
    + rewrite Hel, Bel. cbn [total_wait foldr]. fold (total_wait rest). lia.
Qed.

(** A single match followed by a deletion response that carries the user. *)
Lemma get_names_frame_found fuel client number w u0 u us :
  import_contacts client number (attempt_history number w) = Returns [u0] ->
  delete_contacts client (tl_id u0)
    (ImportContactsRequest number :: attempt_history number w)
  = Returns (User u :: us) ->
  get_names_frame (S fuel) client number w
  = ((found_record u, Ok (found_record u)),
     record done_line
       (record (DeleteContactsRequest (tl_id u0))
          (record (ImportContactsRequest number)
             (record (checking_line number) w)))).
Proof.
  intros Hi Hd. cbn [get_names_frame].
  unfold lookup_body, bind, call. cbn [record trace fs].
  unfold attempt_history in *. rewrite Hi. cbn [trace fs]. rewrite Hd.
  unfold first_user, user_fields, ret, update.
  by rewrite (right_id_L ∅ (∪)).
Qed.

Lemma found_record_no_error u : found_record u !! "error" = None.
Proof. reflexivity. Qed.

(** C3. While the service answers the attempts of a lookup with rate-limit
    signals, [get_names] sleeps for exactly the signalled duration and tries
    the same number again, however many signals there are: the lookup is the
    lookup started after the waits, it is never ended by a signal, and when
    the next attempt finds one account the call returns that account's
    record, without an error entry, after having slept for all the waits. *)
Theorem get_names_rate_limit client number waits w w' fuel :
  floods client number waits w w' ->
  get_names (length waits + fuel) client number w = get_names fuel client number w' /\
  fs w' = fs w /\
  sleeps (trace w') = rev waits ++ sleeps (trace w) /\
  imports (trace w') = replicate (length waits) number ++ imports (trace w) /\
  (forall fuel', (fuel' <= length waits)%nat ->
     fst (get_names fuel' client number w) = Diverge) /\
  (forall u0 u us,
     import_contacts client number (attempt_history number w') = Returns [u0] ->
     delete_contacts client (tl_id u0)
       (ImportContactsRequest number :: attempt_history number w')
     = Returns (User u :: us) ->
     exists w'',
       get_names (length waits + S fuel) client number w = (Ok (found_record u), w'') /\
       found_record u !! "error" = None /\
       elapsed (trace w'') = elapsed (trace w) + total_wait waits /\
       imports (trace w'') = replicate (S (length waits)) number ++ imports (trace w)).
Proof.
  intros Hf.
  destruct (floods_effects _ _ _ _ _ Hf) as (Hfs & Hsl & Him & Hel).
  split.
  { unfold get_names. by rewrite (get_names_frame_floods _ _ _ _ _ _ Hf). }
  split; [exact Hfs|]. split; [exact Hsl|]. split; [exact Him|].
  split.
  { intros fuel' Hle. unfold get_names.
    pose proof (get_names_frame_starved _ _ _ _ _ _ Hf Hle) as Hd.
    destruct (get_names_frame fuel' client number w) as [[d o] w1].
    exact Hd. }
  intros u0 u us Hi Hd. eexists.
  unfold get_names.
  rewrite (get_names_frame_floods _ _ _ _ _ _ Hf).
  rewrite (get_names_frame_found _ _ _ _ _ _ _ Hi Hd).
  split; [reflexivity|]. split; [reflexivity|].
  cbn [record trace elapsed imports done_line checking_line].
  rewrite Hel, Him. split; reflexivity.
Qed.

Lemma get_names_rate_limit_witness :
  floods flood_once "4912345" [3] fresh
    (after_wait 3 (record (ImportContactsRequest "4912345")
                     (record (checking_line "4912345") fresh))) /\
  exists w'',
    get_names 2 flood_once "4912345" fresh = (Ok (found_record alice), w'') /\
    found_record alice !! "error" = None /\
    elapsed (trace w'') = 3 /\
    imports (trace w'') = ["4912345"; "4912345"].
Proof.
  assert (H : floods flood_once "4912345" [3] fresh
                (after_wait 3 (record (ImportContactsRequest "4912345")
                                 (record (checking_line "4912345") fresh)))).
  { exists "A wait of 3 seconds is required",
      (record (ImportContactsRequest "4912345") (record (checking_line "4912345") fresh)).
    split; reflexivity. }
  split; [exact H|].
  destruct (get_names_rate_limit flood_once "4912345" [3] fresh _ 0 H)
    as (_ & _ & _ & _ & _ & Hfound).
  destruct (Hfound (User alice) alice [] eq_refl eq_refl) as (w'' & Hrun & Herr & Hel & Him).
  exists w''. split; [exact Hrun|]. split; [exact Herr|].
  split; [exact Hel | exact Him].
Defined.

Example get_names_flood_on_delete :
  fst (get_names 2 flood_on_delete "4912347" fresh) = Ok (found_record alice) /\
  sleeps (trace (snd (get_names 2 flood_on_delete "4912347" fresh))) = [7] /\
  imports (trace (snd (get_names 2 flood_on_delete "4912347" fresh)))
  = ["4912347"; "4912347"].
Proof. repeat split. Qed.

(** An attempt whose [try] block raises an unexpected failure records it and
    raises it again. *)
Lemma get_names_frame_unexpected fuel client number w e w1 :
  try_block client number w = (Raise e, w1) ->
  unexpected e = true ->
  get_names_frame (S fuel) client number w
  = ((error_result (unexpected_message (exn_str e)), Raise e), w1).
Proof.
  unfold try_block. intros H Hu. cbn [get_names_frame]. rewrite H.
  unfold update. rewrite (right_id_L ∅ (∪)).
  destruct e; try discriminate Hu; reflexivity.
Qed.

(** A type mismatch in the [try] block is turned into an error result. *)
Lemma get_names_frame_type_error fuel client number w msg w1 :
  try_block client number w = (Raise (TypeError msg), w1) ->
  get_names_frame (S fuel) client number w
  = ((error_result (transient_message msg number),
      Ok (error_result (transient_message msg number))),
     record done_line w1).
Proof.
  unfold try_block. intros H. cbn [get_names_frame]. rewrite H.
  unfold update. by rewrite (right_id_L ∅ (∪)).
Qed.

(** No match, and more than one match. *)
Lemma get_names_frame_no_match fuel client number w :
  import_contacts client number (attempt_history number w) = Returns [] ->
  get_names_frame (S fuel) client number w
  = ((error_result not_registered_message, Ok (error_result not_registered_message)),
     record done_line
       (record (ImportContactsRequest number)
          (record (checking_line number) w))).
Proof.
  intros Hi. cbn [get_names_frame].
  unfold lookup_body, bind, call. cbn [record trace fs].
  unfold attempt_history in Hi. rewrite Hi.
  unfold ret, update. by rewrite (right_id_L ∅ (∪)).
Qed.

Lemma get_names_frame_many_matches fuel client number w u0 u1 us :
  import_contacts client number (attempt_history number w)
  = Returns (u0 :: u1 :: us) ->
  get_names_frame (S fuel) client number w
  = ((error_result ambiguous_message, Ok (error_result ambiguous_message)),
     record done_line
       (record (ImportContactsRequest number)
          (record (checking_line number) w))).
Proof.
  intros Hi. cbn [get_names_frame].
  unfold lookup_body, bind, call. cbn [record trace fs].
  unfold attempt_history in Hi. rewrite Hi.
  unfold ret, update. by rewrite (right_id_L ∅ (∪)).
Qed.

(** Whatever [get_names] returns is one of the four kinds of result. *)
Lemma get_names_classified fuel client number :
  forall w d w',
  get_names fuel client number w = (Ok d, w') ->
  NotRegistered d \/ Found d \/ AmbiguousMatch d \/ TransientError number d.
Proof.
  unfold get_names.
  induction fuel as [|fuel IH]; intros w d w' H; [discriminate H|].
  cbn [get_names_frame] in H.
  destruct (lookup_body client number ∅ (record (checking_line number) w))
    as [[r|e|] w1] eqn:Hbody.
  - injection H as <- _. clear IH.
    unfold lookup_body, bind, call in Hbody.
    destruct (import_contacts client number _) as [users|e]; [|discriminate Hbody].
    unfold update in Hbody. rewrite !(right_id_L ∅ (∪)) in Hbody.
    destruct users as [|u0 [|u1 users]].
    + left. unfold ret in Hbody. by injection Hbody as <- _.
    + destruct (delete_contacts client (tl_id u0) _) as [us|e]; [|discriminate Hbody].
      destruct us as [|[u|i] us]; try discriminate Hbody.
      right; left. exists u. unfold first_user, user_fields, ret in Hbody.
      by injection Hbody as <- _.
    + right; right; left. unfold ret in Hbody. by injection Hbody as <- _.
  - destruct e; try discriminate H.
    + injection H as <- _. right; right; right.
      exists msg. unfold update. by rewrite (right_id_L ∅ (∪)).
    + eapply IH. exact H.
  - discriminate H.
Qed.

(** C4, amended. When, after any number of rate-limit waits, the [try] block
    of the lookup raises a failure that is neither a [TypeError] (wherever it
    is raised) nor a rate-limit signal, [get_names] records
    "Unexpected error: ..." in its result and raises the same failure; the
    loop propagates it, and the file system (cursor and result store) is as
    before the lookup. *)
Theorem get_names_unexpected_failure client number waits w w' fuel e w1 :
  floods client number waits w w' ->
  try_block client number w' = (Raise e, w1) ->
  unexpected e = true ->
  get_names_frame (length waits + S fuel) client number w
  = ((error_result (unexpected_message (exn_str e)), Raise e), w1) /\
  fs w1 = fs w /\
  forall turns_left file_path excel_file st,
    phone_number st = number ->
    result st !! number = None ->
    validate_iter (length waits + S fuel) client file_path excel_file st w = (Raise e, w1) /\
    validate_loop (S turns_left) (length waits + S fuel) client file_path excel_file st w
    = (Raise e, w1).
Proof.
  intros Hf Hbody Hu.
  assert (Hframe : get_names_frame (length waits + S fuel) client number w
                   = ((error_result (unexpected_message (exn_str e)), Raise e), w1)).
  { rewrite (get_names_frame_floods _ _ _ _ _ _ Hf).
    by apply get_names_frame_unexpected. }
  split; [exact Hframe|].
  split.
  { pose proof (lookup_body_fs client number ∅ (record (checking_line number) w')) as H.
    unfold try_block in Hbody. rewrite Hbody in H. cbn [snd record fs] in H.
    destruct (floods_effects _ _ _ _ _ Hf) as (Hfs & _). congruence. }
  intros turns_left file_path excel_file st Hp Hres.
  assert (Hiter : validate_iter (length waits + S fuel) client file_path excel_file st w
                  = (Raise e, w1)).
  { unfold validate_iter. rewrite Hp, Hres.
    unfold bind, get_names. by rewrite Hframe. }
  split; [exact Hiter|].
  cbn [validate_loop]. unfold bind. by rewrite Hiter.
Qed.

Lemma get_names_unexpected_failure_witness :
  floods broken_service "4912345" [] (resume_at "4912345") (resume_at "4912345") /\
  unexpected (Exception "Connection lost") = true /\
  get_names_frame 1 broken_service "4912345" (resume_at "4912345")
  = ((error_result "Unexpected error: Connection lost.", Raise (Exception "Connection lost")),
     record (ImportContactsRequest "4912345")
       (record (checking_line "4912345") (resume_at "4912345"))) /\
  validate_users 1 1 broken_service "4912345" cursor_file results_file (resume_at "4912345")
  = (Raise (Exception "Connection lost"),
     record (ImportContactsRequest "4912345")
       (record (checking_line "4912345") (resume_at "4912345"))).
Proof.
  split; [reflexivity|]. split; [reflexivity|].
  destruct (get_names_unexpected_failure broken_service "4912345" []
              (resume_at "4912345") (resume_at "4912345") 0
              (Exception "Connection lost")
              (record (ImportContactsRequest "4912345")
                 (record (checking_line "4912345") (resume_at "4912345")))
              eq_refl eq_refl eq_refl) as (Hframe & _ & Hloop).
  split; [exact Hframe|].
  exact (proj2 (Hloop O cursor_file results_file (LoopState "4912345" ∅) eq_refl eq_refl)).
Defined.

(** C4, as stated, fails for a type mismatch outside the deletion step: a
    [TypeError] raised by the import request (no deletion request is made) is
    not raised again; [get_names] returns an error result and the loop ends
    by its [break]. *)
Lemma get_names_import_mismatch_swallowed :
  import_contacts import_mismatch_service "4912345"
    (attempt_history "4912345" (resume_at "4912345"))
  = Raises (TypeError "a bytes-like object is required, not 'NoneType'") /\
  fst (get_names 1 import_mismatch_service "4912345" (resume_at "4912345"))
  = Ok (error_result
          (transient_message "a bytes-like object is required, not 'NoneType'" "4912345")) /\
  trace (snd (get_names 1 import_mismatch_service "4912345" (resume_at "4912345")))
  = [done_line; ImportContactsRequest "4912345"; checking_line "4912345"] /\
  fst (validate_users 1 1 import_mismatch_service "4912345" cursor_file results_file
         (resume_at "4912345"))
  = Ok {[ "4912345" :=
            error_result
              (transient_message "a bytes-like object is required, not 'NoneType'" "4912345") ]}.
Proof.
  split; [reflexivity|]. split; [vm_compute; reflexivity|].
  split; [vm_compute; reflexivity|]. vm_compute; reflexivity.
Qed.

(** ** The scanning loop *)

Lemma error_result_lookup msg : error_result msg !! "error" = Some (VStr msg).
Proof. apply lookup_singleton_eq. Qed.

(** An error result without the phrase "not on Telegram" ends the loop. *)
Lemma validate_iter_break retries client file_path excel_file st w msg w1 :
  result st !! phone_number st = None ->
  get_names retries client (phone_number st) w = (Ok (error_result msg), w1) ->
  Py.contains "not on Telegram" msg = false ->
  validate_iter retries client file_path excel_file st w
  = (Ok (Break (looked_up st (error_result msg))),
     record (unexpected_line (phone_number st) msg)
       (record (error_line (phone_number st) msg) w1)).
Proof.
  intros Hres Hget Hc. unfold validate_iter. rewrite Hres.
  unfold bind at 1. rewrite Hget. rewrite error_result_lookup.
  unfold bind, print, emit, str_in, ret. cbn [phone_number value_str fs trace].
  rewrite Hc. reflexivity.
Qed.

(** An error result with the phrase moves the cursor to the next number. *)
Lemma validate_iter_skip retries client file_path excel_file st w msg w1 :
  result st !! phone_number st = None ->
  get_names retries client (phone_number st) w = (Ok (error_result msg), w1) ->
  Py.contains "not on Telegram" msg = true ->
  numeral (phone_number st) = true ->
  let next := Py.str (numeral_value (phone_number st) + 1) in
  validate_iter retries client file_path excel_file st w
  = (Ok (Continue (LoopState next (<[phone_number st := error_result msg]> (result st)))),
     skipped file_path (phone_number st) next msg w1).
Proof.
  intros Hres Hget Hc Hnum next. unfold validate_iter. rewrite Hres.
  unfold bind at 1. rewrite Hget. rewrite error_result_lookup.
  unfold bind at 1. unfold print, emit. unfold bind at 1.
  unfold str_in, ret. cbn [value_str]. rewrite Hc.
  unfold advance, bind. cbn [phone_number result].
  rewrite (increment_numeral _ _ Hnum). reflexivity.
Qed.

(** A result without an error entry is stored, then the cursor moves. *)
Lemma validate_iter_save retries client file_path excel_file st w d w1 :
  result st !! phone_number st = None ->
  get_names retries client (phone_number st) w = (Ok d, w1) ->
  d !! "error" = None ->
  store_or_absent w1 excel_file ->
  numeral (phone_number st) = true ->
  let next := Py.str (numeral_value (phone_number st) + 1) in
  validate_iter retries client file_path excel_file st w
  = (Ok (Continue (LoopState next (<[phone_number st := d]> (result st)))),
     saved file_path excel_file next d w1).
Proof.
  intros Hres Hget Herr Hstore Hnum next. unfold validate_iter. rewrite Hres.
  unfold bind at 1. rewrite Hget, Herr.
  unfold bind at 1. unfold save_to_excel, saved, rows_at.
  destruct Hstore as [Habs | [rows Hrows]].
  - rewrite Habs. unfold print, emit. cbn [fs trace].
    unfold advance, bind. cbn [phone_number result].
    rewrite (increment_numeral _ _ Hnum). reflexivity.
  - rewrite Hrows. unfold print, emit. cbn [fs trace].
    unfold advance, bind. cbn [phone_number result].
    rewrite (increment_numeral _ _ Hnum). reflexivity.
Qed.

(** The halt of the loop.  When the lookup of the current number returns the
    multiple-accounts error, or the type-mismatch error with a text that does
    not contain the phrase "not on Telegram", the loop prints the error twice
    ("Error for", "Unexpected error for"), leaves the file system as it was
    (no cursor write, no row) and returns. *)
Theorem validate_users_halts retries client file_path excel_file st w d w1 :
  result st !! phone_number st = None ->
  get_names retries client (phone_number st) w = (Ok d, w1) ->
  (AmbiguousMatch d \/
   exists e, d = error_result (transient_message e (phone_number st)) /\
             Py.contains "not on Telegram" (transient_message e (phone_number st)) = false) ->
  exists err w2,
    d !! "error" = Some (VStr err) /\
    validate_iter retries client file_path excel_file st w = (Ok (Break (looked_up st d)), w2) /\
    trace w2 = unexpected_line (phone_number st) err
               :: error_line (phone_number st) err :: trace w1 /\
    fs w2 = fs w /\
    forall turns_left,
      validate_loop (S turns_left) retries client file_path excel_file st w
      = (Ok (<[phone_number st := d]> (result st)), w2).
Proof.
  intros Hres Hget Hclass.
  assert (Hmsg : exists msg, d = error_result msg /\ Py.contains "not on Telegram" msg = false).
  { destruct Hclass as [-> | (e & -> & Hc)]; eauto. }
  destruct Hmsg as (msg & -> & Hc).
  pose proof (validate_iter_break retries client file_path excel_file st w msg w1 Hres Hget Hc)
    as Hiter.
  eexists msg, _. split; [apply error_result_lookup|].
  split; [exact Hiter|]. split; [reflexivity|].
  split; [cbn [record fs]; by apply (get_names_fs _ _ _ _ _ _ Hget)|].
  intros turns_left. cbn [validate_loop]. unfold bind. by rewrite Hiter.
Qed.

Lemma validate_users_halts_witness :
  (∅ : gmap string dict) !! "4912345" = None /\
  AmbiguousMatch (error_result ambiguous_message) /\
  exists w1 w2,
    get_names 1 twin_service "4912345" (resume_at "4912345")
    = (Ok (error_result ambiguous_message), w1) /\
    validate_users 1 1 twin_service "4912345" cursor_file results_file (resume_at "4912345")
    = (Ok {[ "4912345" := error_result ambiguous_message ]}, w2) /\
    fs w2 = fs (resume_at "4912345").
Proof.
  split; [reflexivity|]. split; [reflexivity|].
  assert (Hres : result (LoopState "4912345" ∅) !! phone_number (LoopState "4912345" ∅) = None)
    by reflexivity.
  assert (Hget : get_names 1 twin_service (phone_number (LoopState "4912345" ∅))
                   (resume_at "4912345")
                 = (Ok (error_result ambiguous_message),
                    snd (get_names 1 twin_service "4912345" (resume_at "4912345"))))
    by reflexivity.
  destruct (validate_users_halts 1 twin_service cursor_file results_file
              (LoopState "4912345" ∅) (resume_at "4912345")
              (error_result ambiguous_message) _ Hres Hget (or_introl eq_refl))
    as (err & w2 & _ & _ & _ & Hfs & Hloop).
  eexists _, w2. split; [exact Hget|].
  split; [exact (Hloop O) | exact Hfs].
Defined.

(** C2. The loop has no branch of its own for a type mismatch: it tells the
    error results apart by the phrase "not on Telegram" in the error text,
    and the text of a type mismatch carries the message of the exception.
    With the cursor at 4912345, when the deletion step raises a type
    mismatch whose message contains the phrase, the lookup returns the
    type-mismatch error, and the loop, instead of halting with the cursor
    file as it was, rewrites the cursor file to 4912346 and goes on to the
    next number. *)
Lemma validate_users_misled :
  fst (get_names 1 misleading_service "4912345" (resume_at "4912345")) = Ok misled_result /\
  TransientError "4912345" misled_result /\
  fst misled_turn = Ok (Continue (LoopState "4912346" {[ "4912345" := misled_result ]})) /\
  fs (resume_at "4912345") !! cursor_file = Some (TextFile "4912345") /\
  fs (snd misled_turn) !! cursor_file = Some (TextFile "4912346").
Proof.
  split; [vm_compute; reflexivity|].
  split; [exists "peer is not on Telegram"; reflexivity|].
  split; [vm_compute; reflexivity|].
  split; vm_compute; reflexivity.
Qed.

Lemma str_succ_numeral v :
  0 <= v ->
  numeral (Py.str (v + 1)) = true /\ numeral_value (Py.str (v + 1)) = v + 1 /\
  leading_zero (Py.str (v + 1)) = false.
Proof.
  intros Hv. destruct (str_nonneg_spec (v + 1) ltac:(lia)) as (H1 & H2 & H3).
  split; [done|]. split; [done|]. apply H3. lia.
Qed.

Lemma numeral_value_neq a b : numeral_value a <> numeral_value b -> a <> b.
Proof. congruence. Qed.

Lemma skipped_fs file_path number next err w :
  fs (skipped file_path number next err w) = <[file_path := TextFile next]> (fs w).
Proof. reflexivity. Qed.

(** The loop and its first turns. *)
Lemma validate_loop_turns n retries client file_path excel_file :
  forall st w st' w' fuel,
  turns n retries client file_path excel_file st w = (Ok (Continue st'), w') ->
  validate_loop (n + fuel) retries client file_path excel_file st w
  = validate_loop fuel retries client file_path excel_file st' w'.
Proof.
  induction n as [|n IH]; intros st w st' w' fuel H.
  - cbn [turns] in H. unfold ret in H. by injection H as <- <-.
  - cbn [turns] in H. cbn [Nat.add validate_loop]. unfold bind in *.
    destruct (validate_iter retries client file_path excel_file st w) as [[c|e|] w1];
      try discriminate H.
    destruct c as [st1|st1]; [|discriminate H].
    by apply IH.
Qed.

(** C1. Started at the numeral [n], when the lookups of [n] and [n+1] return
    the not-registered result and the lookup of [n+2] returns a found record,
    after these three turns the result store holds its former rows followed
    by the record of [n+2] (exactly that one row when it was empty or
    absent), and the cursor file holds the numeral of [n+3], which is where
    the loop continues. *)
Theorem validate_users_two_absent_then_found
    retries client n file_path excel_file w0 w1 w2 w3 d0 d1 d2 :
  numeral n = true ->
  file_path <> excel_file ->
  store_or_absent w0 excel_file ->
  let n1 := Py.str (numeral_value n + 1) in
  let n2 := Py.str (numeral_value n + 2) in
  let n3 := Py.str (numeral_value n + 3) in
  get_names retries client n w0 = (Ok d0, w1) -> NotRegistered d0 ->
  get_names retries client n1 (skipped file_path n n1 not_registered_message w1)
  = (Ok d1, w2) -> NotRegistered d1 ->
  get_names retries client n2 (skipped file_path n1 n2 not_registered_message w2)
  = (Ok d2, w3) -> Found d2 ->
  exists st w',
    turns 3 retries client file_path excel_file (LoopState n ∅) w0 = (Ok (Continue st), w') /\
    phone_number st = n3 /\
    fs w' !! excel_file = Some (Workbook (rows_at w0 excel_file ++ [d2])) /\
    (rows_at w0 excel_file = [] -> rows_at w' excel_file = [d2]) /\
    fs w' !! file_path = Some (TextFile n3) /\
    read_last_checked_number file_path w' = (Ok n3, w') /\
    numeral n3 = true /\ leading_zero n3 = false /\
    numeral_value n3 = numeral_value n + 3 /\
    forall fuel,
      validate_users (3 + fuel) retries client n file_path excel_file w0
      = validate_loop fuel retries client file_path excel_file st w'.
Proof.
  intros Hn Hpaths Hstore n1 n2 n3 Hget0 -> Hget1 -> Hget2 [u ->].
  pose proof (numeral_value_nonneg n Hn) as Hv.
  destruct (str_succ_numeral (numeral_value n) Hv) as (Hn1 & Hv1 & _).
  destruct (str_succ_numeral (numeral_value n + 1) ltac:(lia)) as (Hn2 & Hv2 & _).
  destruct (str_succ_numeral (numeral_value n + 2) ltac:(lia)) as (Hn3 & Hv3 & Hz3).
  replace (numeral_value n + 1 + 1) with (numeral_value n + 2) in * by lia.
  replace (numeral_value n + 2 + 1) with (numeral_value n + 3) in * by lia.
  fold n1 in Hn1, Hv1. fold n2 in Hn2, Hv2. fold n3 in Hn3, Hv3, Hz3.
  assert (Hne01 : n <> n1) by (apply numeral_value_neq; lia).
  assert (Hne02 : n <> n2) by (apply numeral_value_neq; lia).
  assert (Hne12 : n1 <> n2) by (apply numeral_value_neq; lia).
  (* first turn *)
  pose proof (validate_iter_skip retries client file_path excel_file (LoopState n ∅) w0
                not_registered_message w1 (lookup_empty _) Hget0 eq_refl Hn) as Ht0.
  cbn [phone_number result] in Ht0. fold n1 in Ht0.
  (* second turn *)
  assert (Hres1 : result (LoopState n1 (<[n := error_result not_registered_message]> ∅))
                  !! phone_number (LoopState n1 (<[n := error_result not_registered_message]> ∅))
                  = None).
  { cbn [phone_number result]. by rewrite lookup_insert_ne. }
  pose proof (validate_iter_skip retries client file_path excel_file _ _
                not_registered_message w2 Hres1 Hget1 eq_refl Hn1) as Ht1.
  cbn [phone_number result] in Ht1. rewrite Hv1 in Ht1.
  replace (numeral_value n + 1 + 1) with (numeral_value n + 2) in Ht1 by lia.
  fold n2 in Ht1.
  (* third turn *)
  set (res2 := <[n1 := error_result not_registered_message]>
                 (<[n := error_result not_registered_message]> (∅ : gmap string dict))) in *.
  assert (Hres2 : result (LoopState n2 res2) !! phone_number (LoopState n2 res2) = None).
  { cbn [phone_number result]. subst res2. by rewrite !lookup_insert_ne. }
  assert (Hfs3 : fs w3 !! excel_file = fs w0 !! excel_file).
  { rewrite (get_names_fs _ _ _ _ _ _ Hget2), skipped_fs, lookup_insert_ne by done.
    rewrite (get_names_fs _ _ _ _ _ _ Hget1), skipped_fs, lookup_insert_ne by done.
    by rewrite (get_names_fs _ _ _ _ _ _ Hget0). }
  assert (Hrows : rows_at w3 excel_file = rows_at w0 excel_file).
  { unfold rows_at. by rewrite Hfs3. }
  assert (Hstore3 : store_or_absent w3 excel_file).
  { unfold store_or_absent. by rewrite Hfs3. }
  pose proof (validate_iter_save retries client file_path excel_file _ _ (found_record u) w3
                Hres2 Hget2 (found_record_no_error u) Hstore3 Hn2) as Ht2.
  cbn [phone_number result] in Ht2. rewrite Hv2 in Ht2.
  replace (numeral_value n + 2 + 1) with (numeral_value n + 3) in Ht2 by lia.
  fold n3 in Ht2.
  assert (Hturns : turns 3 retries client file_path excel_file (LoopState n ∅) w0
                   = (Ok (Continue (LoopState n3 (<[n2 := found_record u]> res2))),
                      saved file_path excel_file n3 (found_record u) w3)).
  { cbn [turns]. unfold bind at 1. rewrite Ht0.
    unfold bind at 1. rewrite Ht1.
    unfold bind at 1. rewrite Ht2. reflexivity. }
  eexists _, _. split; [exact Hturns|].
  split; [reflexivity|].
  assert (Hexcel : fs (saved file_path excel_file n3 (found_record u) w3) !! excel_file
                   = Some (Workbook (rows_at w0 excel_file ++ [found_record u]))).
  { unfold saved. cbn [record fs].
    rewrite lookup_insert_ne by done. by rewrite lookup_insert_eq, Hrows. }
  split; [exact Hexcel|].
  split; [intros Hempty; unfold rows_at at 1; by rewrite Hexcel, Hempty|].
  assert (Hcursor : fs (saved file_path excel_file n3 (found_record u) w3) !! file_path
                    = Some (TextFile n3)).
  { unfold saved. cbn [record fs]. by rewrite lookup_insert_eq. }
  split; [exact Hcursor|].
  split.
  { unfold read_last_checked_number, bind, open_text. rewrite Hcursor.
    unfold ret. by rewrite (readline_numeral n3 Hn3). }
  split; [exact Hn3|]. split; [exact Hz3|]. split; [exact Hv3|].
  intros fuel. unfold validate_users.
  by apply validate_loop_turns.
Qed.

Lemma validate_users_two_absent_then_found_witness :
  numeral "4912345" = true /\
  cursor_file <> results_file /\
  store_or_absent (resume_at "4912345") results_file /\
  exists st w',
    turns 3 1 third_is_found cursor_file results_file (LoopState "4912345" ∅)
      (resume_at "4912345") = (Ok (Continue st), w') /\
    phone_number st = "4912348" /\
    rows_at w' results_file = [found_record alice] /\
    read_last_checked_number cursor_file w' = (Ok "4912348", w').
Proof.
  assert (Hpaths : cursor_file <> results_file) by discriminate.
  assert (Hstore : store_or_absent (resume_at "4912345") results_file)
    by (left; reflexivity).
  split; [reflexivity|]. split; [exact Hpaths|]. split; [exact Hstore|].
  set (w0 := resume_at "4912345").
  set (w1 := snd (get_names 1 third_is_found "4912345" w0)).
  set (w2 := snd (get_names 1 third_is_found "4912346"
                    (skipped cursor_file "4912345" "4912346" not_registered_message w1))).
  set (w3 := snd (get_names 1 third_is_found "4912347"
                    (skipped cursor_file "4912346" "4912347" not_registered_message w2))).
  assert (H0 : get_names 1 third_is_found "4912345" w0
               = (Ok (error_result not_registered_message), w1))
    by (vm_compute; reflexivity).
  assert (H1 : get_names 1 third_is_found "4912346"
                 (skipped cursor_file "4912345" "4912346" not_registered_message w1)
               = (Ok (error_result not_registered_message), w2))
    by (vm_compute; reflexivity).
  assert (H2 : get_names 1 third_is_found "4912347"
                 (skipped cursor_file "4912346" "4912347" not_registered_message w2)
               = (Ok (found_record alice), w3))
    by reflexivity.
  destruct (validate_users_two_absent_then_found 1 third_is_found "4912345"
              cursor_file results_file w0 w1 w2 w3 _ _ _
              eq_refl Hpaths Hstore H0 eq_refl H1 eq_refl H2 (ex_intro _ alice eq_refl))
    as (st & w' & Hturns & Hphone & _ & Hrows & _ & Hread & _).
  exists st, w'. split; [exact Hturns|]. split; [exact Hphone|].
  split; [apply Hrows; reflexivity | exact Hread].
Defined.

(** ** Proxy fail-over *)

Example proxy_str_example :
  proxy_str proxy_b = "(3, '10.0.0.2', 3128, True, 'bob', 'pw')".
Proof. reflexivity. Qed.

Example login_examples :
  fst (login first_proxy_down typist [proxy_a; proxy_b; proxy_c] fresh) = Ok (Client proxy_b) /\
  fst (login first_proxy_down typist [proxy_a; proxy_a] fresh) = Raise AllProxiesFailedError /\
  session_log (trace (snd (login first_proxy_down typist [proxy_a; proxy_b; proxy_c] fresh)))
  = [Opened proxy_b; Closed proxy_a; Opened proxy_a].
Proof. repeat split. Qed.

Lemma quiet_ret {A} (a : A) : quiet (ret a).
Proof. by intros w. Qed.

Lemma quiet_raise {A} e : quiet (raise e : M A).
Proof. by intros w. Qed.

Lemma quiet_bind {A B} (m : M A) (k : A -> M B) :
  quiet m -> (forall a, quiet (k a)) -> quiet (bind m k).
Proof.
  intros Hm Hk w. unfold bind. specialize (Hm w).
  destruct (m w) as [[a|e|] w1]; cbn [snd] in *; [|done..].
  destruct (Hk a w1) as [H1 H2]. by rewrite H1, H2.
Qed.

Lemma quiet_try_except {A} (m : M A) (h : exn -> M A) :
  quiet m -> (forall e, quiet (h e)) -> quiet (try_except m h).
Proof.
  intros Hm Hh w. unfold try_except. specialize (Hm w).
  destruct (m w) as [[a|e|] w1]; cbn [snd] in *; [done| |done].
  destruct (Hh e w1) as [H1 H2]. by rewrite H1, H2.
Qed.

Lemma quiet_call {A} ev (answer : list event -> reply A) :
  session_log [ev] = [] -> quiet (call ev answer).
Proof.
  intros Hev w. unfold call.
  destruct (answer (trace w)); cbn [snd fs trace]; (split; [done|]);
    by destruct ev.
Qed.

Lemma quiet_print text : quiet (print text).
Proof. by intros w. Qed.

Lemma quiet_sign_in client op p : quiet (sign_in client op p).
Proof.
  unfold sign_in. apply quiet_bind; [by apply quiet_call|]. intros _.
  apply quiet_try_except.
  - apply quiet_bind; [by apply quiet_call|]. intros code. by apply quiet_call.
  - intros e. destruct e; try apply quiet_raise.
    apply quiet_bind; [by apply quiet_call|]. intros pw. by apply quiet_call.
Qed.

Lemma quiet_connect_and_authorize client op p : quiet (connect_and_authorize client op p).
Proof.
  unfold connect_and_authorize.
  apply quiet_bind; [by apply quiet_call|]. intros _.
  apply quiet_bind; [by apply quiet_call|]. intros authorized.
  apply quiet_bind.
  { destruct authorized; [apply quiet_ret | apply quiet_sign_in]. }
  intros _. apply quiet_bind; [apply quiet_print|]. intros _. apply quiet_ret.
Qed.

Lemma bind_ok {A B} (m : M A) (k : A -> M B) w b w' :
  bind m k w = (Ok b, w') ->
  exists a w1, m w = (Ok a, w1) /\ k a w1 = (Ok b, w').
Proof.
  unfold bind. destruct (m w) as [[a|e|] w1]; try discriminate. eauto.
Qed.

Lemma connect_and_authorize_client client op p w c w1 :
  connect_and_authorize client op p w = (Ok c, w1) -> c = Client p.
Proof.
  unfold connect_and_authorize. intros H.
  apply bind_ok in H as (? & ? & _ & H).
  apply bind_ok in H as (? & ? & _ & H).
  apply bind_ok in H as (? & ? & _ & H).
  apply bind_ok in H as (? & ? & _ & H).
  unfold ret in H. congruence.
Qed.

Lemma live_failed_log proxies :
  forall older, live (failed_log proxies older) = live older.
Proof.
  induction proxies as [|p rest IH]; intros older; [done|].
  cbn [failed_log]. rewrite IH. cbn [live remove_first].
  by rewrite decide_True.
Qed.

Lemma try_proxy_fails client op p w e w1 :
  connect_and_authorize client op p (record (NewClient p) w) = (Raise e, w1) ->
  try_proxy client op p w = (Ok None, after_failure p e w1).
Proof.
  intros H. unfold try_proxy, bind at 1, emit.
  fold (record (NewClient p) w).
  unfold try_except, bind at 1. rewrite H. reflexivity.
Qed.

Lemma try_proxy_succeeds client op p w c w1 :
  connect_and_authorize client op p (record (NewClient p) w) = (Ok c, w1) ->
  try_proxy client op p w = (Ok (Some c), w1).
Proof.
  intros H. unfold try_proxy, bind at 1, emit.
  fold (record (NewClient p) w).
  unfold try_except, bind at 1. rewrite H. reflexivity.
Qed.

Lemma for_proxies_all_fail client op pre :
  forall w,
  all_fail client op pre w ->
  let wf := after_failures client op pre w in
  for_proxies client op pre w = (Raise AllProxiesFailedError, wf) /\
  session_log (trace wf) = failed_log pre (session_log (trace w)) /\
  fs wf = fs w /\
  forall rest, for_proxies client op (pre ++ rest) w = for_proxies client op rest wf.
Proof.
  induction pre as [|p pre IH]; intros w Hall; [done|].
  destruct Hall as (e & w1 & Htry & Hrest).
  cbn [after_failures]. rewrite Htry.
  destruct (IH _ Hrest) as (Hrun & Hlog & Hfs & Happ).
  pose proof (quiet_connect_and_authorize client op p (record (NewClient p) w)) as [Hq1 Hq2].
  rewrite Htry in Hq1, Hq2. cbn [snd record fs trace session_log] in Hq1, Hq2.
  split; [|split; [|split]].
  - cbn [for_proxies]. unfold bind at 1.
    by rewrite (try_proxy_fails _ _ _ _ _ _ Htry).
  - rewrite Hlog. cbn [after_failure record trace session_log failed_log].
    by rewrite Hq2.
  - rewrite Hfs. cbn [after_failure record fs]. exact Hq1.
  - intros rest. cbn [app for_proxies]. unfold bind at 1.
    rewrite (try_proxy_fails _ _ _ _ _ _ Htry). apply Happ.
Qed.

(** C6. When every proxy of a list fails in its attempt, [login] on that
    list tries each in order, disconnects after each failure and raises
    "All proxies failed", with no client left open; when the list goes on
    with a proxy whose attempt succeeds, [login] returns the client of that
    proxy and creates no client for the proxies after it. *)
Theorem login_failover client op pre w :
  all_fail client op pre (logging_in w) ->
  let wf := after_failures client op pre (logging_in w) in
  login client op pre w = (Raise AllProxiesFailedError, wf) /\
  session_log (trace wf) = failed_log pre (session_log (trace w)) /\
  live (session_log (trace wf)) = live (session_log (trace w)) /\
  fs wf = fs w /\
  forall p post c w1,
    connect_and_authorize client op p (record (NewClient p) wf) = (Ok c, w1) ->
    c = Client p /\
    login client op (pre ++ p :: post) w = (Ok (Client p), w1) /\
    session_log (trace w1) = Opened p :: failed_log pre (session_log (trace w)) /\
    live (session_log (trace w1)) = p :: live (session_log (trace w)).
Proof.
  intros Hall wf.
  destruct (for_proxies_all_fail client op pre (logging_in w) Hall)
    as (Hrun & Hlog & Hfs & Happ).
  fold wf in Hrun, Hlog, Hfs, Happ.
  cbn [logging_in record trace fs session_log] in Hlog, Hfs.
  split; [exact Hrun|]. split; [exact Hlog|].
  split; [by rewrite Hlog, live_failed_log|]. split; [exact Hfs|].
  intros p post c w1 Hok.
  pose proof (connect_and_authorize_client _ _ _ _ _ _ Hok) as ->.
  pose proof (quiet_connect_and_authorize client op p (record (NewClient p) wf)) as [_ Hq].
  rewrite Hok in Hq. cbn [snd record trace session_log] in Hq.
  split; [reflexivity|]. split.
  - unfold login, bind at 1, print_noend, emit. fold (record (Stdout "Logging in...") w).
    fold (logging_in w). rewrite Happ. fold wf.
    cbn [for_proxies]. unfold bind at 1.
    by rewrite (try_proxy_succeeds _ _ _ _ _ _ Hok).
  - rewrite Hq, Hlog. split; [reflexivity|].
    cbn [live]. by rewrite live_failed_log.
Qed.

Lemma login_failover_witness :
  all_fail first_proxy_down typist [proxy_a] (logging_in fresh) /\
  fst (login first_proxy_down typist [proxy_a] fresh) = Raise AllProxiesFailedError /\
  live (session_log (trace (after_failures first_proxy_down typist [proxy_a] (logging_in fresh))))
  = [] /\
  fst (login first_proxy_down typist ([proxy_a] ++ proxy_b :: [proxy_c]) fresh)
  = Ok (Client proxy_b).
Proof.
  assert (H : all_fail first_proxy_down typist [proxy_a] (logging_in fresh)).
  { eexists _, _. split; [reflexivity | exact I]. }
  split; [exact H|].
  destruct (login_failover first_proxy_down typist [proxy_a] fresh H)
    as (Hfail & _ & Hlive & _ & Hnext).
  split; [by rewrite Hfail|]. split; [exact Hlive|].
  destruct (Hnext proxy_b [proxy_c] (Client proxy_b)
              (snd (connect_and_authorize first_proxy_down typist proxy_b
                      (record (NewClient proxy_b)
                         (after_failures first_proxy_down typist [proxy_a] (logging_in fresh)))))
              eq_refl) as (_ & Hrun & _).
  by rewrite Hrun.
Defined.

(** ** Whole runs *)

(** A number that already has a result makes the loop spin without effect. *)
Lemma validate_loop_spins retries client file_path excel_file st w d :
  result st !! phone_number st = Some d ->
  validate_iter retries client file_path excel_file st w = (Ok (Continue st), w) /\
  forall fuel, validate_loop fuel retries client file_path excel_file st w = (Diverge, w).
Proof.
  intros H.
  assert (Hiter : validate_iter retries client file_path excel_file st w = (Ok (Continue st), w)).
  { unfold validate_iter. by rewrite H. }
  split; [exact Hiter|].
  induction fuel as [|fuel IH]; [done|].
  cbn [validate_loop]. unfold bind. by rewrite Hiter.
Qed.

Example main_entrypoint_halts_on_twins :
  fst (main_entrypoint 3 1 twin_service typist cursor_file results_file first_run) = Ok tt /\
  fs (snd (main_entrypoint 3 1 twin_service typist cursor_file results_file first_run))
  = fs first_run.
Proof. split; vm_compute; reflexivity. Qed.

Example main_entrypoint_scans :
  fs (snd (main_entrypoint 3 1 third_is_found typist cursor_file results_file first_run))
  !! cursor_file = Some (TextFile "4912348") /\
  rows_at (snd (main_entrypoint 3 1 third_is_found typist cursor_file results_file first_run))
    results_file = [found_record alice] /\
  fst (main_entrypoint 3 1 third_is_found typist cursor_file results_file first_run) = Diverge.
Proof. repeat split; vm_compute; reflexivity. Qed.

(** * Further properties of the code *)

(** ** Traces *)

Lemma extends_refl p w : extends p w w.
Proof. by exists []. Qed.

Lemma extends_trans p w1 w2 w3 : extends p w1 w2 -> extends p w2 w3 -> extends p w1 w3.
Proof.
  intros (e1 & H1 & F1) (e2 & H2 & F2). exists (e2 ++ e1).
  rewrite H2, H1, app_assoc. split; [done|].
  rewrite forallb_app. by rewrite F1, F2.
Qed.

Lemma extends_record p ev w : p ev = true -> extends p w (record ev w).
Proof. intros H. exists [ev]. cbn. by rewrite H. Qed.

Lemma extends_weaken (p q : event -> bool) w w' :
  (forall ev, p ev = true -> q ev = true) -> extends p w w' -> extends q w w'.
Proof.
  intros Hpq (extra & Ht & Hf). exists extra. split; [done|].
  apply forallb_forall. intros ev Hin.
  apply Hpq. by eapply forallb_forall in Hf.
Qed.

Lemma elapsed_app a b : elapsed (a ++ b) = elapsed a + elapsed b.
Proof.
  induction a as [|ev a IH]; [done|].
  destruct ev; cbn [app elapsed]; lia.
Qed.

Lemma elapsed_nonneg t : 0 <= elapsed t.
Proof. induction t as [|ev t IH]; [done|]. destruct ev; cbn [elapsed]; lia. Qed.

Lemma extends_elapsed p w w' : extends p w w' -> elapsed (trace w) <= elapsed (trace w').
Proof.
  intros (extra & -> & _). rewrite elapsed_app.
  pose proof (elapsed_nonneg extra). lia.
Qed.

Lemma session_log_app a b : session_log (a ++ b) = session_log a ++ session_log b.
Proof.
  induction a as [|ev a IH]; [done|].
  destruct ev; cbn [app session_log]; by rewrite ?IH.
Qed.

Lemma scan_session_log extra :
  forallb scan_event extra = true -> session_log extra = [].
Proof.
  induction extra as [|ev a IH]; [done|].
  cbn [forallb]. intros [Hev Ha]%andb_true_iff.
  destruct ev; try discriminate Hev; cbn [session_log]; auto.
Qed.

Lemma extends_session_log w w' :
  extends scan_event w w' -> session_log (trace w') = session_log (trace w).
Proof.
  intros (extra & -> & Hf). by rewrite session_log_app, scan_session_log.
Qed.

Lemma imports_app a b : imports (a ++ b) = imports a ++ imports b.
Proof.
  induction a as [|ev a IH]; [done|].
  destruct ev; cbn [app imports]; by rewrite ?IH.
Qed.

Lemma lookup_scan_event number ev : lookup_event number ev = true -> scan_event ev = true.
Proof. by destruct ev. Qed.

(** ** The lookup, whatever the service answers *)

Lemma lookup_body_extends client number res w :
  extends (lookup_event number) w (snd (lookup_body client number res w)) /\
  (length (deletes (trace (snd (lookup_body client number res w))))
   <= S (length (deletes (trace w))))%nat.
Proof.
  assert (Hn : String.eqb number number = true) by apply String.eqb_refl.
  unfold lookup_body, bind, call.
  destruct (import_contacts client number (trace w)) as [users|e].
  2:{ split; [exists [ImportContactsRequest number]; cbn; by rewrite Hn | cbn; lia]. }
  destruct users as [|u0 [|u1 users]].
  1,3: split; [exists [ImportContactsRequest number]; cbn; by rewrite Hn | cbn; lia].
  cbn [trace fs].
  assert (Hboth : forall w2 : world,
             trace w2 = DeleteContactsRequest (tl_id u0)
                        :: ImportContactsRequest number :: trace w ->
             extends (lookup_event number) w w2 /\
             (length (deletes (trace w2)) <= S (length (deletes (trace w))))%nat).
  { intros w2 H2. split.
    - exists [DeleteContactsRequest (tl_id u0); ImportContactsRequest number].
      split; [exact H2|]. cbn. by rewrite Hn.
    - rewrite H2. cbn. lia. }
  destruct (delete_contacts client (tl_id u0) _) as [us|e]; [|by apply Hboth].
  destruct us as [|[u|i] us]; by apply Hboth.
Qed.

Lemma lookup_body_deletes client number res w :
  (length (deletes (trace (snd (lookup_body client number res w))))
   <= S (length (deletes (trace w))))%nat.
Proof. apply lookup_body_extends. Qed.

(** What one call of [get_names] adds to the trace: [k] attempts. *)
Lemma get_names_frame_trace client number fuel :
  forall w,
  extends (lookup_event number) w (snd (get_names_frame fuel client number w)) /\
  exists k,
    (k <= fuel)%nat /\
    imports (trace (snd (get_names_frame fuel client number w)))
    = replicate k number ++ imports (trace w) /\
    (length (deletes (trace (snd (get_names_frame fuel client number w))))
     <= k + length (deletes (trace w)))%nat /\
    (snd (fst (get_names_frame fuel client number w)) <> Diverge ->
     length (sleeps (trace (snd (get_names_frame fuel client number w)))) + 1
     = k + length (sleeps (trace w)))%nat.
Proof.
  induction fuel as [|fuel IH]; intros w.
  { split; [apply extends_refl|]. exists O. cbn. repeat split; try lia. congruence. }
  cbn [get_names_frame].
  set (w0 := record (checking_line number) w).
  pose proof (lookup_body_extends client number ∅ w0) as [Hext Hdel].
  pose proof (lookup_body_events client number ∅ w0) as (Hsl & Him & _).
  assert (Hw0 : extends (lookup_event number) w w0) by (by apply extends_record).
  destruct (lookup_body client number ∅ w0) as [[d|e|] w1]; cbn [snd fst] in *.
  - split.
    + eapply extends_trans; [exact Hw0|]. eapply extends_trans; [exact Hext|].
      by apply extends_record.
    + exists 1%nat. cbn [record trace imports deletes sleeps done_line replicate app].
      rewrite Him, Hsl. subst w0. cbn [record trace imports deletes sleeps checking_line] in *.
      repeat split; lia.
  - assert (Hplain :
        extends (lookup_event number) w w1 /\
        exists k, (k <= S fuel)%nat /\
          imports (trace w1) = replicate k number ++ imports (trace w) /\
          (length (deletes (trace w1)) <= k + length (deletes (trace w)))%nat /\
          (length (sleeps (trace w1)) + 1 = k + length (sleeps (trace w)))%nat).
    { split; [eapply extends_trans; [exact Hw0 | exact Hext]|].
      exists 1%nat. rewrite Him, Hsl. subst w0.
      cbn [record trace imports deletes sleeps checking_line] in *.
      repeat split; lia. }
    assert (Hdone :
        extends (lookup_event number) w (record done_line w1) /\
        exists k, (k <= S fuel)%nat /\
          imports (trace (record done_line w1)) = replicate k number ++ imports (trace w) /\
          (length (deletes (trace (record done_line w1)))
           <= k + length (deletes (trace w)))%nat /\
          (length (sleeps (trace (record done_line w1))) + 1
           = k + length (sleeps (trace w)))%nat).
    { destruct Hplain as (H1 & k & H2 & H3 & H4 & H5). split.
      - eapply extends_trans; [exact H1|]. by apply extends_record.
      - exists k. cbn [record trace imports deletes sleeps done_line]. auto. }
    destruct e;
      try (destruct Hplain as (H1 & k & H2 & H3 & H4 & H5);
           split; [exact H1|]; exists k; cbn [snd fst]; by auto).
    + destruct Hdone as (H1 & k & H2 & H3 & H4 & H5).
      split; [exact H1|]. exists k. cbn [snd fst]. by auto.
    + destruct (IH (record (Sleep seconds) (record (rate_limit_line seconds) w1)))
        as (He & k & Hk & Hi & Hd & Hs).
      split.
      * eapply extends_trans; [exact Hw0|]. eapply extends_trans; [exact Hext|].
        eapply extends_trans; [|exact He].
        eapply extends_trans; by apply extends_record.
      * exists (S k). split; [lia|].
        split.
        { rewrite Hi. cbn [record trace imports rate_limit_line]. rewrite Him.
          subst w0. cbn [record trace imports checking_line].
          apply replicate_shift. }
        split.
        { cbn [record trace deletes rate_limit_line] in Hd.
          subst w0. cbn [record trace deletes checking_line] in Hdel. lia. }
        intros Hnd. specialize (Hs Hnd).
        cbn [record trace sleeps rate_limit_line length] in Hs. rewrite Hsl in Hs.
        subst w0. cbn [record trace sleeps checking_line] in Hs. lia.
  - split; [eapply extends_trans; [exact Hw0 | exact Hext]|].
    exists 1%nat. rewrite Him. subst w0.
    cbn [record trace imports deletes sleeps checking_line] in *.
    repeat split; try lia. congruence.
Qed.

Lemma get_names_frame_snd fuel client number w :
  snd (get_names fuel client number w) = snd (get_names_frame fuel client number w) /\
  fst (get_names fuel client number w) = snd (fst (get_names_frame fuel client number w)).
Proof.
  unfold get_names. by destruct (get_names_frame fuel client number w) as [[d o] w1].
Qed.

(** X1. Whatever the service answers, a lookup leaves the file system as it
    was and only adds to the trace: console output, sleeps, import requests
    for the number asked about and deletion requests.  It makes at most
    [fuel] import requests, at most one deletion request per import request,
    and opens or closes no client. *)
Theorem get_names_effects fuel client number w :
  fs (snd (get_names fuel client number w)) = fs w /\
  extends (lookup_event number) w (snd (get_names fuel client number w)) /\
  session_log (trace (snd (get_names fuel client number w))) = session_log (trace w) /\
  elapsed (trace w) <= elapsed (trace (snd (get_names fuel client number w))) /\
  exists k,
    (k <= fuel)%nat /\
    imports (trace (snd (get_names fuel client number w)))
    = replicate k number ++ imports (trace w) /\
    (length (deletes (trace (snd (get_names fuel client number w))))
     <= k + length (deletes (trace w)))%nat.
Proof.
  destruct (get_names_frame_snd fuel client number w) as [-> _].
  destruct (get_names_frame_trace client number fuel w) as (Hext & k & Hk & Hi & Hd & _).
  split; [apply get_names_frame_fs|]. split; [exact Hext|].
  split.
  { apply extends_session_log. eapply extends_weaken; [|exact Hext].
    apply lookup_scan_event. }
  split; [by eapply extends_elapsed|].
  exists k. auto.
Qed.

(** X2. When a lookup ends (returns or raises), it has slept exactly once
    between two consecutive import requests: the number of sleeps it added
    is the number of its import requests minus one. *)
Theorem get_names_one_sleep_per_retry fuel client number w :
  fst (get_names fuel client number w) <> Diverge ->
  (length (sleeps (trace (snd (get_names fuel client number w)))) + 1
   + length (imports (trace w))
   = length (imports (trace (snd (get_names fuel client number w))))
     + length (sleeps (trace w)))%nat.
Proof.
  destruct (get_names_frame_snd fuel client number w) as [-> ->].
  destruct (get_names_frame_trace client number fuel w) as (_ & k & _ & Hi & _ & Hs).
  intros Hnd. specialize (Hs Hnd).
  rewrite Hi, length_app, length_replicate. lia.
Qed.

Lemma get_names_one_sleep_per_retry_witness :
  fst (get_names 2 flood_on_delete "4912347" fresh) <> Diverge /\
  (length (sleeps (trace (snd (get_names 2 flood_on_delete "4912347" fresh)))) + 1
   + length (imports (trace fresh))
   = length (imports (trace (snd (get_names 2 flood_on_delete "4912347" fresh))))
     + length (sleeps (trace fresh)))%nat.
Proof.
  assert (H : fst (get_names 2 flood_on_delete "4912347" fresh) <> Diverge).
  { vm_compute. discriminate. }
  split; [exact H|].
  exact (get_names_one_sleep_per_retry 2 flood_on_delete "4912347" fresh H).
Defined.

(** X3. What [get_names] returns is one of four kinds of dictionary: the
    not-registered error, the multiple-accounts error, the type-mismatch
    error for the number asked about, or the record of a found user; it has
    an "error" entry exactly when it is not a found record, and that entry is
    then its only entry. *)
Theorem get_names_result_shape fuel client number w d w' :
  get_names fuel client number w = (Ok d, w') ->
  (NotRegistered d \/ Found d \/ AmbiguousMatch d \/ TransientError number d) /\
  (d !! "error" = None <-> Found d) /\
  (forall v, d !! "error" = Some v -> exists msg, v = VStr msg /\ d = error_result msg).
Proof.
  intros H.
  pose proof (get_names_classified _ _ _ _ _ _ H) as Hc.
  split; [exact Hc|].
  assert (Hcases : Found d \/ exists msg, d = error_result msg).
  { destruct Hc as [-> | [Hf | [-> | [e ->]]]]; eauto. }
  split.
  - split.
    + intros Hnone. destruct Hcases as [Hf | [msg ->]]; [exact Hf|].
      rewrite error_result_lookup in Hnone. discriminate Hnone.
    + intros [u ->]. apply found_record_no_error.
  - intros v Hv. destruct Hcases as [[u ->] | [msg ->]].
    + rewrite found_record_no_error in Hv. discriminate Hv.
    + rewrite error_result_lookup in Hv. injection Hv as <-. eauto.
Qed.

Lemma get_names_result_shape_witness :
  get_names 1 twin_service "4912345" fresh
  = (Ok (error_result ambiguous_message),
     snd (get_names 1 twin_service "4912345" fresh)) /\
  AmbiguousMatch (error_result ambiguous_message) /\
  ~ Found (error_result ambiguous_message).
Proof.
  assert (H : get_names 1 twin_service "4912345" fresh
              = (Ok (error_result ambiguous_message),
                 snd (get_names 1 twin_service "4912345" fresh))) by reflexivity.
  split; [exact H|]. split; [reflexivity|].
  destruct (get_names_result_shape _ _ _ _ _ _ H) as (_ & [Hiff _] & _).
  intros Hf. destruct (get_names_result_shape _ _ _ _ _ _ H) as (_ & [_ Hback] & _).
  specialize (Hback Hf). rewrite error_result_lookup in Hback. discriminate Hback.
Defined.

(** ** One turn of the loop, case by case *)

Lemma validate_iter_cases retries client file_path excel_file st w :
  (exists d, result st !! phone_number st = Some d /\
             validate_iter retries client file_path excel_file st w = (Ok (Continue st), w)) \/
  (result st !! phone_number st = None /\
   exists o w1,
     get_names retries client (phone_number st) w = (o, w1) /\
     match o with
     | Diverge => validate_iter retries client file_path excel_file st w = (Diverge, w1)
     | Raise e => validate_iter retries client file_path excel_file st w = (Raise e, w1)
     | Ok r =>
         match r !! "error" with
         | Some (VStr msg) =>
             if Py.contains "not on Telegram" msg then
               match Py.int (phone_number st) with
               | Some z =>
                   validate_iter retries client file_path excel_file st w
                   = (Ok (Continue (LoopState (Py.str (z + 1))
                                      (<[phone_number st := r]> (result st)))),
                      skipped file_path (phone_number st) (Py.str (z + 1)) msg w1)
               | None =>
                   exists e,
                     validate_iter retries client file_path excel_file st w
                     = (Raise (ValueError e), record (error_line (phone_number st) msg) w1)
               end
             else
               validate_iter retries client file_path excel_file st w
               = (Ok (Break (looked_up st r)),
                  record (unexpected_line (phone_number st) msg)
                    (record (error_line (phone_number st) msg) w1))
         | Some v =>
             exists e,
               validate_iter retries client file_path excel_file st w
               = (Raise (TypeError e),
                  record (error_line (phone_number st) (value_str v)) w1)
         | None =>
             match fs w1 !! excel_file with
             | Some (TextFile _) =>
                 exists e,
                   validate_iter retries client file_path excel_file st w
                   = (Raise (ValueError e), w1)
             | _ =>
                 match Py.int (phone_number st) with
                 | Some z =>
                     validate_iter retries client file_path excel_file st w
                     = (Ok (Continue (LoopState (Py.str (z + 1))
                                        (<[phone_number st := r]> (result st)))),
                        saved file_path excel_file (Py.str (z + 1)) r w1)
                 | None =>
                     exists e,
                       validate_iter retries client file_path excel_file st w
                       = (Raise (ValueError e), stored excel_file r w1)
                 end
             end
         end
     end).
Proof.
  unfold validate_iter.
  destruct (result st !! phone_number st) as [d|] eqn:Hres; [left; eauto|].
  right. split; [done|].
  destruct (get_names retries client (phone_number st) w) as [o w1] eqn:Hget.
  exists o, w1. split; [done|].
  destruct o as [r|e|].
  2,3: by (unfold bind at 1; rewrite Hget).
  destruct (r !! "error") as [v|] eqn:Herr.
  - destruct v as [|b|n|msg|p];
      try (eexists; unfold bind at 1; rewrite Hget; cbn [phone_number result];
           rewrite Herr; unfold bind, print, emit, str_in, raise; reflexivity).
    destruct (Py.contains "not on Telegram" msg) eqn:Hc.
    + destruct (Py.int (phone_number st)) as [z|] eqn:Hz.
      * unfold bind at 1. rewrite Hget. cbn [phone_number result]. rewrite Herr.
        unfold bind at 1. unfold print, emit.
        unfold bind at 1. unfold str_in, ret. cbn [value_str]. rewrite Hc.
        unfold advance, bind, increment_phone_number, bind, py_int.
        cbn [phone_number result]. rewrite Hz. reflexivity.
      * eexists.
        unfold bind at 1. rewrite Hget. cbn [phone_number result]. rewrite Herr.
        unfold bind at 1. unfold print, emit.
        unfold bind at 1. unfold str_in, ret. cbn [value_str]. rewrite Hc.
        unfold advance, bind, increment_phone_number, bind, py_int.
        cbn [phone_number result]. rewrite Hz. reflexivity.
    + unfold bind at 1. rewrite Hget. cbn [phone_number result]. rewrite Herr.
      unfold bind at 1. unfold print, emit.
      unfold bind at 1. unfold str_in, ret. cbn [value_str]. rewrite Hc.
      reflexivity.
  - destruct (fs w1 !! excel_file) as [[s|rows]|] eqn:Hx.
    + eexists. unfold bind at 1. rewrite Hget. cbn [phone_number result]. rewrite Herr.
      unfold bind at 1. unfold save_to_excel. rewrite Hx. reflexivity.
    + destruct (Py.int (phone_number st)) as [z|] eqn:Hz; [|eexists];
        unfold bind at 1; rewrite Hget; cbn [phone_number result]; rewrite Herr;
        unfold bind at 1; unfold save_to_excel; rewrite Hx;
        unfold print, emit; cbn [fs trace];
        unfold advance, bind, increment_phone_number, bind, py_int;
        cbn [phone_number result]; rewrite Hz;
        unfold saved, stored, rows_at; rewrite Hx; reflexivity.
    + destruct (Py.int (phone_number st)) as [z|] eqn:Hz; [|eexists];
        unfold bind at 1; rewrite Hget; cbn [phone_number result]; rewrite Herr;
        unfold bind at 1; unfold save_to_excel; rewrite Hx;
        unfold print, emit; cbn [fs trace];
        unfold advance, bind, increment_phone_number, bind, py_int;
        cbn [phone_number result]; rewrite Hz;
        unfold saved, stored, rows_at; rewrite Hx; reflexivity.
Qed.

Lemma get_names_world retries client number w o w1 :
  get_names retries client number w = (o, w1) ->
  fs w1 = fs w /\ extends scan_event w w1.
Proof.
  intros H. split; [by eapply get_names_fs|].
  pose proof (get_names_frame_snd retries client number w) as [Hs _].
  rewrite H in Hs. cbn [snd] in Hs. rewrite Hs.
  eapply extends_weaken; [apply lookup_scan_event|].
  apply get_names_frame_trace.
Qed.

Lemma scanning_fresh st : scanning st -> result st !! phone_number st = None.
Proof.
  intros [_ Hkeys]. destruct (result st !! phone_number st) as [d|] eqn:H; [|done].
  specialize (Hkeys _ _ H). lia.
Qed.

Lemma scanning_next st r :
  scanning st ->
  scanning (LoopState (Py.str (numeral_value (phone_number st) + 1))
              (<[phone_number st := r]> (result st))).
Proof.
  intros [Hnum Hkeys].
  pose proof (numeral_value_nonneg _ Hnum) as Hv.
  destruct (str_succ_numeral _ Hv) as (Hn1 & Hv1 & _).
  split; cbn [phone_number result]; [done|].
  intros key d. rewrite Hv1, lookup_insert.
  case_decide as Hk; [intros _; subst key; lia|].
  intros Hold. specialize (Hkeys _ _ Hold). lia.
Qed.

(** A turn that goes on has looked one number up and moved to the next. *)
Lemma turn_advances retries client file_path excel_file st w st' w' :
  scanning st ->
  validate_iter retries client file_path excel_file st w = (Ok (Continue st'), w') ->
  scanning st' /\
  phone_number st' = Py.str (numeral_value (phone_number st) + 1) /\
  size (result st') = S (size (result st)) /\
  fs w' !! file_path = Some (TextFile (phone_number st')) /\
  elapsed (trace w) + delay <= elapsed (trace w') /\
  extends scan_event w w'.
Proof.
  intros Hscan H.
  pose proof (scanning_fresh st Hscan) as Hfresh.
  destruct (validate_iter_cases retries client file_path excel_file st w)
    as [(d & Hd & _) | (_ & o & w1 & Hget & Hcase)]; [congruence|].
  destruct (get_names_world _ _ _ _ _ _ Hget) as [Hfs Hext].
  pose proof (extends_elapsed _ _ _ Hext) as Hel.
  rewrite (int_numeral _ (proj1 Hscan)) in Hcase.
  assert (Hgoal : forall r line fs',
            st' = LoopState (Py.str (numeral_value (phone_number st) + 1))
                    (<[phone_number st := r]> (result st)) ->
            w' = record (Sleep delay)
                   (World (<[file_path := TextFile (Py.str (numeral_value (phone_number st) + 1))]> fs')
                          (Stdout line :: trace w1)) ->
            scanning st' /\
            phone_number st' = Py.str (numeral_value (phone_number st) + 1) /\
            size (result st') = S (size (result st)) /\
            fs w' !! file_path = Some (TextFile (phone_number st')) /\
            elapsed (trace w) + delay <= elapsed (trace w') /\
            extends scan_event w w').
  { intros r line fs' -> ->. split; [by apply scanning_next|].
    cbn [phone_number result record fs trace elapsed]. split; [done|].
    split; [by apply map_size_insert_None|].
    split; [apply lookup_insert_eq|].
    split; [unfold delay; lia|].
    eapply extends_trans; [exact Hext|].
    exists [Sleep delay; Stdout line]. by split. }
  destruct o as [r|e|]; [|congruence..].
  destruct (r !! "error") as [v|] eqn:Herr.
  - destruct v as [|b|n|msg|p]; try (destruct Hcase as [e He]; congruence).
    destruct (Py.contains "not on Telegram" msg); [|congruence].
    rewrite Hcase in H. injection H as <- <-.
    eapply Hgoal; reflexivity.
  - destruct (fs w1 !! excel_file) as [[s|rows]|] eqn:Hx;
      [destruct Hcase as [e He]; congruence|..];
      rewrite Hcase in H; injection H as <- <-;
      eapply Hgoal; reflexivity.
Qed.

Lemma turns_advance retries client file_path excel_file k :
  forall st w st' w',
  scanning st ->
  turns k retries client file_path excel_file st w = (Ok (Continue st'), w') ->
  scanning st' /\
  numeral_value (phone_number st') = numeral_value (phone_number st) + Z.of_nat k /\
  size (result st') = (size (result st) + k)%nat /\
  ((0 < k)%nat ->
   phone_number st' = Py.str (numeral_value (phone_number st) + Z.of_nat k) /\
   leading_zero (phone_number st') = false /\
   fs w' !! file_path = Some (TextFile (phone_number st'))) /\
  elapsed (trace w) + delay * Z.of_nat k <= elapsed (trace w') /\
  extends scan_event w w'.
Proof.
  induction k as [|k IH]; intros st w st' w' Hscan H.
  - cbn in H. injection H as <- <-.
    split; [done|]. split; [lia|]. split; [lia|]. split; [lia|].
    split; [lia | apply extends_refl].
  - cbn [turns] in H. unfold bind in H.
    destruct (validate_iter retries client file_path excel_file st w) as [[c|e|] w1] eqn:Hit;
      try discriminate H.
    destruct c as [st1|st1]; [|discriminate H].
    destruct (turn_advances _ _ _ _ _ _ _ _ Hscan Hit) as (Hs1 & Hp1 & Hz1 & Hf1 & He1 & Hx1).
    destruct (IH _ _ _ _ Hs1 H) as (Hs & Hv & Hz & Hpos & He & Hx).
    pose proof (numeral_value_nonneg _ (proj1 Hscan)) as Hv0.
    destruct (str_succ_numeral _ Hv0) as (_ & Hv1 & Hl1).
    rewrite Hp1, Hv1 in Hv.
    split; [done|]. split; [lia|]. split; [lia|].
    split.
    { intros _. destruct k as [|k].
      - cbn in H. injection H as <- <-.
        split; [by rewrite Hp1|]. split; [by rewrite Hp1 | done].
      - destruct (Hpos ltac:(lia)) as (Hp & Hl & Hf).
        rewrite Hp1, Hv1 in Hp.
        split; [rewrite Hp; f_equal; lia|]. done. }
    split; [lia|]. by eapply extends_trans.
Qed.

Lemma scanning_start n : numeral n = true -> scanning (LoopState n ∅).
Proof.
  intros H. split; [done|]. cbn [result phone_number]. intros key d Hk.
  by rewrite lookup_empty in Hk.
Qed.

(** X4. Started at a numeral [n], as long as the loop goes on, after [k]
    turns it has looked up exactly [k] numbers, the current number is the
    numeral of [n + k] without leading zeros, and the cursor file holds that
    numeral: what is on disk is always the next number to check. *)
Theorem validate_users_cursor_in_step retries client n file_path excel_file k w st w' :
  numeral n = true ->
  (0 < k)%nat ->
  turns k retries client file_path excel_file (LoopState n ∅) w = (Ok (Continue st), w') ->
  phone_number st = Py.str (numeral_value n + Z.of_nat k) /\
  numeral (phone_number st) = true /\
  leading_zero (phone_number st) = false /\
  size (result st) = k /\
  result st !! phone_number st = None /\
  read_last_checked_number file_path w' = (Ok (phone_number st), w').
Proof.
  intros Hn Hk H.
  destruct (turns_advance _ _ _ _ _ _ _ _ _ (scanning_start n Hn) H)
    as (Hs & _ & Hz & Hpos & _ & _).
  destruct (Hpos Hk) as (Hp & Hl & Hf).
  cbn [phone_number result] in *.
  split; [exact Hp|]. split; [apply Hs|]. split; [exact Hl|].
  split; [by rewrite Hz, map_size_empty|].
  split; [by apply scanning_fresh|].
  unfold read_last_checked_number, bind, open_text. rewrite Hf.
  unfold ret. by rewrite (readline_numeral _ (proj1 Hs)).
Qed.

Lemma validate_users_cursor_in_step_witness :
  numeral "4912345" = true /\
  (0 < 3)%nat /\
  exists st w',
    turns 3 1 third_is_found cursor_file results_file (LoopState "4912345" ∅)
      (resume_at "4912345") = (Ok (Continue st), w') /\
    phone_number st = "4912348" /\
    size (result st) = 3%nat /\
    read_last_checked_number cursor_file w' = (Ok (phone_number st), w').
Proof.
  split; [reflexivity|]. split; [lia|].
  set (run := turns 3 1 third_is_found cursor_file results_file (LoopState "4912345" ∅)
                (resume_at "4912345")).
  assert (H : run = (Ok (Continue (LoopState "4912348"
                                     (<[ "4912347" := found_record alice ]>
                                        (<[ "4912346" := error_result not_registered_message ]>
                                           (<[ "4912345" := error_result not_registered_message ]>
                                              ∅))))),
                     snd run)) by reflexivity.
  destruct (validate_users_cursor_in_step 1 third_is_found "4912345" cursor_file results_file
              3 (resume_at "4912345") _ _ eq_refl ltac:(lia) H)
    as (Hp & _ & _ & Hz & _ & Hr).
  eexists _, _. split; [exact H|]. split; [exact Hp|]. split; [exact Hz | exact Hr].
Defined.

(** X5. The fixed delay is kept between the numbers: started at a numeral,
    after [k] turns that go on the loop has been suspended for at least
    [5 * k] seconds, rate-limit waits included, and it has opened or closed
    no client. *)
Theorem validate_users_pacing retries client n file_path excel_file k w st w' :
  numeral n = true ->
  turns k retries client file_path excel_file (LoopState n ∅) w = (Ok (Continue st), w') ->
  elapsed (trace w) + 5 * Z.of_nat k <= elapsed (trace w') /\
  extends scan_event w w' /\
  session_log (trace w') = session_log (trace w).
Proof.
  intros Hn H.
  destruct (turns_advance _ _ _ _ _ _ _ _ _ (scanning_start n Hn) H)
    as (_ & _ & _ & _ & He & Hx).
  split; [exact He|]. split; [exact Hx | by apply extends_session_log].
Qed.

Lemma validate_users_pacing_witness :
  numeral "4912345" = true /\
  exists st w',
    turns 2 1 third_is_found cursor_file results_file (LoopState "4912345" ∅)
      (resume_at "4912345") = (Ok (Continue st), w') /\
    elapsed (trace (resume_at "4912345")) + 5 * Z.of_nat 2 <= elapsed (trace w').
Proof.
  split; [reflexivity|].
  set (run := turns 2 1 third_is_found cursor_file results_file (LoopState "4912345" ∅)
                (resume_at "4912345")).
  assert (H : run = (Ok (Continue (LoopState "4912347"
                                     (<[ "4912346" := error_result not_registered_message ]>
                                        (<[ "4912345" := error_result not_registered_message ]>
                                           ∅)))),
                     snd run)) by reflexivity.
  destruct (validate_users_pacing 1 third_is_found "4912345" cursor_file results_file
              2 (resume_at "4912345") _ _ eq_refl H) as (He & _).
  eexists _, _. split; [exact H | exact He].
Defined.

(** ** How the loop ends, and what it stores *)

Lemma not_registered_has_phrase :
  Py.contains "not on Telegram" not_registered_message = true.
Proof. reflexivity. Qed.

(** X6. [validate_users] returns only through its [break]: the dictionary
    it returns holds, for the last number looked up, the multiple-accounts
    error or the type-mismatch error, whose text lacks the phrase
    "not on Telegram", and the last two lines printed are "Error for" and
    "Unexpected error for" that number.  It never returns after a found or a
    not-registered number. *)
Theorem validate_users_returns_only_on_halt
    fuel retries client file_path excel_file st w res w' :
  validate_loop fuel retries client file_path excel_file st w = (Ok res, w') ->
  exists number d msg t,
    res !! number = Some d /\
    (AmbiguousMatch d \/ TransientError number d) /\
    d = error_result msg /\
    Py.contains "not on Telegram" msg = false /\
    trace w' = unexpected_line number msg :: error_line number msg :: t.
Proof.
  revert st w. induction fuel as [|fuel IH]; intros st w H; [discriminate H|].
  cbn [validate_loop] in H. unfold bind in H.
  destruct (validate_iter retries client file_path excel_file st w) as [[c|e|] w1] eqn:Hit;
    try discriminate H.
  destruct c as [st1|st1]; [by eapply IH|].
  unfold ret in H. injection H as <- <-.
  destruct (validate_iter_cases retries client file_path excel_file st w)
    as [(d & _ & Hspin) | (_ & o & w0 & Hget & Hcase)]; [congruence|].
  destruct o as [r|e|]; [|congruence..].
  pose proof (get_names_classified _ _ _ _ _ _ Hget) as Hclass.
  unfold NotRegistered, Found, AmbiguousMatch, TransientError in Hclass.
  destruct Hclass as [Hr | [[u Hr] | [Hr | [e Hr]]]]; subst r.
  - rewrite error_result_lookup, not_registered_has_phrase in Hcase.
    destruct (Py.int (phone_number st)); [congruence | destruct Hcase; congruence].
  - rewrite found_record_no_error in Hcase.
    destruct (fs w0 !! excel_file) as [[s|rows]|];
      destruct (Py.int (phone_number st)); try congruence; destruct Hcase; congruence.
  - rewrite error_result_lookup in Hcase.
    destruct (Py.contains "not on Telegram" ambiguous_message) eqn:Hc; [discriminate Hc|].
    rewrite Hcase in Hit. injection Hit as <- <-.
    exists (phone_number st), (error_result ambiguous_message), ambiguous_message, (trace w0).
    cbn [looked_up result]. rewrite lookup_insert_eq.
    split; [done|]. split; [by left|]. done.
  - rewrite error_result_lookup in Hcase.
    destruct (Py.contains "not on Telegram" (transient_message e (phone_number st))) eqn:Hc.
    { destruct (Py.int (phone_number st)); [congruence | destruct Hcase; congruence]. }
    rewrite Hcase in Hit. injection Hit as <- <-.
    exists (phone_number st), (error_result (transient_message e (phone_number st))),
      (transient_message e (phone_number st)), (trace w0).
    cbn [looked_up result]. rewrite lookup_insert_eq.
    split; [done|]. split; [right; by exists e|]. done.
Qed.

Lemma validate_users_returns_only_on_halt_witness :
  validate_loop 1 1 twin_service cursor_file results_file (LoopState "4912345" ∅)
    (resume_at "4912345")
  = (Ok {[ "4912345" := error_result ambiguous_message ]},
     snd (validate_loop 1 1 twin_service cursor_file results_file (LoopState "4912345" ∅)
            (resume_at "4912345"))) /\
  exists number d msg t,
    ({[ "4912345" := error_result ambiguous_message ]} : gmap string dict) !! number = Some d /\
    (AmbiguousMatch d \/ TransientError number d) /\
    d = error_result msg /\
    Py.contains "not on Telegram" msg = false /\
    trace (snd (validate_loop 1 1 twin_service cursor_file results_file
                  (LoopState "4912345" ∅) (resume_at "4912345")))
    = unexpected_line number msg :: error_line number msg :: t.
Proof.
  assert (H : validate_loop 1 1 twin_service cursor_file results_file (LoopState "4912345" ∅)
                (resume_at "4912345")
              = (Ok {[ "4912345" := error_result ambiguous_message ]},
                 snd (validate_loop 1 1 twin_service cursor_file results_file
                        (LoopState "4912345" ∅) (resume_at "4912345")))) by reflexivity.
  split; [exact H|].
  exact (validate_users_returns_only_on_halt _ _ _ _ _ _ _ _ _ H).
Defined.

(** X8. A current number that [int] rejects (an empty resume file, a number
    with inner spaces) is never stepped over: the turn that looks it up does
    not go on to a next number, and with different paths for cursor and
    store it leaves the cursor file as it was. *)
Theorem validate_iter_unparsable_number retries client file_path excel_file st w :
  Py.int (phone_number st) = None ->
  result st !! phone_number st = None ->
  file_path <> excel_file ->
  (forall st', fst (validate_iter retries client file_path excel_file st w)
               <> Ok (Continue st')) /\
  fs (snd (validate_iter retries client file_path excel_file st w)) !! file_path
  = fs w !! file_path.
Proof.
  intros Hint Hfresh Hne.
  destruct (validate_iter_cases retries client file_path excel_file st w)
    as [(d & Hd & _) | (_ & o & w1 & Hget & Hcase)]; [congruence|].
  destruct (get_names_world _ _ _ _ _ _ Hget) as [Hfs _].
  rewrite Hint in Hcase.
  destruct o as [r|e|]; [|rewrite Hcase; cbn [fst snd]; by rewrite Hfs..].
  destruct (r !! "error") as [v|] eqn:Herr.
  - destruct v as [|b|n|msg|p];
      try (destruct Hcase as [e ->]; cbn [fst snd record fs]; by rewrite Hfs).
    destruct (Py.contains "not on Telegram" msg).
    + destruct Hcase as [e ->]. cbn [fst snd record fs]. by rewrite Hfs.
    + rewrite Hcase. cbn [fst snd record fs]. by rewrite Hfs.
  - destruct (fs w1 !! excel_file) as [[s|rows]|];
      destruct Hcase as [e ->]; cbn [fst snd stored fs];
      rewrite ?lookup_insert_ne by done; by rewrite Hfs.
Qed.

Lemma validate_iter_unparsable_number_witness :
  Py.int (phone_number (LoopState "49 123" ∅)) = None /\
  result (LoopState "49 123" ∅) !! phone_number (LoopState "49 123" ∅) = None /\
  cursor_file <> results_file /\
  (exists e, fst (validate_iter 1 empty_service cursor_file results_file
                    (LoopState "49 123" ∅) (resume_at "49 123")) = Raise (ValueError e)) /\
  fs (snd (validate_iter 1 empty_service cursor_file results_file
             (LoopState "49 123" ∅) (resume_at "49 123"))) !! cursor_file
  = fs (resume_at "49 123") !! cursor_file.
Proof.
  assert (H1 : Py.int (phone_number (LoopState "49 123" ∅)) = None) by reflexivity.
  assert (H2 : result (LoopState "49 123" ∅) !! phone_number (LoopState "49 123" ∅) = None)
    by reflexivity.
  assert (H3 : cursor_file <> results_file) by discriminate.
  split; [exact H1|]. split; [exact H2|]. split; [exact H3|].
  split; [eexists; reflexivity|].
  exact (proj2 (validate_iter_unparsable_number 1 empty_service cursor_file results_file
                  (LoopState "49 123" ∅) (resume_at "49 123") H1 H2 H3)).
Defined.

(** X9. A found user is never written over a file that is not a workbook:
    when the store path holds a text file (for instance when the cursor file
    and the store were given the same path), the turn raises [ValueError]
    after the lookup and changes no file, so the cursor stays on that
    number. *)
Theorem validate_iter_store_is_text retries client file_path excel_file st w s r w1 :
  fs w !! excel_file = Some (TextFile s) ->
  result st !! phone_number st = None ->
  get_names retries client (phone_number st) w = (Ok r, w1) ->
  r !! "error" = None ->
  fs w1 = fs w /\
  exists e,
    validate_iter retries client file_path excel_file st w = (Raise (ValueError e), w1).
Proof.
  intros Hx Hfresh Hget Herr.
  destruct (get_names_world _ _ _ _ _ _ Hget) as [Hfs _].
  split; [exact Hfs|].
  destruct (validate_iter_cases retries client file_path excel_file st w)
    as [(d & Hd & _) | (_ & o & w0 & Hget' & Hcase)]; [congruence|].
  rewrite Hget in Hget'. injection Hget' as <- <-.
  rewrite Herr, Hfs, Hx in Hcase. exact Hcase.
Qed.

Lemma validate_iter_store_is_text_witness :
  fs (resume_at "4912347") !! cursor_file = Some (TextFile "4912347") /\
  exists e,
    validate_iter 1 third_is_found cursor_file cursor_file (LoopState "4912347" ∅)
      (resume_at "4912347")
    = (Raise (ValueError e),
       snd (get_names 1 third_is_found "4912347" (resume_at "4912347"))).
Proof.
  assert (Hx : fs (resume_at "4912347") !! cursor_file = Some (TextFile "4912347"))
    by reflexivity.
  split; [exact Hx|].
  assert (Hfresh : result (LoopState "4912347" ∅) !! phone_number (LoopState "4912347" ∅) = None)
    by reflexivity.
  assert (Hget : get_names 1 third_is_found (phone_number (LoopState "4912347" ∅))
                   (resume_at "4912347")
                 = (Ok (found_record alice),
                    snd (get_names 1 third_is_found "4912347" (resume_at "4912347"))))
    by reflexivity.
  exact (proj2 (validate_iter_store_is_text 1 third_is_found cursor_file cursor_file
                  (LoopState "4912347" ∅) (resume_at "4912347") "4912347"
                  (found_record alice) _ Hx Hfresh Hget (found_record_no_error alice))).
Defined.

(** ** Logging in, whatever the network does *)

Lemma ends_ret {A} (a : A) : ends (ret a).
Proof. by intros w. Qed.

Lemma ends_raise {A} e : ends (raise e : M A).
Proof. by intros w. Qed.

Lemma ends_bind {A B} (m : M A) (k : A -> M B) :
  ends m -> (forall a, ends (k a)) -> ends (bind m k).
Proof.
  intros Hm Hk w. unfold bind. specialize (Hm w).
  destruct (m w) as [[a|e|] w1]; cbn [fst] in *; [apply Hk|done..].
Qed.

Lemma ends_try_except {A} (m : M A) (h : exn -> M A) :
  ends m -> (forall e, ends (h e)) -> ends (try_except m h).
Proof.
  intros Hm Hh w. unfold try_except. specialize (Hm w).
  destruct (m w) as [[a|e|] w1]; cbn [fst] in *; [done|apply Hh|done].
Qed.

Lemma ends_call {A} ev (answer : list event -> reply A) : ends (call ev answer).
Proof. intros w. unfold call. by destruct (answer (trace w)). Qed.

Lemma ends_print text : ends (print text).
Proof. by intros w. Qed.

Lemma ends_connect_and_authorize client op p : ends (connect_and_authorize client op p).
Proof.
  unfold connect_and_authorize.
  apply ends_bind; [apply ends_call|]. intros _.
  apply ends_bind; [apply ends_call|]. intros authorized.
  apply ends_bind.
  { destruct authorized; [apply ends_ret|]. unfold sign_in.
    apply ends_bind; [apply ends_call|]. intros _.
    apply ends_try_except.
    - apply ends_bind; [apply ends_call|]. intros code. apply ends_call.
    - intros e. destruct e; try apply ends_raise.
      apply ends_bind; [apply ends_call|]. intros pw. apply ends_call. }
  intros _. apply ends_bind; [apply ends_print|]. intros _. apply ends_ret.
Qed.

Lemma emits_ret p {A} (a : A) : emits p (ret a).
Proof. intros w. apply extends_refl. Qed.

Lemma emits_raise p {A} e : emits p (raise e : M A).
Proof. intros w. apply extends_refl. Qed.

Lemma emits_bind p {A B} (m : M A) (k : A -> M B) :
  emits p m -> (forall a, emits p (k a)) -> emits p (bind m k).
Proof.
  intros Hm Hk w. unfold bind. specialize (Hm w).
  destruct (m w) as [[a|e|] w1]; cbn [snd] in *; [|done..].
  eapply extends_trans; [exact Hm | apply Hk].
Qed.

Lemma emits_try_except p {A} (m : M A) (h : exn -> M A) :
  emits p m -> (forall e, emits p (h e)) -> emits p (try_except m h).
Proof.
  intros Hm Hh w. unfold try_except. specialize (Hm w).
  destruct (m w) as [[a|e|] w1]; cbn [snd] in *; [done| |done].
  eapply extends_trans; [exact Hm | apply Hh].
Qed.

Lemma emits_call p {A} ev (answer : list event -> reply A) :
  p ev = true -> emits p (call ev answer).
Proof.
  intros Hev w. unfold call.
  destruct (answer (trace w)); by apply (extends_record p ev w).
Qed.

Lemma emits_emit p ev : p ev = true -> emits p (emit ev).
Proof. intros Hev w. by apply (extends_record p ev w). Qed.

Lemma emits_connect_and_authorize client op p :
  emits login_event (connect_and_authorize client op p).
Proof.
  unfold connect_and_authorize.
  apply emits_bind; [by apply emits_call|]. intros _.
  apply emits_bind; [by apply emits_call|]. intros authorized.
  apply emits_bind.
  { destruct authorized; [apply emits_ret|]. unfold sign_in.
    apply emits_bind; [by apply emits_call|]. intros _.
    apply emits_try_except.
    - apply emits_bind; [by apply emits_call|]. intros code. by apply emits_call.
    - intros e. destruct e; try apply emits_raise.
      apply emits_bind; [by apply emits_call|]. intros pw. by apply emits_call. }
  intros _. apply emits_bind; [by apply emits_emit|]. intros _. apply emits_ret.
Qed.

Lemma login_events_no_lookup extra :
  forallb login_event extra = true -> imports extra = [] /\ elapsed extra = 0.
Proof.
  induction extra as [|ev a IH]; [done|].
  cbn [forallb]. intros [Hev Ha]%andb_true_iff.
  destruct ev; try discriminate Hev; cbn [imports elapsed]; auto.
Qed.

Lemma extends_login_imports w w' :
  extends login_event w w' ->
  imports (trace w') = imports (trace w) /\ elapsed (trace w') = elapsed (trace w).
Proof.
  intros (extra & -> & Hf). destruct (login_events_no_lookup extra Hf) as [Hi He].
  by rewrite imports_app, elapsed_app, Hi, He.
Qed.

(** One attempt either hands out the client of its proxy, which stays open,
    or closes the client it created. *)
Lemma try_proxy_outcome client op p w :
  fs (snd (try_proxy client op p w)) = fs w /\
  extends login_event w (snd (try_proxy client op p w)) /\
  ((fst (try_proxy client op p w) = Ok (Some (Client p)) /\
    session_log (trace (snd (try_proxy client op p w))) = Opened p :: session_log (trace w)) \/
   (fst (try_proxy client op p w) = Ok None /\
    session_log (trace (snd (try_proxy client op p w)))
    = Closed p :: Opened p :: session_log (trace w))).
Proof.
  pose proof (quiet_connect_and_authorize client op p (record (NewClient p) w)) as [Hq1 Hq2].
  pose proof (ends_connect_and_authorize client op p (record (NewClient p) w)) as Hend.
  pose proof (emits_connect_and_authorize client op p (record (NewClient p) w)) as Hem.
  assert (Hnew : extends login_event w (record (NewClient p) w)) by by apply extends_record.
  destruct (connect_and_authorize client op p (record (NewClient p) w)) as [[c|e|] w1] eqn:H;
    cbn [fst snd record fs trace session_log] in *; [| |done].
  - pose proof (connect_and_authorize_client _ _ _ _ _ _ H) as ->.
    rewrite (try_proxy_succeeds _ _ _ _ _ _ H). cbn [fst snd].
    split; [done|]. split; [by eapply extends_trans|]. left. by rewrite Hq2.
  - rewrite (try_proxy_fails _ _ _ _ _ _ H). cbn [fst snd after_failure record fs trace session_log].
    split; [done|]. split.
    + eapply extends_trans; [exact Hnew|]. eapply extends_trans; [exact Hem|].
      eapply extends_trans; by apply extends_record.
    + right. by rewrite Hq2.
Qed.

Lemma for_proxies_outcome client op proxies :
  forall w,
  fs (snd (for_proxies client op proxies w)) = fs w /\
  extends login_event w (snd (for_proxies client op proxies w)) /\
  ((exists p, fst (for_proxies client op proxies w) = Ok (Client p) /\
              In p proxies /\
              live (session_log (trace (snd (for_proxies client op proxies w))))
              = p :: live (session_log (trace w))) \/
   (fst (for_proxies client op proxies w) = Raise AllProxiesFailedError /\
    live (session_log (trace (snd (for_proxies client op proxies w))))
    = live (session_log (trace w)))).
Proof.
  induction proxies as [|p rest IH]; intros w.
  { cbn. split; [done|]. split; [apply extends_refl|]. by right. }
  cbn [for_proxies]. unfold bind.
  destruct (try_proxy_outcome client op p w) as (Hfs & Hext & Hcase).
  destruct (try_proxy client op p w) as [[r|e|] w1]; cbn [fst snd] in *;
    [|destruct Hcase as [[? _] | [? _]]; discriminate..].
  destruct Hcase as [[Hr Hlog] | [Hr Hlog]]; injection Hr as ->.
  - cbn [ret fst snd]. split; [done|]. split; [done|].
    left. exists p. split; [done|]. split; [by left|]. by rewrite Hlog.
  - destruct (IH w1) as (Hfs' & Hext' & Hcase').
    split; [congruence|]. split; [by eapply extends_trans|].
    assert (Hlive : live (session_log (trace w1)) = live (session_log (trace w))).
    { rewrite Hlog. cbn [live remove_first]. by rewrite decide_True. }
    destruct Hcase' as [(q & Hq & Hin & Hl) | (Hq & Hl)].
    + left. exists q. split; [done|]. split; [by right|]. by rewrite Hl, Hlive.
    + right. split; [done|]. by rewrite Hl, Hlive.
Qed.

Lemma login_cases client op proxies w :
  fs (snd (login client op proxies w)) = fs w /\
  imports (trace (snd (login client op proxies w))) = imports (trace w) /\
  elapsed (trace (snd (login client op proxies w))) = elapsed (trace w) /\
  ((exists p, fst (login client op proxies w) = Ok (Client p) /\
              In p proxies /\
              live (session_log (trace (snd (login client op proxies w))))
              = p :: live (session_log (trace w))) \/
   (fst (login client op proxies w) = Raise AllProxiesFailedError /\
    live (session_log (trace (snd (login client op proxies w))))
    = live (session_log (trace w)))).
Proof.
  unfold login, bind, print_noend, emit.
  fold (record (Stdout "Logging in...") w).
  destruct (for_proxies_outcome client op proxies (record (Stdout "Logging in...") w))
    as (Hfs & Hext & Hcase).
  assert (Hext' : extends login_event w
                    (snd (for_proxies client op proxies (record (Stdout "Logging in...") w)))).
  { eapply extends_trans; [|exact Hext]. by apply extends_record. }
  destruct (extends_login_imports _ _ Hext') as [Hi He].
  split; [exact Hfs|]. split; [exact Hi|]. split; [exact He|]. exact Hcase.
Qed.

(** X10. When [login] returns, what it returns is the client of one of the
    given proxies, and that client is the only one it leaves open: every
    client created for an earlier proxy has been disconnected.  It has sent
    no lookup request and has not slept. *)
Theorem login_returns_open_client client op proxies w c :
  fst (login client op proxies w) = Ok c ->
  exists p,
    c = Client p /\
    In p proxies /\
    live (session_log (trace (snd (login client op proxies w))))
    = p :: live (session_log (trace w)) /\
    imports (trace (snd (login client op proxies w))) = imports (trace w) /\
    elapsed (trace (snd (login client op proxies w))) = elapsed (trace w).
Proof.
  intros Hret.
  destruct (login_cases client op proxies w) as (_ & Hi & He & Hcase).
  destruct Hcase as [(p & Hp & Hin & Hlive) | [Hraise _]].
  - exists p. rewrite Hp in Hret. injection Hret as <-. auto.
  - rewrite Hraise in Hret. discriminate Hret.
Qed.

Lemma login_returns_open_client_witness :
  fst (login first_proxy_down typist [proxy_a; proxy_b; proxy_c] fresh) = Ok (Client proxy_b) /\
  live (session_log
          (trace (snd (login first_proxy_down typist [proxy_a; proxy_b; proxy_c] fresh))))
  = [proxy_b].
Proof.
  assert (H : fst (login first_proxy_down typist [proxy_a; proxy_b; proxy_c] fresh)
              = Ok (Client proxy_b)) by reflexivity.
  split; [exact H|].
  destruct (login_returns_open_client first_proxy_down typist [proxy_a; proxy_b; proxy_c]
              fresh (Client proxy_b) H) as (p & Hp & _ & Hlive & _).
  injection Hp as <-. exact Hlive.
Defined.

(** ** The loop and its surroundings *)

Lemma same_files w w2 (file_path excel_file : string) :
  fs w2 = fs w ->
  forall other, other <> file_path -> other <> excel_file -> fs w2 !! other = fs w !! other.
Proof. by intros ->. Qed.

(** One turn adds scan events and writes no file but the cursor and the store. *)
Lemma turn_world retries client file_path excel_file st w :
  extends scan_event w (snd (validate_iter retries client file_path excel_file st w)) /\
  forall other, other <> file_path -> other <> excel_file ->
    fs (snd (validate_iter retries client file_path excel_file st w)) !! other
    = fs w !! other.
Proof.
  destruct (validate_iter_cases retries client file_path excel_file st w)
    as [(d & _ & ->) | (_ & o & w1 & Hget & Hcase)].
  { split; [apply extends_refl | done]. }
  destruct (get_names_world _ _ _ _ _ _ Hget) as [Hfs Hext].
  assert (Hline : forall ev, scan_event ev = true ->
            extends scan_event w (record ev w1) /\
            forall other, other <> file_path -> other <> excel_file ->
              fs (record ev w1) !! other = fs w !! other).
  { intros ev Hev. split; [|intros; cbn [record fs]; by rewrite Hfs].
    eapply extends_trans; [exact Hext|]. by apply extends_record. }
  assert (Hplain : extends scan_event w w1 /\
            forall other, other <> file_path -> other <> excel_file ->
              fs w1 !! other = fs w !! other).
  { split; [done|]. intros. by rewrite Hfs. }
  destruct o as [r|e|]; [|by rewrite Hcase..].
  destruct (r !! "error") as [v|] eqn:Herr.
  - destruct v as [|b|n|msg|p]; try (destruct Hcase as [e ->]; by apply Hline).
    destruct (Py.contains "not on Telegram" msg).
    + destruct (Py.int (phone_number st)) as [z|]; [|destruct Hcase as [e ->]; by apply Hline].
      rewrite Hcase. cbn [snd]. split.
      * eapply extends_trans; [exact Hext|].
        exists [Sleep delay; error_line (phone_number st) msg]. by split.
      * intros other H1 H2. cbn [skipped record fs].
        by rewrite lookup_insert_ne, Hfs.
    + rewrite Hcase. cbn [snd]. split.
      * eapply extends_trans; [exact Hext|].
        exists [unexpected_line (phone_number st) msg; error_line (phone_number st) msg].
        by split.
      * intros. cbn [record fs]. by rewrite Hfs.
  - destruct (fs w1 !! excel_file) as [[s|rows]|];
      [by destruct Hcase as [e ->]|..];
      (destruct (Py.int (phone_number st)) as [z|]; [rewrite Hcase | destruct Hcase as [e ->]];
       cbn [snd]; (split;
         [eapply extends_trans; [exact Hext|];
          first [ by exists [Sleep delay; Stdout (("Results saved to " +:+ excel_file) +:+ nl)]
                | by exists [Stdout (("Results saved to " +:+ excel_file) +:+ nl)] ]
         | intros other H1 H2; cbn [saved stored record fs];
           rewrite ?lookup_insert_ne by done; by rewrite Hfs ])).
Qed.

Lemma loop_world fuel retries client file_path excel_file :
  forall st w,
  extends scan_event w (snd (validate_loop fuel retries client file_path excel_file st w)) /\
  forall other, other <> file_path -> other <> excel_file ->
    fs (snd (validate_loop fuel retries client file_path excel_file st w)) !! other
    = fs w !! other.
Proof.
  induction fuel as [|fuel IH]; intros st w.
  { split; [apply extends_refl | done]. }
  destruct (turn_world retries client file_path excel_file st w) as [Hext Hfs].
  cbn [validate_loop]. unfold bind.
  destruct (validate_iter retries client file_path excel_file st w) as [[c|e|] w1];
    cbn [snd] in *; [|done..].
  destruct c as [st1|st1]; [|done].
  destruct (IH st1 w1) as [Hext' Hfs'].
  split; [by eapply extends_trans|].
  intros other H1 H2. by rewrite Hfs', Hfs.
Qed.

(** X11. [validate_users] writes no file but the cursor file and the store,
    and it only prints, sleeps and sends lookup requests: it opens and
    closes no client and asks the operator nothing. *)
Theorem validate_users_footprint fuel retries client number file_path excel_file w :
  extends scan_event w
    (snd (validate_users fuel retries client number file_path excel_file w)) /\
  session_log (trace (snd (validate_users fuel retries client number file_path excel_file w)))
  = session_log (trace w) /\
  forall other, other <> file_path -> other <> excel_file ->
    fs (snd (validate_users fuel retries client number file_path excel_file w)) !! other
    = fs w !! other.
Proof.
  unfold validate_users.
  destruct (loop_world fuel retries client file_path excel_file (LoopState number ∅) w)
    as [Hext Hfs].
  split; [exact Hext|]. split; [by apply extends_session_log | exact Hfs].
Qed.

(** X12. [run_program] disconnects the client exactly when the scan returns:
    once [login] has handed out the client of a proxy, either the program
    returns and that client is closed again, or the scan did not return
    (it raised) and the client is left open. *)
Theorem run_program_disconnects_on_return
    fuel retries client op number output proxies file_path w p :
  fst (login client op proxies w) = Ok (Client p) ->
  (fst (run_program fuel retries client op number output proxies file_path w) = Ok tt /\
   live (session_log
           (trace (snd (run_program fuel retries client op number output proxies file_path w))))
   = live (session_log (trace w))) \/
  (fst (run_program fuel retries client op number output proxies file_path w) <> Ok tt /\
   live (session_log
           (trace (snd (run_program fuel retries client op number output proxies file_path w))))
   = p :: live (session_log (trace w))).
Proof.
  intros Hlogin.
  destruct (login_cases client op proxies w) as (_ & _ & _ & Hcase).
  destruct (login client op proxies w) as [[c|e|] w1] eqn:Hl; cbn [fst snd] in *;
    try discriminate Hlogin.
  injection Hlogin as ->.
  destruct Hcase as [(q & Hq & _ & Hlive) | [Hq _]]; [|discriminate Hq].
  injection Hq as <-.
  pose proof (loop_world fuel retries client file_path output (LoopState number ∅) w1)
    as [Hext _].
  apply extends_session_log in Hext.
  destruct (validate_loop fuel retries client file_path output (LoopState number ∅) w1)
    as [[res|e|] w2] eqn:Hloop; cbn [fst snd] in *.
  - assert (Hrun : run_program fuel retries client op number output proxies file_path w
                   = (Ok tt, record (Disconnect p) w2)).
    { unfold run_program, bind, validate_users. by rewrite Hl, Hloop. }
    left. rewrite Hrun. cbn [fst snd record trace session_log live].
    split; [done|]. rewrite Hext, Hlive. cbn [remove_first]. by rewrite decide_True.
  - assert (Hrun : run_program fuel retries client op number output proxies file_path w
                   = (Raise e, w2)).
    { unfold run_program, bind, validate_users. by rewrite Hl, Hloop. }
    right. rewrite Hrun. cbn [fst snd]. split; [done|]. by rewrite Hext.
  - assert (Hrun : run_program fuel retries client op number output proxies file_path w
                   = (Diverge, w2)).
    { unfold run_program, bind, validate_users. by rewrite Hl, Hloop. }
    right. rewrite Hrun. cbn [fst snd]. split; [done|]. by rewrite Hext.
Qed.

Lemma run_program_disconnects_on_return_witness :
  fst (login twin_service typist [proxy_b] (resume_at "4912345")) = Ok (Client proxy_b) /\
  fst (run_program 1 1 twin_service typist "4912345" results_file [proxy_b] cursor_file
         (resume_at "4912345")) = Ok tt /\
  live (session_log
          (trace (snd (run_program 1 1 twin_service typist "4912345" results_file [proxy_b]
                         cursor_file (resume_at "4912345")))))
  = live (session_log (trace (resume_at "4912345"))).
Proof.
  assert (H : fst (login twin_service typist [proxy_b] (resume_at "4912345"))
              = Ok (Client proxy_b)) by reflexivity.
  split; [exact H|].
  destruct (run_program_disconnects_on_return 1 1 twin_service typist "4912345" results_file
              [proxy_b] cursor_file (resume_at "4912345") proxy_b H) as [Hret | [Hno _]].
  - exact Hret.
  - exfalso. apply Hno. reflexivity.
Defined.

(** X13. Without a connection nothing is scanned: when [login] raises,
    [run_program] raises the same exception and does nothing after it.  The
    world is as [login] left it: no lookup request has been sent and no
    time slept. *)
Theorem run_program_without_connection
    fuel retries client op number output proxies file_path w e :
  fst (login client op proxies w) = Raise e ->
  run_program fuel retries client op number output proxies file_path w
  = (Raise e, snd (login client op proxies w)) /\
  imports (trace (snd (run_program fuel retries client op number output proxies file_path w)))
  = imports (trace w) /\
  elapsed (trace (snd (run_program fuel retries client op number output proxies file_path w)))
  = elapsed (trace w).
Proof.
  intros Hlogin.
  destruct (login_cases client op proxies w) as (_ & Hi & He & _).
  assert (Hrun : run_program fuel retries client op number output proxies file_path w
                 = (Raise e, snd (login client op proxies w))).
  { unfold run_program, bind.
    destruct (login client op proxies w) as [[c|e'|] w1]; cbn [fst snd] in *;
      try discriminate Hlogin.
    by injection Hlogin as ->. }
  rewrite Hrun. cbn [snd]. done.
Qed.

Lemma run_program_without_connection_witness :
  fst (login first_proxy_down typist [proxy_a] (resume_at "4912345"))
  = Raise AllProxiesFailedError /\
  fst (run_program 1 1 first_proxy_down typist "4912345" results_file [proxy_a] cursor_file
         (resume_at "4912345")) = Raise AllProxiesFailedError /\
  imports (trace (snd (run_program 1 1 first_proxy_down typist "4912345" results_file
                         [proxy_a] cursor_file (resume_at "4912345"))))
  = imports (trace (resume_at "4912345")).
Proof.
  assert (H : fst (login first_proxy_down typist [proxy_a] (resume_at "4912345"))
              = Raise AllProxiesFailedError) by reflexivity.
  split; [exact H|].
  destruct (run_program_without_connection 1 1 first_proxy_down typist "4912345" results_file
              [proxy_a] cursor_file (resume_at "4912345") _ H) as (Hr & Hi & _).
  split; [by rewrite Hr | exact Hi].
Defined.

(** ** The proxy list, whatever the file holds *)

Lemma split_length sep s : length (Py.split sep s) = S (Py.count_char sep s).
Proof.
  induction s as [|c r IH]; [done|].
  cbn [Py.split Py.count_char].
  destruct (Ascii.eqb c sep).
  - cbn [length]. by rewrite IH.
  - destruct (Py.split sep r) as [|h t]; cbn [length] in *; lia.
Qed.

Lemma well_formed_commas line :
  well_formed line = (2 <=? Py.count_char "," (Py.strip line))%nat.
Proof.
  unfold well_formed, fields. rewrite split_length.
  destruct (Py.count_char "," (Py.strip line)) as [|[|n]]; reflexivity.
Qed.

Lemma filter_split_length {A} (f : A -> bool) l :
  (length (List.filter f l) + length (List.filter (fun x => negb (f x)) l) = length l)%nat.
Proof.
  induction l as [|x l IH]; [done|].
  cbn [List.filter]. destruct (f x); cbn [negb length]; lia.
Qed.

Lemma ports_parse_cons line rest :
  (well_formed line = true -> is_Some (Py.int (fields line !!! 2%nat))) ->
  ports_parse rest -> ports_parse (line :: rest).
Proof. intros H Hr l [<- | Hin]; auto. Qed.

Lemma proxy_lines_outcome lines :
  forall acc w,
  (ports_parse lines /\
   exists ps,
     proxy_lines lines acc w
     = (Ok (acc ++ ps), World (fs w) (rev (warnings lines) ++ trace w)) /\
     length ps = length (List.filter well_formed lines)) \/
  (exists pre line post,
     lines = pre ++ line :: post /\
     ports_parse pre /\
     well_formed line = true /\
     Py.int (fields line !!! 2%nat) = None /\
     proxy_lines lines acc w
     = (Raise (ValueError (int_error (fields line !!! 2%nat))),
        World (fs w) (rev (warnings pre) ++ trace w))).
Proof.
  induction lines as [|line rest IH]; intros acc w.
  { left. split; [by intros l []|]. exists []. rewrite app_nil_r. by destruct w. }
  assert (Hstep : proxy_lines (line :: rest) acc w
                  = match proxy_line line acc w with
                    | (Ok ps, w') => proxy_lines rest ps w'
                    | (Raise e, w') => (Raise e, w')
                    | (Diverge, w') => (Diverge, w')
                    end) by reflexivity.
  rewrite Hstep. clear Hstep.
  destruct (well_formed line) eqn:Hwf.
  - destruct (Py.int (fields line !!! 2%nat)) as [z|] eqn:Hz.
    + destruct (proxy_line_kept line acc w z Hwf Hz) as (p & Hrun & _). rewrite Hrun.
      destruct (IH (acc ++ [p]) w) as [(Hpp & ps & Hps & Hlen) | Hbad].
      * left. split; [apply ports_parse_cons; [by rewrite Hz|done]|].
        exists (p :: ps). rewrite Hps, <- app_assoc.
        unfold warnings. cbn [List.filter]. rewrite Hwf. cbn [negb length].
        split; [done | by rewrite Hlen].
      * right. destruct Hbad as (pre & l & post & -> & Hpre & Hl & Hi & Hrun').
        exists (line :: pre), l, post. split; [done|].
        split; [apply ports_parse_cons; [by rewrite Hz|done]|].
        split; [done|]. split; [done|].
        rewrite Hrun'. unfold warnings. cbn [List.filter]. by rewrite Hwf.
    + right. exists [], line, rest. split; [done|].
      split; [by intros l []|]. split; [done|]. split; [done|].
      unfold proxy_line. fold (fields line).
      unfold well_formed in Hwf. apply negb_true_iff in Hwf. rewrite Hwf.
      unfold bind, py_int. rewrite Hz. by destruct w.
  - rewrite (proxy_line_skipped line acc w Hwf).
    assert (Hline : well_formed line = true -> is_Some (Py.int (fields line !!! 2%nat)))
      by (rewrite Hwf; discriminate).
    destruct (IH acc (record (skip_warning line) w)) as [(Hpp & ps & Hps & Hlen) | Hbad].
    + left. split; [by apply ports_parse_cons|].
      exists ps. rewrite Hps.
      unfold warnings. cbn [List.filter]. rewrite Hwf. cbn [negb map rev record fs trace].
      rewrite <- app_assoc. done.
    + right. destruct Hbad as (pre & l & post & -> & Hpre & Hl & Hi & Hrun').
      exists (line :: pre), l, post. split; [done|].
      split; [by apply ports_parse_cons|]. split; [done|]. split; [done|].
      rewrite Hrun'. unfold warnings. cbn [List.filter]. rewrite Hwf.
      cbn [negb map rev record fs trace]. by rewrite <- app_assoc.
Qed.

(** X14. What [read_proxy_settings] keeps of a file is decided by the
    commas alone: when it returns, it returns as many descriptors as the
    file has lines with at least two commas once trimmed, and it has printed
    one warning, in file order, for each of the other lines. *)
Theorem read_proxy_settings_counts_commas file_path text w ps w' :
  fs w !! file_path = Some (TextFile text) ->
  read_proxy_settings file_path w = (Ok ps, w') ->
  length ps
  = length (List.filter (fun line => (2 <=? Py.count_char "," (Py.strip line))%nat)
              (readlines text)) /\
  trace w'
  = rev (map skip_warning
           (List.filter (fun line => (Py.count_char "," (Py.strip line) <? 2)%nat)
              (readlines text))) ++ trace w.
Proof.
  intros Hfile Hrun.
  unfold read_proxy_settings, bind, open_text in Hrun. rewrite Hfile in Hrun.
  destruct (proxy_lines_outcome (readlines text) [] w)
    as [(_ & qs & Hout & Hlen) | (pre & line & post & _ & _ & _ & _ & Hout)];
    rewrite Hout in Hrun; [|discriminate Hrun].
  injection Hrun as <- <-. cbn [app trace]. split.
  - rewrite Hlen. f_equal. apply List.filter_ext. intros line. apply well_formed_commas.
  - unfold warnings. do 3 f_equal. apply List.filter_ext. intros line.
    rewrite well_formed_commas.
    destruct (Py.count_char "," (Py.strip line)) as [|[|n]]; reflexivity.
Qed.

Lemma read_proxy_settings_counts_commas_witness :
  fs (proxy_file sample_proxies) !! "proxy.txt" = Some (TextFile sample_proxies) /\
  length (readlines sample_proxies) = 3%nat /\
  exists ps w',
    read_proxy_settings "proxy.txt" (proxy_file sample_proxies) = (Ok ps, w') /\
    length ps = 2%nat /\
    length (trace w') = 1%nat.
Proof.
  assert (H : fs (proxy_file sample_proxies) !! "proxy.txt" = Some (TextFile sample_proxies))
    by reflexivity.
  split; [exact H|]. split; [reflexivity|].
  destruct (read_proxy_settings "proxy.txt" (proxy_file sample_proxies))
    as [[ps|e|] w'] eqn:Hrun; [|vm_compute in Hrun; discriminate Hrun..].
  destruct (read_proxy_settings_counts_commas "proxy.txt" sample_proxies
              (proxy_file sample_proxies) ps w' H Hrun) as [Hlen Htrace].
  exists ps, w'. split; [reflexivity|]. split; [exact Hlen|]. by rewrite Htrace.
Defined.

(** X15. On a proxy file that exists, [read_proxy_settings] either returns,
    and then every line gave a descriptor or a warning (none is lost) and
    every third field was an integer, or it raises [ValueError] for the first
    line with three fields whose third field is not an integer, having
    printed the warnings of the lines before it only; in both cases no file
    is written. *)
Theorem read_proxy_settings_outcome file_path text w :
  fs w !! file_path = Some (TextFile text) ->
  (ports_parse (readlines text) /\
   exists ps w',
     read_proxy_settings file_path w = (Ok ps, w') /\
     (length ps + length (warnings (readlines text)) = length (readlines text))%nat /\
     fs w' = fs w) \/
  (~ ports_parse (readlines text) /\
   exists pre line post w',
     readlines text = pre ++ line :: post /\
     ports_parse pre /\
     well_formed line = true /\
     Py.int (fields line !!! 2%nat) = None /\
     read_proxy_settings file_path w
     = (Raise (ValueError (int_error (fields line !!! 2%nat))), w') /\
     trace w' = rev (warnings pre) ++ trace w /\
     fs w' = fs w).
Proof.
  intros Hfile.
  unfold read_proxy_settings, bind, open_text. rewrite Hfile.
  destruct (proxy_lines_outcome (readlines text) [] w)
    as [(Hpp & ps & Hrun & Hlen) | (pre & line & post & Hsplit & Hpre & Hwf & Hint & Hrun)].
  - left. split; [done|]. exists ps. eexists. rewrite Hrun. split; [done|].
    split; [|done]. rewrite Hlen. unfold warnings. rewrite length_map.
    apply filter_split_length.
  - right. split.
    + intros Hpp. destruct (Hpp line) as [z Hz]; [|done|congruence].
      rewrite Hsplit. apply in_or_app. right. by left.
    + exists pre, line, post. eexists. rewrite Hrun. done.
Qed.

Lemma read_proxy_settings_outcome_witness :
  fs (proxy_file mixed_proxies) !! "proxy.txt" = Some (TextFile mixed_proxies) /\
  ~ ports_parse (readlines mixed_proxies) /\
  fst (read_proxy_settings "proxy.txt" (proxy_file mixed_proxies))
  = Raise (ValueError "invalid literal for int() with base 10: 'http'").
Proof.
  assert (H : fs (proxy_file mixed_proxies) !! "proxy.txt" = Some (TextFile mixed_proxies))
    by reflexivity.
  split; [exact H|].
  destruct (read_proxy_settings_outcome "proxy.txt" mixed_proxies (proxy_file mixed_proxies) H)
    as [(_ & ps & w' & Hrun & _) | (Hnot & _)].
  - exfalso. vm_compute in Hrun. discriminate Hrun.
  - split; [exact Hnot | reflexivity].
Defined.

(** ** The cursor file as an editor leaves it *)

Lemma readlines_first_line c t rest :
  all_digits c = true ->
  Py.code t = 10 \/ Py.code t = 13 ->
  exists tail, readlines (c +:+ String t rest) = (c +:+ nl) :: tail.
Proof.
  intros Hc Ht. induction c as [|x c IH].
  - rewrite !append_nil_l. cbn [readlines].
    destruct Ht as [Ht | Ht]; rewrite Ht; cbn [Z.eqb Pos.eqb].
    + eauto.
    + destruct rest as [|d r']; [eauto|]. destruct (Py.code d =? 10); eauto.
  - cbn [all_digits] in Hc. apply andb_true_iff in Hc as [Hx Hc].
    pose proof (digit_code x Hx) as Hcode.
    destruct (IH Hc) as [tail Htail].
    rewrite !append_cons. cbn [readlines]. rewrite Htail.
    destruct (Py.code x =? 10) eqn:E10; [apply Z.eqb_eq in E10; lia|].
    destruct (Py.code x =? 13) eqn:E13; [apply Z.eqb_eq in E13; lia|].
    eauto.
Qed.

Lemma rstrip_digits_nl c : all_digits c = true -> Py.rstrip (c +:+ nl) = c.
Proof.
  induction c as [|x c IH]; intros Hc; [reflexivity|].
  cbn [all_digits] in Hc. apply andb_true_iff in Hc as [Hx Hc].
  rewrite append_cons. cbn [Py.rstrip]. rewrite (IH Hc), (digit_not_space x Hx). done.
Qed.

(** X16. Only the first line of the resume file counts, and its line end is
    dropped: a file that starts with a numeral followed by a line feed or a
    carriage return, and anything after it, is read as that numeral. *)
Theorem read_last_checked_number_first_line file_path c t rest w :
  numeral c = true ->
  Py.code t = 10 \/ Py.code t = 13 ->
  fs w !! file_path = Some (TextFile (c +:+ String t rest)) ->
  read_last_checked_number file_path w = (Ok c, w).
Proof.
  unfold numeral. intros [Hne Hc]%andb_true_iff Ht Hfile.
  unfold read_last_checked_number, bind, open_text. rewrite Hfile.
  destruct (readlines_first_line c t rest Hc Ht) as [tail Htail].
  unfold ret, readline. rewrite Htail.
  unfold Py.strip. rewrite (rstrip_digits_nl c Hc), (all_digits_lstrip c Hc). done.
Qed.

Lemma read_last_checked_number_first_line_witness :
  numeral "4912345" = true /\
  (Py.code (Py.chr 13) = 10 \/ Py.code (Py.chr 13) = 13) /\
  fs (World {[ cursor_file := TextFile ("4912345" +:+ String (Py.chr 13) (nl +:+ "note")) ]} [])
  !! cursor_file = Some (TextFile ("4912345" +:+ String (Py.chr 13) (nl +:+ "note"))) /\
  read_last_checked_number cursor_file
    (World {[ cursor_file := TextFile ("4912345" +:+ String (Py.chr 13) (nl +:+ "note")) ]} [])
  = (Ok "4912345",
     World {[ cursor_file := TextFile ("4912345" +:+ String (Py.chr 13) (nl +:+ "note")) ]} []).
Proof.
  split; [reflexivity|]. split; [right; reflexivity|]. split; [reflexivity|].
  apply (read_last_checked_number_first_line cursor_file "4912345" (Py.chr 13) (nl +:+ "note")).
  - reflexivity.
  - right. reflexivity.
  - reflexivity.
Defined.

(** ** Increments, again and again *)

Lemma int_str z : Py.int (Py.str z) = Some z.
Proof.
  destruct (Z.ltb_spec z 0) as [Hneg | Hpos].
  - unfold Py.str. assert (Hlt : (z <? 0) = true) by (apply Z.ltb_lt; lia). rewrite Hlt.
    destruct (str_nonneg_spec (- z) ltac:(lia)) as (Hnum & Hval & _).
    unfold Py.str in Hnum, Hval.
    assert (Hge : (- z <? 0) = false) by (apply Z.ltb_ge; lia).
    rewrite Hge in Hnum, Hval.
    unfold numeral in Hnum. apply andb_true_iff in Hnum as [Hne Hd].
    unfold Py.int. cbn [Py.int_rstrip].
    rewrite (all_digits_int_rstrip _ Hd).
    replace (Py.int_space "-" && Py.is_empty (Py.str_nonneg (- z))) with false by reflexivity.
    cbn [Py.int_lstrip].
    replace (Py.int_space "-") with false by reflexivity.
    rewrite int_digits_all_digits; [|done|right; by destruct (Py.str_nonneg (- z))].
    unfold numeral_value in Hval. rewrite Hval. cbn. f_equal. lia.
  - destruct (str_nonneg_spec z Hpos) as (Hnum & Hval & _).
    by rewrite (int_numeral _ Hnum), Hval.
Qed.

(** X17. Whatever text [int] accepts as the current number (signs, spaces
    and underscores included), [increment_phone_number] returns the plain
    decimal text of the next integer, which [int] reads back as that
    integer, so that the increment can be repeated without end; text that
    [int] rejects makes it raise [ValueError]. *)
Theorem increment_phone_number_repeats s w :
  match Py.int s with
  | Some z =>
      increment_phone_number s w = (Ok (Py.str (z + 1)), w) /\
      Py.int (Py.str (z + 1)) = Some (z + 1) /\
      increment_phone_number (Py.str (z + 1)) w = (Ok (Py.str (z + 2)), w)
  | None =>
      increment_phone_number s w
      = (Raise (ValueError (int_error s)), w)
  end.
Proof.
  unfold increment_phone_number, bind, py_int.
  destruct (Py.int s) as [z|] eqn:Hs; [|reflexivity].
  rewrite int_str. split; [done|]. split; [done|].
  unfold ret. do 3 f_equal. lia.
Qed.

Example increment_phone_number_forms :
  fst (increment_phone_number "+4912345" fresh) = Ok "4912346" /\
  fst (increment_phone_number " 0_099 " fresh) = Ok "100" /\
  fst (increment_phone_number "-1" fresh) = Ok "0" /\
  fst (increment_phone_number "-10" fresh) = Ok "-9".
Proof. repeat split. Qed.

(** ** The entry point *)

Lemma console_events extra :
  forallb console_event extra = true ->
  session_log extra = [] /\ imports extra = [] /\ elapsed extra = 0.
Proof.
  induction extra as [|ev a IH]; [done|].
  cbn [forallb]. intros [Hev Ha]%andb_true_iff.
  destruct ev; try discriminate Hev; cbn [session_log imports elapsed]; auto.
Qed.

Lemma warnings_console lines : forallb console_event (rev (warnings lines)) = true.
Proof.
  apply forallb_forall. intros ev Hin. apply in_rev in Hin.
  unfold warnings in Hin. apply in_map_iff in Hin as (l & <- & _). reflexivity.
Qed.

(** Reading the proxy list only prints; it returns or raises. *)
Lemma read_proxy_settings_world file_path w :
  fst (read_proxy_settings file_path w) <> Diverge /\
  fs (snd (read_proxy_settings file_path w)) = fs w /\
  extends console_event w (snd (read_proxy_settings file_path w)).
Proof.
  unfold read_proxy_settings, bind, open_text.
  destruct (fs w !! file_path) as [[text|rows]|];
    [|by (repeat split; try apply extends_refl)..].
  destruct (proxy_lines_outcome (readlines text) [] w)
    as [(_ & ps & -> & _) | (pre & line & post & _ & _ & _ & _ & ->)];
    cbn [fst snd fs]; (split; [done|]); (split; [done|]).
  - exists (rev (warnings (readlines text))). split; [done | apply warnings_console].
  - exists (rev (warnings pre)). split; [done | apply warnings_console].
Qed.

(** X19. Configuration is read before anything else: when the proxy list
    cannot be read (missing file, a port that is not an integer) or the
    resume file is missing, [main_entrypoint] raises without having created a
    client, sent a request or written a file. *)
Theorem main_entrypoint_aborts_before_login
    fuel retries client op phone_numbers_file output w :
  (forall ps, fst (read_proxy_settings "proxy.txt" w) <> Ok ps) \/
  fs w !! phone_numbers_file = None ->
  (exists e, fst (main_entrypoint fuel retries client op phone_numbers_file output w)
             = Raise e) /\
  fs (snd (main_entrypoint fuel retries client op phone_numbers_file output w)) = fs w /\
  session_log (trace (snd (main_entrypoint fuel retries client op phone_numbers_file output w)))
  = session_log (trace w) /\
  imports (trace (snd (main_entrypoint fuel retries client op phone_numbers_file output w)))
  = imports (trace w).
Proof.
  intros Hbad.
  destruct (read_proxy_settings_world "proxy.txt" w) as (Hend & Hfs & (extra & Ht & Hc)).
  destruct (console_events extra Hc) as (Hs & Hi & _).
  assert (Hlog : session_log (trace (snd (read_proxy_settings "proxy.txt" w)))
                 = session_log (trace w)) by (by rewrite Ht, session_log_app, Hs).
  assert (Himp : imports (trace (snd (read_proxy_settings "proxy.txt" w)))
                 = imports (trace w)) by (by rewrite Ht, imports_app, Hi).
  clear Ht Hc Hs Hi extra.
  destruct (read_proxy_settings "proxy.txt" w) as [[ps|e|] w1] eqn:Hrp;
    cbn [fst snd] in *; [| |done].
  - destruct Hbad as [Hno | Hmissing]; [by destruct (Hno ps)|].
    assert (Hrun : main_entrypoint fuel retries client op phone_numbers_file output w
                   = (Raise (FileNotFoundError
                               ("[Errno 2] No such file or directory: "
                                +:+ Py.repr phone_numbers_file)), w1)).
    { unfold main_entrypoint, bind at 1. rewrite Hrp.
      unfold read_last_checked_number, bind, open_text. by rewrite Hfs, Hmissing. }
    rewrite Hrun. cbn [fst snd]. split; [eauto|]. done.
  - assert (Hrun : main_entrypoint fuel retries client op phone_numbers_file output w
                   = (Raise e, w1)).
    { unfold main_entrypoint, bind at 1. by rewrite Hrp. }
    rewrite Hrun. cbn [fst snd]. split; [eauto|]. done.
Qed.

Lemma main_entrypoint_aborts_before_login_witness :
  ((forall ps, fst (read_proxy_settings "proxy.txt" (resume_at "4912345")) <> Ok ps) \/
   fs (resume_at "4912345") !! cursor_file = None) /\
  (exists e, fst (main_entrypoint 1 1 twin_service typist cursor_file results_file
                    (resume_at "4912345")) = Raise e) /\
  session_log (trace (snd (main_entrypoint 1 1 twin_service typist cursor_file results_file
                             (resume_at "4912345"))))
  = session_log (trace (resume_at "4912345")).
Proof.
  assert (H : (forall ps, fst (read_proxy_settings "proxy.txt" (resume_at "4912345")) <> Ok ps) \/
              fs (resume_at "4912345") !! cursor_file = None).
  { left. intros ps Hps. vm_compute in Hps. discriminate Hps. }
  split; [exact H|].
  destruct (main_entrypoint_aborts_before_login 1 1 twin_service typist cursor_file
              results_file (resume_at "4912345") H) as (He & _ & Hs & _).
  split; [exact He | exact Hs].
Defined.

(** ** Requests and prompts *)

(** X20. An attempt asks for a deletion exactly when the import matched one
    account, and then for that account's id: after no match or several
    matches nothing is deleted, and after a failed import neither. *)
Theorem try_block_deletes_single_match client number w :
  match import_contacts client number (attempt_history number w) with
  | Returns [u0] =>
      deletes (trace (snd (try_block client number w))) = tl_id u0 :: deletes (trace w)
  | _ =>
      deletes (trace (snd (try_block client number w))) = deletes (trace w)
  end.
Proof.
  unfold try_block, lookup_body, bind, call, attempt_history. cbn [record trace fs].
  destruct (import_contacts client number _) as [users|e]; [|reflexivity].
  destruct users as [|u0 [|u1 users]]; [reflexivity| |reflexivity].
  cbn [trace fs].
  destruct (delete_contacts client (tl_id u0) _) as [us|e]; [|reflexivity].
  destruct us as [|[u|i] us]; reflexivity.
Qed.

Example lookup_of_forgotten_user :
  fst (get_names 1 forgetful_service "4912347" fresh)
  = Raise (IndexError "list index out of range") /\
  deletes (trace (snd (get_names 1 forgetful_service "4912347" fresh))) = [777].
Proof. split; reflexivity. Qed.

Lemma prompts_record ev w :
  inputs [ev] = O -> getpasses [ev] = O ->
  inputs (trace (record ev w)) = inputs (trace w) /\
  getpasses (trace (record ev w)) = getpasses (trace w).
Proof. destruct ev; cbn; intros; try discriminate; auto. Qed.

(** One attempt asks for at most one code, and for a password only after a
    code. *)
Lemma connect_and_authorize_prompts client op p w :
  (inputs (trace w) <= inputs (trace (snd (connect_and_authorize client op p w)))
   <= S (inputs (trace w)))%nat /\
  (getpasses (trace w) <= getpasses (trace (snd (connect_and_authorize client op p w))))%nat /\
  (getpasses (trace (snd (connect_and_authorize client op p w))) + inputs (trace w)
   <= getpasses (trace w) + inputs (trace (snd (connect_and_authorize client op p w))))%nat.
Proof.
  unfold connect_and_authorize, sign_in, bind, try_except, call, print, emit, ret, raise.
  cbn [trace fs].
  repeat match goal with
         | |- context [match ?f ?t with Returns _ => _ | Raises _ => _ end] =>
             destruct (f t); cbn [fst snd trace fs inputs getpasses]
         | |- context [if ?b then _ else _] =>
             destruct b; cbn [fst snd trace fs inputs getpasses]
         | |- context [match ?e with TypeError _ => _ | _ => _ end] =>
             destruct e; cbn [fst snd trace fs inputs getpasses]
         end;
    lia.
Qed.

Lemma try_proxy_prompts client op p w :
  (inputs (trace w) <= inputs (trace (snd (try_proxy client op p w)))
   <= S (inputs (trace w)))%nat /\
  (getpasses (trace w) <= getpasses (trace (snd (try_proxy client op p w))))%nat /\
  (getpasses (trace (snd (try_proxy client op p w))) + inputs (trace w)
   <= getpasses (trace w) + inputs (trace (snd (try_proxy client op p w))))%nat.
Proof.
  pose proof (connect_and_authorize_prompts client op p (record (NewClient p) w)) as H.
  pose proof (ends_connect_and_authorize client op p (record (NewClient p) w)) as Hend.
  cbn [record trace inputs getpasses] in H.
  destruct (connect_and_authorize client op p (record (NewClient p) w)) as [[c|e|] w1] eqn:Hc;
    cbn [fst snd] in *; [| |done].
  - by rewrite (try_proxy_succeeds _ _ _ _ _ _ Hc).
  - rewrite (try_proxy_fails _ _ _ _ _ _ Hc).
    cbn [snd after_failure record trace inputs getpasses]. exact H.
Qed.

Lemma for_proxies_prompts client op proxies :
  forall w,
  (inputs (trace (snd (for_proxies client op proxies w)))
   <= inputs (trace w) + length proxies)%nat /\
  (inputs (trace w) <= inputs (trace (snd (for_proxies client op proxies w))))%nat /\
  (getpasses (trace (snd (for_proxies client op proxies w))) + inputs (trace w)
   <= getpasses (trace w) + inputs (trace (snd (for_proxies client op proxies w))))%nat.
Proof.
  induction proxies as [|p rest IH]; intros w; [cbn; lia|].
  pose proof (try_proxy_prompts client op p w) as Hp.
  cbn [for_proxies length]. unfold bind.
  destruct (try_proxy client op p w) as [[r|e|] w1]; cbn [fst snd] in *; [|lia..].
  destruct r as [c|]; [cbn [ret snd]; lia|].
  specialize (IH w1). lia.
Qed.

(** X21. [login] asks the operator for at most one code per proxy, and for
    a password never more often than for a code. *)
Theorem login_prompts client op proxies w :
  (inputs (trace (snd (login client op proxies w)))
   <= inputs (trace w) + length proxies)%nat /\
  (getpasses (trace (snd (login client op proxies w))) + inputs (trace w)
   <= getpasses (trace w) + inputs (trace (snd (login client op proxies w))))%nat.
Proof.
  unfold login, bind, print_noend, emit.
  fold (record (Stdout "Logging in...") w).
  pose proof (for_proxies_prompts client op proxies (record (Stdout "Logging in...") w)) as H.
  cbn [record trace inputs getpasses] in H. lia.
Qed.

(** ** What a scan leaves on disk *)

(** A turn that does not go on leaves the cursor file alone; a [break]
    keeps the current number and records its result. *)
Lemma turn_stops retries client file_path excel_file st w :
  scanning st ->
  file_path <> excel_file ->
  match fst (validate_iter retries client file_path excel_file st w) with
  | Ok (Continue _) => True
  | Ok (Break st1) =>
      phone_number st1 = phone_number st /\
      (exists msg, result st1 !! phone_number st = Some (error_result msg)) /\
      fs (snd (validate_iter retries client file_path excel_file st w)) !! file_path
      = fs w !! file_path
  | _ =>
      fs (snd (validate_iter retries client file_path excel_file st w)) !! file_path
      = fs w !! file_path
  end.
Proof.
  intros Hscan Hne.
  pose proof (scanning_fresh st Hscan) as Hfresh.
  destruct (validate_iter_cases retries client file_path excel_file st w)
    as [(d & Hd & _) | (_ & o & w1 & Hget & Hcase)]; [congruence|].
  destruct (get_names_world _ _ _ _ _ _ Hget) as [Hfs _].
  rewrite (int_numeral _ (proj1 Hscan)) in Hcase.
  destruct o as [r|e|]; [|rewrite Hcase; cbn [fst snd]; by rewrite Hfs..].
  destruct (r !! "error") as [v|] eqn:Herr.
  - destruct v as [|b|n|msg|p];
      try (destruct Hcase as [e ->]; cbn [fst snd record fs]; by rewrite Hfs).
    destruct (Py.contains "not on Telegram" msg); rewrite Hcase; cbn [fst snd]; [done|].
    cbn [looked_up phone_number result record fs]. rewrite lookup_insert_eq, Hfs.
    split; [done|]. split; [|done].
    pose proof (get_names_classified _ _ _ _ _ _ Hget) as Hclass.
    unfold NotRegistered, Found, AmbiguousMatch, TransientError in Hclass.
    destruct Hclass as [-> | [[u ->] | [-> | [e ->]]]]; eauto.
    rewrite found_record_no_error in Herr. discriminate Herr.
  - destruct (fs w1 !! excel_file) as [[s|rows]|];
      [destruct Hcase as [e ->]; cbn [fst snd]; by rewrite Hfs|..];
      by rewrite Hcase.
Qed.

Lemma sleeps_app a b : sleeps (a ++ b) = sleeps a ++ sleeps b.
Proof.
  induction a as [|ev a IH]; [done|].
  destruct ev; cbn [app sleeps]; by rewrite ?IH.
Qed.

(** A lookup that ends has asked the service at least once. *)
Lemma get_names_asks retries client number w o w1 :
  get_names retries client number w = (o, w1) ->
  exists k,
    imports (trace w1) = replicate k number ++ imports (trace w) /\
    (o <> Diverge -> (1 <= k)%nat).
Proof.
  intros Hget.
  destruct (get_names_frame_snd retries client number w) as [Hsnd Hfst].
  rewrite Hget in Hsnd, Hfst. cbn [fst snd] in Hsnd, Hfst.
  destruct (get_names_frame_trace client number retries w)
    as ([extra [Hextra _]] & k & _ & Hi & _ & Hs).
  rewrite <- Hsnd in Hextra, Hi, Hs. rewrite <- Hfst in Hs.
  exists k. split; [exact Hi|].
  intros Hnd. specialize (Hs Hnd).
  rewrite Hextra, sleeps_app, length_app in Hs. lia.
Qed.

(** The import requests of one turn are all for the current number; a turn
    that goes on has asked at least once and recorded a result the loop
    steps over, a [break] has recorded an error without the phrase. *)
Lemma turn_lookups retries client file_path excel_file st w :
  scanning st ->
  exists k,
    imports (trace (snd (validate_iter retries client file_path excel_file st w)))
    = replicate k (phone_number st) ++ imports (trace w) /\
    match fst (validate_iter retries client file_path excel_file st w) with
    | Ok (Continue st1) =>
        (1 <= k)%nat /\
        exists r, result st1 = <[phone_number st := r]> (result st) /\ steps_over r = true
    | Ok (Break st1) =>
        exists msg, result st1 = <[phone_number st := error_result msg]> (result st) /\
                    Py.contains "not on Telegram" msg = false
    | _ => True
    end.
Proof.
  intros Hscan.
  pose proof (scanning_fresh st Hscan) as Hfresh.
  destruct (validate_iter_cases retries client file_path excel_file st w)
    as [(d & Hd & _) | (_ & o & w1 & Hget & Hcase)]; [congruence|].
  destruct (get_names_asks _ _ _ _ _ _ Hget) as (k & Hi & Hk).
  rewrite (int_numeral _ (proj1 Hscan)) in Hcase.
  exists k.
  destruct o as [r|e|]; [|by rewrite Hcase..].
  specialize (Hk ltac:(discriminate)).
  destruct (r !! "error") as [v|] eqn:Herr.
  - destruct v as [|b|n|msg|p]; try (destruct Hcase as [e ->]; by cbn).
    destruct (Py.contains "not on Telegram" msg) eqn:Hc; rewrite Hcase; cbn [fst snd].
    + split; [exact Hi|]. split; [exact Hk|].
      exists r. split; [done|]. unfold steps_over. by rewrite Herr.
    + split; [exact Hi|].
      pose proof (get_names_classified _ _ _ _ _ _ Hget) as Hclass.
      unfold NotRegistered, Found, AmbiguousMatch, TransientError in Hclass.
      assert (Hr : exists m, r = error_result m).
      { destruct Hclass as [-> | [[u ->] | [-> | [e ->]]]]; eauto.
        rewrite found_record_no_error in Herr. discriminate Herr. }
      destruct Hr as [m ->]. rewrite error_result_lookup in Herr.
      injection Herr as ->. by exists msg.
  - destruct (fs w1 !! excel_file) as [[s|rows]|];
      [destruct Hcase as [e ->]; by cbn|..];
      rewrite Hcase; cbn [fst snd];
      (split; [exact Hi|]); (split; [exact Hk|]);
      exists r; (split; [done|]); unfold steps_over; by rewrite Herr.
Qed.

Lemma loop_resumable fuel retries client file_path excel_file :
  forall st w,
  scanning st ->
  file_path <> excel_file ->
  fs w !! file_path = Some (TextFile (phone_number st)) ->
  exists (j : nat) c new,
    (j <= fuel)%nat /\
    fs (snd (validate_loop fuel retries client file_path excel_file st w)) !! file_path
    = Some (TextFile c) /\
    numeral c = true /\
    numeral_value c = numeral_value (phone_number st) + Z.of_nat j /\
    imports (trace (snd (validate_loop fuel retries client file_path excel_file st w)))
    = new ++ imports (trace w) /\
    (forall p, In p new ->
       numeral_value (phone_number st) <= numeral_value p <= numeral_value c) /\
    (forall i, 0 <= i < Z.of_nat j ->
       exists p, In p new /\ numeral_value p = numeral_value (phone_number st) + i) /\
    (forall res,
       fst (validate_loop fuel retries client file_path excel_file st w) = Ok res ->
       size res = (size (result st) + S j)%nat /\
       exists msg,
         res !! c = Some (error_result msg) /\
         Py.contains "not on Telegram" msg = false /\
         forall key d, res !! key = Some d -> key <> c ->
           result st !! key = Some d \/
           (numeral_value (phone_number st) <= numeral_value key < numeral_value c /\
            steps_over d = true)).
Proof.
  induction fuel as [|fuel IH]; intros st w Hscan Hne Hfile.
  { exists O, (phone_number st), []. cbn [validate_loop fst snd].
    split; [lia|]. split; [done|]. split; [apply Hscan|]. split; [lia|].
    split; [done|]. split; [by intros p []|]. split; [lia|]. discriminate. }
  pose proof (turn_stops retries client file_path excel_file st w Hscan Hne) as Hstop.
  destruct (turn_lookups retries client file_path excel_file st w Hscan) as (k & Hi & Hturn).
  pose proof (scanning_fresh st Hscan) as Hfresh.
  assert (Hown : forall p, In p (replicate k (phone_number st)) -> p = phone_number st).
  { intros p Hp. apply list_elem_of_In in Hp. by apply elem_of_replicate_inv in Hp. }
  assert (Hstay : forall w1,
            fs w1 !! file_path = fs w !! file_path ->
            imports (trace w1) = replicate k (phone_number st) ++ imports (trace w) ->
            exists c new,
              fs w1 !! file_path = Some (TextFile c) /\
              numeral c = true /\
              numeral_value c = numeral_value (phone_number st) + Z.of_nat 0 /\
              imports (trace w1) = new ++ imports (trace w) /\
              (forall p, In p new ->
                 numeral_value (phone_number st) <= numeral_value p <= numeral_value c) /\
              (forall i, 0 <= i < Z.of_nat 0 ->
                 exists p, In p new /\ numeral_value p = numeral_value (phone_number st) + i)).
  { intros w1 Hfs1 Hi1. exists (phone_number st), (replicate k (phone_number st)).
    split; [by rewrite Hfs1|]. split; [apply Hscan|]. split; [lia|]. split; [done|].
    split; [|lia]. intros p Hp. rewrite (Hown p Hp). lia. }
  cbn [validate_loop]. unfold bind.
  destruct (validate_iter retries client file_path excel_file st w) as [[c|e|] w1] eqn:Hit;
    cbn [fst snd] in *.
  - destruct c as [st1|st1].
    + destruct (turn_advances _ _ _ _ _ _ _ _ Hscan Hit) as (Hs1 & Hp1 & Hz1 & Hf1 & _).
      destruct Hturn as (Hk & r & Hres1 & Hover).
      destruct (IH st1 w1 Hs1 Hne Hf1)
        as (j & c & new & Hj & Hfc & Hnc & Hvc & Hnew & Hup & Hlow & Hret).
      pose proof (numeral_value_nonneg _ (proj1 Hscan)) as Hv0.
      destruct (str_succ_numeral _ Hv0) as (_ & Hv1 & _).
      rewrite Hp1, Hv1 in Hvc, Hup, Hlow, Hret.
      exists (S j), c, (new ++ replicate k (phone_number st)).
      split; [lia|]. split; [done|]. split; [done|]. split; [lia|].
      split; [by rewrite Hnew, Hi, app_assoc|].
      split.
      { intros p [Hp | Hp]%in_app_or.
        - specialize (Hup p Hp). lia.
        - rewrite (Hown p Hp). lia. }
      split.
      { intros i Hi'. destruct (decide (i = 0)) as [-> | Hpos].
        - exists (phone_number st). split; [|lia].
          apply in_or_app. right. destruct k as [|k]; [lia | by left].
        - destruct (Hlow (i - 1) ltac:(lia)) as (p & Hp & Hvp).
          exists p. split; [apply in_or_app; by left | lia]. }
      intros res Hres. destruct (Hret res Hres) as (Hsize & msg & Hc & Hmsg & Hkeys).
      split; [lia|]. exists msg. split; [done|]. split; [done|].
      intros key d Hkey Hkc. destruct (Hkeys key d Hkey Hkc) as [Hold | [Hrange Hd]].
      * rewrite Hres1, lookup_insert in Hold. case_decide as Hk1.
        -- injection Hold as <-. subst key. right. split; [lia | done].
        -- by left.
      * right. split; [lia | done].
    + destruct Hstop as (Hp & _ & Hfs).
      destruct Hturn as (msg & Hres1 & Hmsg).
      destruct (Hstay w1 Hfs Hi) as (c & new & Hfc & Hnc & Hvc & Hnew & Hup & Hlow).
      exists O, c, new. cbn [ret fst snd].
      split; [lia|]. split; [done|]. split; [done|]. split; [done|].
      split; [done|]. split; [done|]. split; [done|].
      intros res [= <-].
      assert (Hc : c = phone_number st).
      { rewrite Hfs, Hfile in Hfc. by injection Hfc. }
      subst c. rewrite Hres1.
      split; [rewrite map_size_insert_None by done; lia|].
      exists msg. split; [apply lookup_insert_eq|]. split; [done|].
      intros key d Hkey Hkc. left. by rewrite lookup_insert_ne in Hkey.
  - destruct (Hstay w1 Hstop Hi) as (c & new & H).
    exists O, c, new. split; [lia|]. repeat (split; [apply H|]). discriminate.
  - destruct (Hstay w1 Hstop Hi) as (c & new & H).
    exists O, c, new. split; [lia|]. repeat (split; [apply H|]). discriminate.
Qed.

(** X22. The cursor file always names where to resume.  Started at the
    numeral [n] that the cursor file holds, with the store at another path,
    however the scan ends (return, exception, or still running), the cursor
    file reads back as the numeral of [n + j], where every one of the [j]
    numbers below it has been looked up and no number above it has: the
    cursor neither lags behind the lookups nor runs ahead of them.  When the
    scan has returned, its dictionary has [j + 1] entries: the cursor's
    number with the error that made the loop stop (a text without the
    phrase "not on Telegram"), and the [j] numbers below it, each with a
    result the loop steps over. *)
Theorem validate_users_resumable fuel retries client n file_path excel_file w :
  numeral n = true ->
  file_path <> excel_file ->
  fs w !! file_path = Some (TextFile n) ->
  exists (j : nat) c new,
    (j <= fuel)%nat /\
    numeral c = true /\
    numeral_value c = numeral_value n + Z.of_nat j /\
    read_last_checked_number file_path
      (snd (validate_users fuel retries client n file_path excel_file w))
    = (Ok c, snd (validate_users fuel retries client n file_path excel_file w)) /\
    imports (trace (snd (validate_users fuel retries client n file_path excel_file w)))
    = new ++ imports (trace w) /\
    (forall p, In p new -> numeral_value n <= numeral_value p <= numeral_value c) /\
    (forall i, 0 <= i < Z.of_nat j ->
       exists p, In p new /\ numeral_value p = numeral_value n + i) /\
    (forall res,
       fst (validate_users fuel retries client n file_path excel_file w) = Ok res ->
       size res = S j /\
       exists msg,
         res !! c = Some (error_result msg) /\
         Py.contains "not on Telegram" msg = false /\
         forall key d, res !! key = Some d -> key <> c ->
           numeral_value n <= numeral_value key < numeral_value c /\
           steps_over d = true).
Proof.
  intros Hn Hne Hfile. unfold validate_users.
  destruct (loop_resumable fuel retries client file_path excel_file (LoopState n ∅) w
              (scanning_start n Hn) Hne Hfile)
    as (j & c & new & Hj & Hfc & Hnc & Hvc & Hnew & Hup & Hlow & Hret).
  cbn [phone_number result] in *.
  exists j, c, new. split; [done|]. split; [done|]. split; [done|].
  split.
  { unfold read_last_checked_number, bind, open_text. rewrite Hfc.
    unfold ret. by rewrite (readline_numeral c Hnc). }
  split; [done|]. split; [done|]. split; [done|].
  intros res Hres. destruct (Hret res Hres) as (Hsize & msg & Hc & Hmsg & Hkeys).
  rewrite map_size_empty in Hsize. split; [lia|].
  exists msg. split; [done|]. split; [done|].
  intros key d Hkey Hkc. destruct (Hkeys key d Hkey Hkc) as [Hold | H]; [|done].
  rewrite lookup_empty in Hold. discriminate Hold.
Qed.

Lemma validate_users_resumable_witness :
  numeral "4912345" = true /\
  cursor_file <> results_file /\
  fs (resume_at "4912345") !! cursor_file = Some (TextFile "4912345") /\
  exists (j : nat) c,
    (j <= 5)%nat /\
    numeral_value c = numeral_value "4912345" + Z.of_nat j /\
    read_last_checked_number cursor_file
      (snd (validate_users 5 1 third_is_found "4912345" cursor_file results_file
              (resume_at "4912345")))
    = (Ok c, snd (validate_users 5 1 third_is_found "4912345" cursor_file results_file
                    (resume_at "4912345"))).
Proof.
  assert (Hne : cursor_file <> results_file) by discriminate.
  split; [reflexivity|]. split; [exact Hne|]. split; [reflexivity|].
  destruct (validate_users_resumable 5 1 third_is_found "4912345" cursor_file results_file
              (resume_at "4912345") eq_refl Hne eq_refl)
    as (j & c & new & Hj & _ & Hv & Hr & _).
  exists j, c. auto.
Defined.
